(** * libocpp, OCPP 1.6 charge point: protocol runtime

    A shallow embedding of the parts of [lib/ocpp/v16/charge_point.cpp]
    that decide outbound gating, reconnect handling, inbound dispatch and
    the handlers for ChangeAvailability, StopTransactionResponse,
    RemoteStartTransaction, SendLocalList and GetLocalListVersion, and the
    authorization engine.

    Conventions.
    - [int32_t] values are [Z].  The embedded code computes with them only
      in loop counters, for which the model is exact as long as
      NumberOfConnectors is below the largest [int32_t], and in 64-bit
      [std::chrono] durations, taken without overflow.
    - Time points of [date::utc_clock] and [ocpp::DateTime] are [Z] counts of
      clock ticks (nanoseconds) since the epoch; clock readings are explicit
      arguments [now].
    - [std::map] is [gmap], [std::set] is [gset], [std::vector] is [list],
      [boost::optional] is [option].
    - The member objects of [ChargePoint] whose classes live in other files
      (configuration, database handler, transaction handler, connector state
      machine, message queue, websocket, smart charging handler) are records
      holding the data the embedded code reads and writes. *)

From Stdlib Require Import ZArith Bool List Lia.
From stdpp Require Import base tactics option list gmap strings pretty countable.

Local Open Scope Z_scope.

(** ** Enumerations *)

Module RegistrationStatus.
Inductive t := Accepted | Pending | Rejected.
#[global] Instance RegistrationStatus_eq_dec : EqDecision t.
Proof. solve_decision. Defined.
End RegistrationStatus.

Module ChargePointConnectionState.
Inductive t := Disconnected | Connected | Booted | Pending | Rejected.
#[global] Instance ChargePointConnectionState_eq_dec : EqDecision t.
Proof. solve_decision. Defined.
End ChargePointConnectionState.

Module AvailabilityType.
Inductive t := Inoperative | Operative.
#[global] Instance AvailabilityType_eq_dec : EqDecision t.
Proof. solve_decision. Defined.
End AvailabilityType.

Module AvailabilityStatus.
Inductive t := Accepted | Rejected | Scheduled.
#[global] Instance AvailabilityStatus_eq_dec : EqDecision t.
Proof. solve_decision. Defined.
End AvailabilityStatus.

Module AuthorizationStatus.
Inductive t := Accepted | Blocked | Expired | Invalid | ConcurrentTx.
#[global] Instance AuthorizationStatus_eq_dec : EqDecision t.
Proof. solve_decision. Defined.
End AuthorizationStatus.

Module UpdateType.
Inductive t := Differential | Full.
#[global] Instance UpdateType_eq_dec : EqDecision t.
Proof. solve_decision. Defined.
End UpdateType.

Module UpdateStatus.
Inductive t := Accepted | Failed | NotSupported | VersionMismatch.
#[global] Instance UpdateStatus_eq_dec : EqDecision t.
Proof. solve_decision. Defined.
End UpdateStatus.

Module RemoteStartStopStatus.
Inductive t := Accepted | Rejected.
#[global] Instance RemoteStartStopStatus_eq_dec : EqDecision t.
Proof. solve_decision. Defined.
End RemoteStartStopStatus.

Module ChargePointStatus.
Inductive t :=
  Available | Preparing | Charging | SuspendedEVSE | SuspendedEV
| Finishing | Reserved | Unavailable | Faulted.
#[global] Instance ChargePointStatus_eq_dec : EqDecision t.
Proof. solve_decision. Defined.
End ChargePointStatus.

Module ChargePointErrorCode.
Inductive t :=
  ConnectorLockFailure | EVCommunicationError | GroundFailure
| HighTemperature | InternalError | LocalListConflict | NoError
| OtherError | OverCurrentFailure | PowerMeterFailure
| PowerSwitchFailure | ReaderFailure | ResetFailure | UnderVoltage
| OverVoltage | WeakSignal.
#[global] Instance ChargePointErrorCode_eq_dec : EqDecision t.
Proof. solve_decision. Defined.
End ChargePointErrorCode.

Module ChargingProfilePurposeType.
Inductive t := ChargePointMaxProfile | TxDefaultProfile | TxProfile.
#[global] Instance ChargingProfilePurposeType_eq_dec : EqDecision t.
Proof. solve_decision. Defined.
End ChargingProfilePurposeType.

Module ChargingRateUnit.
Inductive t := A | W.
#[global] Instance ChargingRateUnit_eq_dec : EqDecision t.
Proof. solve_decision. Defined.
End ChargingRateUnit.

Module MessageTypeId.
Inductive t := CALL | CALLRESULT | CALLERROR | UNKNOWN.
#[global] Instance MessageTypeId_eq_dec : EqDecision t.
Proof. solve_decision. Defined.
End MessageTypeId.

Module SupportedFeatureProfiles.
Inductive t :=
  Core | FirmwareManagement | LocalAuthListManagement | Reservation
| SmartCharging | RemoteTrigger | Security.

Definition to_nat (p : t) : nat :=
  match p with
  | Core => 0 | FirmwareManagement => 1 | LocalAuthListManagement => 2
  | Reservation => 3 | SmartCharging => 4 | RemoteTrigger => 5
  | Security => 6
  end%nat.

Definition of_nat (n : nat) : option t :=
  match n with
  | 0 => Some Core | 1 => Some FirmwareManagement
  | 2 => Some LocalAuthListManagement | 3 => Some Reservation
  | 4 => Some SmartCharging | 5 => Some RemoteTrigger
  | 6 => Some Security | _ => None
  end%nat.

#[global] Instance SupportedFeatureProfiles_eq_dec : EqDecision t.
Proof. solve_decision. Defined.
#[global] Instance SupportedFeatureProfiles_countable : Countable t.
Proof. refine (inj_countable to_nat of_nat _). by intros []. Defined.
End SupportedFeatureProfiles.

(** The events of the connector state machine submitted by the charge point. *)
Inductive Event :=
| Event_UsageInitiated
| Event_StartCharging
| Event_PauseChargingEV
| Event_PauseChargingEVSE
| Event_TransactionStoppedAndUserActionRequired
| Event_ReserveConnector
| Event_BecomeAvailable
| Event_ChangeAvailabilityToUnavailable
| Event_FaultDetected (errorCode : ChargePointErrorCode.t)
| Event_I1_ReturnToAvailable.

#[global] Instance Event_eq_dec : EqDecision Event.
Proof. solve_decision. Defined.

(** The message types of OCPP 1.6 with the security extensions: every action
    and its response, and [InternalError], the type of a default-constructed
    [EnhancedMessage]. *)
Module MessageType.
Inductive t :=
  Authorize | AuthorizeResponse | BootNotification
  | BootNotificationResponse | CancelReservation | CancelReservationResponse
  | CertificateSigned | CertificateSignedResponse | ChangeAvailability
  | ChangeAvailabilityResponse | ChangeConfiguration
  | ChangeConfigurationResponse | ClearCache | ClearCacheResponse
  | ClearChargingProfile | ClearChargingProfileResponse | DataTransfer
  | DataTransferResponse | DeleteCertificate | DeleteCertificateResponse
  | DiagnosticsStatusNotification | DiagnosticsStatusNotificationResponse
  | ExtendedTriggerMessage | ExtendedTriggerMessageResponse
  | FirmwareStatusNotification | FirmwareStatusNotificationResponse
  | GetCompositeSchedule | GetCompositeScheduleResponse | GetConfiguration
  | GetConfigurationResponse | GetDiagnostics | GetDiagnosticsResponse
  | GetInstalledCertificateIds | GetInstalledCertificateIdsResponse
  | GetLocalListVersion | GetLocalListVersionResponse | GetLog
  | GetLogResponse | Heartbeat | HeartbeatResponse | InstallCertificate
  | InstallCertificateResponse | LogStatusNotification
  | LogStatusNotificationResponse | MeterValues | MeterValuesResponse
  | RemoteStartTransaction | RemoteStartTransactionResponse
  | RemoteStopTransaction | RemoteStopTransactionResponse | ReserveNow
  | ReserveNowResponse | Reset | ResetResponse | SecurityEventNotification
  | SecurityEventNotificationResponse | SendLocalList
  | SendLocalListResponse | SetChargingProfile | SetChargingProfileResponse
  | SignCertificate | SignCertificateResponse
  | SignedFirmwareStatusNotification
  | SignedFirmwareStatusNotificationResponse | SignedUpdateFirmware
  | SignedUpdateFirmwareResponse | StartTransaction
  | StartTransactionResponse | StatusNotification
  | StatusNotificationResponse | StopTransaction | StopTransactionResponse
  | TriggerMessage | TriggerMessageResponse | UnlockConnector
  | UnlockConnectorResponse | UpdateFirmware | UpdateFirmwareResponse
  | InternalError.

Definition to_nat (m : t) : nat :=
  match m with
  | Authorize => 0 | AuthorizeResponse => 1 | BootNotification => 2
  | BootNotificationResponse => 3 | CancelReservation => 4
  | CancelReservationResponse => 5 | CertificateSigned => 6
  | CertificateSignedResponse => 7 | ChangeAvailability => 8
  | ChangeAvailabilityResponse => 9 | ChangeConfiguration => 10
  | ChangeConfigurationResponse => 11 | ClearCache => 12
  | ClearCacheResponse => 13 | ClearChargingProfile => 14
  | ClearChargingProfileResponse => 15 | DataTransfer => 16
  | DataTransferResponse => 17 | DeleteCertificate => 18
  | DeleteCertificateResponse => 19 | DiagnosticsStatusNotification => 20
  | DiagnosticsStatusNotificationResponse => 21
  | ExtendedTriggerMessage => 22 | ExtendedTriggerMessageResponse => 23
  | FirmwareStatusNotification => 24
  | FirmwareStatusNotificationResponse => 25 | GetCompositeSchedule => 26
  | GetCompositeScheduleResponse => 27 | GetConfiguration => 28
  | GetConfigurationResponse => 29 | GetDiagnostics => 30
  | GetDiagnosticsResponse => 31 | GetInstalledCertificateIds => 32
  | GetInstalledCertificateIdsResponse => 33 | GetLocalListVersion => 34
  | GetLocalListVersionResponse => 35 | GetLog => 36 | GetLogResponse => 37
  | Heartbeat => 38 | HeartbeatResponse => 39 | InstallCertificate => 40
  | InstallCertificateResponse => 41 | LogStatusNotification => 42
  | LogStatusNotificationResponse => 43 | MeterValues => 44
  | MeterValuesResponse => 45 | RemoteStartTransaction => 46
  | RemoteStartTransactionResponse => 47 | RemoteStopTransaction => 48
  | RemoteStopTransactionResponse => 49 | ReserveNow => 50
  | ReserveNowResponse => 51 | Reset => 52 | ResetResponse => 53
  | SecurityEventNotification => 54
  | SecurityEventNotificationResponse => 55 | SendLocalList => 56
  | SendLocalListResponse => 57 | SetChargingProfile => 58
  | SetChargingProfileResponse => 59 | SignCertificate => 60
  | SignCertificateResponse => 61 | SignedFirmwareStatusNotification => 62
  | SignedFirmwareStatusNotificationResponse => 63
  | SignedUpdateFirmware => 64 | SignedUpdateFirmwareResponse => 65
  | StartTransaction => 66 | StartTransactionResponse => 67
  | StatusNotification => 68 | StatusNotificationResponse => 69
  | StopTransaction => 70 | StopTransactionResponse => 71
  | TriggerMessage => 72 | TriggerMessageResponse => 73
  | UnlockConnector => 74 | UnlockConnectorResponse => 75
  | UpdateFirmware => 76 | UpdateFirmwareResponse => 77
  | InternalError => 78
  end%nat.

Definition of_nat (n : nat) : option t :=
  match n with
  | 0 => Some Authorize | 1 => Some AuthorizeResponse
  | 2 => Some BootNotification | 3 => Some BootNotificationResponse
  | 4 => Some CancelReservation | 5 => Some CancelReservationResponse
  | 6 => Some CertificateSigned | 7 => Some CertificateSignedResponse
  | 8 => Some ChangeAvailability | 9 => Some ChangeAvailabilityResponse
  | 10 => Some ChangeConfiguration | 11 => Some ChangeConfigurationResponse
  | 12 => Some ClearCache | 13 => Some ClearCacheResponse
  | 14 => Some ClearChargingProfile
  | 15 => Some ClearChargingProfileResponse | 16 => Some DataTransfer
  | 17 => Some DataTransferResponse | 18 => Some DeleteCertificate
  | 19 => Some DeleteCertificateResponse
  | 20 => Some DiagnosticsStatusNotification
  | 21 => Some DiagnosticsStatusNotificationResponse
  | 22 => Some ExtendedTriggerMessage
  | 23 => Some ExtendedTriggerMessageResponse
  | 24 => Some FirmwareStatusNotification
  | 25 => Some FirmwareStatusNotificationResponse
  | 26 => Some GetCompositeSchedule
  | 27 => Some GetCompositeScheduleResponse | 28 => Some GetConfiguration
  | 29 => Some GetConfigurationResponse | 30 => Some GetDiagnostics
  | 31 => Some GetDiagnosticsResponse
  | 32 => Some GetInstalledCertificateIds
  | 33 => Some GetInstalledCertificateIdsResponse
  | 34 => Some GetLocalListVersion | 35 => Some GetLocalListVersionResponse
  | 36 => Some GetLog | 37 => Some GetLogResponse | 38 => Some Heartbeat
  | 39 => Some HeartbeatResponse | 40 => Some InstallCertificate
  | 41 => Some InstallCertificateResponse | 42 => Some LogStatusNotification
  | 43 => Some LogStatusNotificationResponse | 44 => Some MeterValues
  | 45 => Some MeterValuesResponse | 46 => Some RemoteStartTransaction
  | 47 => Some RemoteStartTransactionResponse
  | 48 => Some RemoteStopTransaction
  | 49 => Some RemoteStopTransactionResponse | 50 => Some ReserveNow
  | 51 => Some ReserveNowResponse | 52 => Some Reset
  | 53 => Some ResetResponse | 54 => Some SecurityEventNotification
  | 55 => Some SecurityEventNotificationResponse | 56 => Some SendLocalList
  | 57 => Some SendLocalListResponse | 58 => Some SetChargingProfile
  | 59 => Some SetChargingProfileResponse | 60 => Some SignCertificate
  | 61 => Some SignCertificateResponse
  | 62 => Some SignedFirmwareStatusNotification
  | 63 => Some SignedFirmwareStatusNotificationResponse
  | 64 => Some SignedUpdateFirmware
  | 65 => Some SignedUpdateFirmwareResponse | 66 => Some StartTransaction
  | 67 => Some StartTransactionResponse | 68 => Some StatusNotification
  | 69 => Some StatusNotificationResponse | 70 => Some StopTransaction
  | 71 => Some StopTransactionResponse | 72 => Some TriggerMessage
  | 73 => Some TriggerMessageResponse | 74 => Some UnlockConnector
  | 75 => Some UnlockConnectorResponse | 76 => Some UpdateFirmware
  | 77 => Some UpdateFirmwareResponse | 78 => Some InternalError
  | _ => None
  end%nat.

#[global] Instance MessageType_eq_dec : EqDecision t.
Proof.
  refine (fun x y => cast_if (decide (to_nat x = to_nat y))).
  - assert (Hx : of_nat (to_nat x) = Some x) by (by destruct x).
    assert (Hy : of_nat (to_nat y) = Some y) by (by destruct y).
    congruence.
  - congruence.
Defined.
#[global] Instance MessageType_countable : Countable t.
Proof. refine (inj_countable to_nat of_nat _). by intros []. Defined.
End MessageType.

(** ** Message payloads

    The structs of the OCPP message types, reduced to the fields the
    embedded code reads or writes.  Each struct is a record in a module of
    its name, so that the fields keep their names. *)

(** Message identifiers ([MessageId], a [CiString<36>]) and id tags
    ([CiString<20>]) are strings. *)
Definition MessageId : Type := string.
Definition IdToken : Type := string.

Module IdTagInfo.
Record t := mk {
  status : AuthorizationStatus.t;
  expiryDate : option Z;
  parentIdTag : option IdToken
}.
End IdTagInfo.

Module Call.
Record t (T : Type) := mk { msg : T; uniqueId : MessageId }.
Arguments mk {T} _ _.
Arguments msg {T} _.
Arguments uniqueId {T} _.
End Call.

Module CallResult.
Record t (T : Type) := mk { msg : T; uniqueId : MessageId }.
Arguments mk {T} _ _.
Arguments msg {T} _.
Arguments uniqueId {T} _.
End CallResult.

(** [CallError(uniqueId, errorCode, errorDescription, errorDetails)]; the
    only error built here has the empty object as details. *)
Module CallError.
Record t := mk {
  uniqueId : MessageId;
  errorCode : string;
  errorDescription : string
}.
End CallError.

(** *** Requests sent by the charge point *)

Module StatusNotificationRequest.
Record t := mk {
  connectorId : Z;
  errorCode : ChargePointErrorCode.t;
  info : option string;
  status : ChargePointStatus.t;
  timestamp : option Z
}.
End StatusNotificationRequest.

Module AuthorizeRequest.
Record t := mk { idTag : IdToken }.
End AuthorizeRequest.

(** The payload [T] of an outbound [ocpp::Call<T>].  Of the request types
    that no embedded function builds, only the action is kept. *)
Inductive Request :=
| Request_StatusNotification (req : StatusNotificationRequest.t)
| Request_Authorize (req : AuthorizeRequest.t)
| Request_other (action : MessageType.t).

(** [conversions::string_to_messagetype(message.at(CALL_ACTION))] of the
    JSON form of a call. *)
Definition call_action (call : Call.t Request) : MessageType.t :=
  match Call.msg call with
  | Request_StatusNotification _ => MessageType.StatusNotification
  | Request_Authorize _ => MessageType.Authorize
  | Request_other action => action
  end.

(** *** Responses sent by the charge point *)

Module ChangeAvailabilityResponse.
Record t := mk { status : AvailabilityStatus.t }.
End ChangeAvailabilityResponse.

Module RemoteStartTransactionResponse.
Record t := mk { status : RemoteStartStopStatus.t }.
End RemoteStartTransactionResponse.

Module SendLocalListResponse.
Record t := mk { status : UpdateStatus.t }.
End SendLocalListResponse.

Module GetLocalListVersionResponse.
Record t := mk { listVersion : Z }.
End GetLocalListVersionResponse.

Inductive Response :=
| Response_ChangeAvailability (r : ChangeAvailabilityResponse.t)
| Response_RemoteStartTransaction (r : RemoteStartTransactionResponse.t)
| Response_SendLocalList (r : SendLocalListResponse.t)
| Response_GetLocalListVersion (r : GetLocalListVersionResponse.t).

Definition response_type (r : Response) : MessageType.t :=
  match r with
  | Response_ChangeAvailability _ => MessageType.ChangeAvailabilityResponse
  | Response_RemoteStartTransaction _ =>
      MessageType.RemoteStartTransactionResponse
  | Response_SendLocalList _ => MessageType.SendLocalListResponse
  | Response_GetLocalListVersion _ => MessageType.GetLocalListVersionResponse
  end.

(** What the charge point hands to [Websocket::send] directly. *)
Inductive Frame :=
| Frame_CallResult (call_result : CallResult.t Response)
| Frame_CallError (call_error : CallError.t).

(** *** Messages received from the central system *)

Module ChangeAvailabilityRequest.
Record t := mk { connectorId : Z; type : AvailabilityType.t }.
End ChangeAvailabilityRequest.

Module ChargingProfile.
Record t := mk {
  chargingProfileId : Z;
  stackLevel : Z;
  chargingProfilePurpose : ChargingProfilePurposeType.t
}.
End ChargingProfile.

Module RemoteStartTransactionRequest.
Record t := mk {
  connectorId : option Z;
  idTag : IdToken;
  chargingProfile : option ChargingProfile.t
}.
End RemoteStartTransactionRequest.

Module LocalAuthorizationList.
Record t := mk { idTag : IdToken; idTagInfo : option IdTagInfo.t }.
End LocalAuthorizationList.

Module SendLocalListRequest.
Record t := mk {
  listVersion : Z;
  localAuthorizationList : option (list LocalAuthorizationList.t);
  updateType : UpdateType.t
}.
End SendLocalListRequest.

Module GetLocalListVersionRequest.
Record t := mk { }.
End GetLocalListVersionRequest.

Module StopTransactionResponse.
Record t := mk { idTagInfo : option IdTagInfo.t }.
End StopTransactionResponse.

Module BootNotificationResponse.
Record t := mk {
  status : RegistrationStatus.t;
  currentTime : Z;
  interval : Z
}.
End BootNotificationResponse.

Module AuthorizeResponse.
Record t := mk { idTagInfo : IdTagInfo.t }.
End AuthorizeResponse.

(** A parsed inbound JSON message.  The handlers take [ocpp::Call<T>] or
    [ocpp::CallResult<T>] arguments, so that passing them a [json] converts
    it; the conversion fails (throws) on a JSON of another shape. *)
Inductive json :=
| json_ChangeAvailability (call : Call.t ChangeAvailabilityRequest.t)
| json_RemoteStartTransaction (call : Call.t RemoteStartTransactionRequest.t)
| json_SendLocalList (call : Call.t SendLocalListRequest.t)
| json_GetLocalListVersion (call : Call.t GetLocalListVersionRequest.t)
| json_StopTransactionResponse
    (call_result : CallResult.t StopTransactionResponse.t)
| json_BootNotificationResponse
    (call_result : CallResult.t BootNotificationResponse.t)
| json_AuthorizeResponse (call_result : CallResult.t AuthorizeResponse.t)
| json_other.

Definition to_ChangeAvailability (j : json) :=
  match j with json_ChangeAvailability c => Some c | _ => None end.
Definition to_RemoteStartTransaction (j : json) :=
  match j with json_RemoteStartTransaction c => Some c | _ => None end.
Definition to_SendLocalList (j : json) :=
  match j with json_SendLocalList c => Some c | _ => None end.
Definition to_GetLocalListVersion (j : json) :=
  match j with json_GetLocalListVersion c => Some c | _ => None end.
Definition to_StopTransactionResponse (j : json) :=
  match j with json_StopTransactionResponse c => Some c | _ => None end.
Definition to_BootNotificationResponse (j : json) :=
  match j with json_BootNotificationResponse c => Some c | _ => None end.
Definition to_AuthorizeResponse (j : json) :=
  match j with json_AuthorizeResponse c => Some c | _ => None end.

(** [EnhancedMessage<v16::MessageType>]: what [MessageQueue::receive]
    returns and what the future of [push_async] resolves to. *)
Module EnhancedMessage.
Record t := mk {
  message : json;
  uniqueId : MessageId;
  messageTypeId : MessageTypeId.t;
  messageType : MessageType.t;
  offline : bool
}.
End EnhancedMessage.

(** ** The collaborators of the charge point

    The classes below are declared in other files of the library; the
    records hold what the embedded code reads and writes through them. *)

(** Modelled from the spec: the configuration store
    ([ChargePointConfiguration], an external collaborator).  A getter returns
    the stored value; [setHeartbeatInterval] stores its argument. *)
Module ChargePointConfiguration.
Record t := mk {
  getNumberOfConnectors : Z;
  getHeartbeatInterval : Z;
  getClockAlignedDataInterval : Z;
  getSupportedFeatureProfilesSet : gset SupportedFeatureProfiles.t;
  getSupportedMessageTypesReceiving : gset MessageType.t;
  getLocalAuthListEnabled : bool;
  getAuthorizationCacheEnabled : bool;
  getLocalPreAuthorize : bool;
  getLocalAuthorizeOffline : bool;
  getAllowOfflineTxForUnknownId : option bool;
  getAuthorizeRemoteTxRequests : bool;
  getChargeProfileMaxStackLevel : Z;
  getMaxChargingProfilesInstalled : Z;
  getChargingScheduleMaxPeriods : Z;
  getChargingScheduleAllowedChargingRateUnitVector : list ChargingRateUnit.t
}.

Definition setHeartbeatInterval (interval : Z) (c : t) : t :=
  mk (getNumberOfConnectors c) interval (getClockAlignedDataInterval c)
     (getSupportedFeatureProfilesSet c) (getSupportedMessageTypesReceiving c)
     (getLocalAuthListEnabled c) (getAuthorizationCacheEnabled c)
     (getLocalPreAuthorize c) (getLocalAuthorizeOffline c)
     (getAllowOfflineTxForUnknownId c) (getAuthorizeRemoteTxRequests c)
     (getChargeProfileMaxStackLevel c) (getMaxChargingProfilesInstalled c)
     (getChargingScheduleMaxPeriods c)
     (getChargingScheduleAllowedChargingRateUnitVector c).
End ChargePointConfiguration.

(** Modelled from the spec: the durable store interface ([DatabaseHandler],
    an external collaborator): connector availability, the local
    authorization list and its version, and the authorization cache, each a
    key-value table.  A differential list entry without [idTagInfo] removes
    the id tag, one with [idTagInfo] inserts or replaces it.  The tables of
    transactions and of charging profiles are not kept here. *)
Module DatabaseHandler.
Record t := mk {
  connector_availability : gmap Z AvailabilityType.t;
  local_list_version : Z;
  local_authorization_list : gmap string IdTagInfo.t;
  authorization_cache : gmap string IdTagInfo.t
}.

Definition get_connector_availability_map (db : t) :
    gmap Z AvailabilityType.t :=
  connector_availability db.

Definition get_connector_availability (db : t) (connector : Z) :
    AvailabilityType.t :=
  default AvailabilityType.Operative (connector_availability db !! connector).

Definition insert_or_update_connector_availability
    (connector : Z) (availability : AvailabilityType.t) (db : t) : t :=
  mk (<[connector := availability]> (connector_availability db))
     (local_list_version db) (local_authorization_list db)
     (authorization_cache db).

Definition insert_or_update_connector_availability_vector
    (connectors : list Z) (availability : AvailabilityType.t) (db : t) : t :=
  foldl (fun db connector =>
           insert_or_update_connector_availability connector availability db)
        db connectors.

Definition get_local_list_version (db : t) : Z := local_list_version db.

Definition insert_or_update_local_list_version (version : Z) (db : t) : t :=
  mk (connector_availability db) version (local_authorization_list db)
     (authorization_cache db).

Definition clear_local_authorization_list (db : t) : t :=
  mk (connector_availability db) (local_list_version db) ∅
     (authorization_cache db).

Definition insert_or_update_local_authorization_list
    (local_authorization_list' : list LocalAuthorizationList.t) (db : t) : t :=
  mk (connector_availability db) (local_list_version db)
     (foldl (fun m entry =>
               match LocalAuthorizationList.idTagInfo entry with
               | Some info => <[LocalAuthorizationList.idTag entry := info]> m
               | None => delete (LocalAuthorizationList.idTag entry) m
               end)
            (local_authorization_list db) local_authorization_list')
     (authorization_cache db).

Definition get_local_authorization_list_entry (db : t) (id_tag : IdToken) :
    option IdTagInfo.t :=
  local_authorization_list db !! id_tag.

Definition get_authorization_cache_entry (db : t) (id_tag : IdToken) :
    option IdTagInfo.t :=
  authorization_cache db !! id_tag.

Definition insert_or_update_authorization_cache_entry
    (id_tag : IdToken) (id_tag_info : IdTagInfo.t) (db : t) : t :=
  mk (connector_availability db) (local_list_version db)
     (local_authorization_list db)
     (<[id_tag := id_tag_info]> (authorization_cache db)).
End DatabaseHandler.

Module Transaction.
Record t := mk {
  connector : Z;
  session_id : string;
  id_tag : IdToken;
  transaction_id : Z;
  stop_transaction_message_id : string;
  finished : bool
}.
End Transaction.

(** Modelled from the spec: the transaction manager ([TransactionHandler],
    declared in another file): at most one active transaction per connector,
    and the transactions that are stopped but await their
    StopTransactionResponse, addressed by the StopTransaction message id. *)
Module TransactionHandler.
Record t := mk {
  active_transactions : gmap Z Transaction.t;
  stopped_transactions : list Transaction.t
}.

Definition get_transaction (h : t) (connector : Z) : option Transaction.t :=
  active_transactions h !! connector.

Definition transaction_active (h : t) (connector : Z) : bool :=
  bool_decide (is_Some (get_transaction h connector)).

Definition has_stop_message_id (message_id : string) (tx : Transaction.t) :
    bool :=
  bool_decide (Transaction.stop_transaction_message_id tx = message_id).

Definition get_authorized_id_tag (h : t) (stop_transaction_message_id : string)
    : option IdToken :=
  Transaction.id_tag <$>
    List.find (has_stop_message_id stop_transaction_message_id)
              (stopped_transactions h).

Definition erase_stopped_transaction (stop_transaction_message_id : string)
    (h : t) : t :=
  mk (active_transactions h)
     (List.filter
        (fun tx => negb (has_stop_message_id stop_transaction_message_id tx))
        (stopped_transactions h)).
End TransactionHandler.

(** Modelled from the spec: the connector state machines
    ([ChargePointStates], declared in another file), one per connector id.
    The transition table is a parameter ([transition]); [submit_event] applies
    it to the connector's state and is recorded in [submitted]; [run] puts
    every connector in its initial state, Available unless the persisted
    availability is Inoperative.  The debounced StatusNotification that a
    transition schedules is sent from a timer, after the handler returns. *)
Module ChargePointStates.
Record t := mk {
  transition : ChargePointStatus.t -> Event -> ChargePointStatus.t;
  state_machines : gmap Z ChargePointStatus.t;
  submitted : list (Z * Event)
}.

Definition get_state (s : t) (connector : Z) : ChargePointStatus.t :=
  default ChargePointStatus.Available (state_machines s !! connector).

Definition submit_event (connector : Z) (event : Event) (s : t) : t :=
  mk (transition s)
     (<[connector := transition s (get_state s connector) event]>
        (state_machines s))
     (submitted s ++ [(connector, event)]).

Definition initial_state (availability : AvailabilityType.t) :
    ChargePointStatus.t :=
  match availability with
  | AvailabilityType.Inoperative => ChargePointStatus.Unavailable
  | AvailabilityType.Operative => ChargePointStatus.Available
  end.

Definition run (connector_availability : gmap Z AvailabilityType.t) (s : t)
    : t :=
  mk (transition s) (initial_state <$> connector_availability) (submitted s).
End ChargePointStates.

(** Modelled from the spec: the smart charging handler (an external
    collaborator).  Profile validation is a parameter ([validate_profile]);
    [add_tx_profile] records the installed TxProfile.  [tx_profiles] stands
    for the installed TxProfiles wherever the handler keeps them, the
    charging profile table of the durable store included: that table is
    not part of [DatabaseHandler.t]. *)
Module SmartChargingHandler.
Record t := mk {
  validate_profile :
    ChargingProfile.t -> Z -> bool -> Z -> Z -> Z ->
    list ChargingRateUnit.t -> bool;
  tx_profiles : list (Z * ChargingProfile.t)
}.

Definition add_tx_profile (profile : ChargingProfile.t) (connector_id : Z)
    (h : t) : t :=
  mk (validate_profile h) (tx_profiles h ++ [(connector_id, profile)]).
End SmartChargingHandler.

(** Modelled from the spec: the message queue (declared in another file), as
    far as the charge point drives it: [createMessageId] draws from a
    counter, [push] and [push_async] enqueue a call at the back.  The future
    returned by [push_async] is resolved by the queue; what it resolves to is
    an argument of the function that awaits it. *)
Module MessageQueue.
Record t := mk {
  next_message_id : N;
  queue : list (Call.t Request)
}.

Definition createMessageId (q : t) : MessageId * t :=
  (pretty (next_message_id q), mk (N.succ (next_message_id q)) (queue q)).

Definition push (call : Call.t Request) (q : t) : t :=
  mk (next_message_id q) (queue q ++ [call]).

Definition push_async (call : Call.t Request) (q : t) : t := push call q.
End MessageQueue.

(** Modelled from the spec: the websocket transport (an external
    collaborator): whether it is connected, and the frames handed to
    [send]. *)
Module Websocket.
Record t := mk {
  is_connected : bool;
  sent : list Frame
}.

Definition send (frame : Frame) (w : t) : t :=
  mk (is_connected w) (sent w ++ [frame]).
End Websocket.

(** Operations on the timers of the charge point, in the order issued. *)
Inductive TimerOp :=
| heartbeat_timer_interval (seconds : Z)
| boot_notification_timer_timeout (seconds : Z)
| clock_aligned_meter_values_timer_at (time_point : Z).

(** Invocations of callbacks registered by the user of the library.  The
    callbacks run outside the charge point; the embedding records the call
    and its arguments. *)
Inductive CallbackInvocation :=
| enable_evse_callback_call (connector : Z)
| disable_evse_callback_call (connector : Z)
| provide_token_callback_call
    (id_token : string) (referenced_connectors : list Z) (prevalidated : bool).

(** The closures that the source stores in the member
    [switch_security_profile_callback]: the switch to a new security profile
    (stored by [handleChangeConfigurationRequest]) and the switch back to
    the configured one (stored by [switchSecurityProfile]). *)
Inductive SwitchSecurityProfileCallback :=
| switch_to_security_profile (security_profile : Z)
| switch_back_to_fallback.

(** Modelled from the spec: the PKI handler (an external collaborator, the
    PKI operations are out of scope): the operations that the charge point
    issues on it, in order. *)
Module PkiHandler.
Inductive Operation := removeCentralSystemFallbackCa_call.

Record t := mk {
  operations : list Operation
}.

Definition removeCentralSystemFallbackCa (p : t) : t :=
  mk (operations p ++ [removeCentralSystemFallbackCa_call]).
End PkiHandler.

(** ** The charge point

    The members of [ChargePoint] that the embedded functions read or write.
    [enable_evse_callback] and [disable_evse_callback] say whether the
    callback is registered (not [nullptr]); [timer_ops] and
    [callback_invocations] record, in order, the timer operations issued and
    the callbacks invoked; [leap_seconds] is the number of leap seconds of
    the time zone database, read when the clock-aligned timer is armed;
    [switch_security_profile_callback] is [None] for [nullptr]. *)
Record ChargePoint := mkChargePoint {
  initialized : bool;
  registration_status : RegistrationStatus.t;
  connection_state : ChargePointConnectionState.t;
  boot_time : Z;
  configuration : ChargePointConfiguration.t;
  database_handler : DatabaseHandler.t;
  transaction_handler : TransactionHandler.t;
  status : ChargePointStates.t;
  smart_charging_handler : SmartChargingHandler.t;
  change_availability_queue : gmap Z AvailabilityType.t;
  message_queue : MessageQueue.t;
  websocket : Websocket.t;
  timer_ops : list TimerOp;
  enable_evse_callback : bool;
  disable_evse_callback : bool;
  callback_invocations : list CallbackInvocation;
  leap_seconds : Z;
  switch_security_profile_callback : option SwitchSecurityProfileCallback;
  pki_handler : PkiHandler.t
}.

(** Field updates. *)
Definition set_initialized (v : bool) (cp : ChargePoint) : ChargePoint :=
  mkChargePoint v (registration_status cp) (connection_state cp)
    (boot_time cp) (configuration cp) (database_handler cp)
    (transaction_handler cp) (status cp) (smart_charging_handler cp)
    (change_availability_queue cp) (message_queue cp) (websocket cp)
    (timer_ops cp) (enable_evse_callback cp) (disable_evse_callback cp)
    (callback_invocations cp) (leap_seconds cp)
    (switch_security_profile_callback cp) (pki_handler cp).

Definition set_registration_status (v : RegistrationStatus.t) (cp : ChargePoint) : ChargePoint :=
  mkChargePoint (initialized cp) v (connection_state cp) (boot_time cp)
    (configuration cp) (database_handler cp) (transaction_handler cp)
    (status cp) (smart_charging_handler cp) (change_availability_queue cp)
    (message_queue cp) (websocket cp) (timer_ops cp)
    (enable_evse_callback cp) (disable_evse_callback cp)
    (callback_invocations cp) (leap_seconds cp)
    (switch_security_profile_callback cp) (pki_handler cp).

Definition set_connection_state (v : ChargePointConnectionState.t) (cp : ChargePoint) : ChargePoint :=
  mkChargePoint (initialized cp) (registration_status cp) v (boot_time cp)
    (configuration cp) (database_handler cp) (transaction_handler cp)
    (status cp) (smart_charging_handler cp) (change_availability_queue cp)
    (message_queue cp) (websocket cp) (timer_ops cp)
    (enable_evse_callback cp) (disable_evse_callback cp)
    (callback_invocations cp) (leap_seconds cp)
    (switch_security_profile_callback cp) (pki_handler cp).

Definition set_boot_time (v : Z) (cp : ChargePoint) : ChargePoint :=
  mkChargePoint (initialized cp) (registration_status cp)
    (connection_state cp) v (configuration cp) (database_handler cp)
    (transaction_handler cp) (status cp) (smart_charging_handler cp)
    (change_availability_queue cp) (message_queue cp) (websocket cp)
    (timer_ops cp) (enable_evse_callback cp) (disable_evse_callback cp)
    (callback_invocations cp) (leap_seconds cp)
    (switch_security_profile_callback cp) (pki_handler cp).

Definition set_configuration (v : ChargePointConfiguration.t) (cp : ChargePoint) : ChargePoint :=
  mkChargePoint (initialized cp) (registration_status cp)
    (connection_state cp) (boot_time cp) v (database_handler cp)
    (transaction_handler cp) (status cp) (smart_charging_handler cp)
    (change_availability_queue cp) (message_queue cp) (websocket cp)
    (timer_ops cp) (enable_evse_callback cp) (disable_evse_callback cp)
    (callback_invocations cp) (leap_seconds cp)
    (switch_security_profile_callback cp) (pki_handler cp).

Definition set_database_handler (v : DatabaseHandler.t) (cp : ChargePoint) : ChargePoint :=
  mkChargePoint (initialized cp) (registration_status cp)
    (connection_state cp) (boot_time cp) (configuration cp) v
    (transaction_handler cp) (status cp) (smart_charging_handler cp)
    (change_availability_queue cp) (message_queue cp) (websocket cp)
    (timer_ops cp) (enable_evse_callback cp) (disable_evse_callback cp)
    (callback_invocations cp) (leap_seconds cp)
    (switch_security_profile_callback cp) (pki_handler cp).

Definition set_transaction_handler (v : TransactionHandler.t) (cp : ChargePoint) : ChargePoint :=
  mkChargePoint (initialized cp) (registration_status cp)
    (connection_state cp) (boot_time cp) (configuration cp)
    (database_handler cp) v (status cp) (smart_charging_handler cp)
    (change_availability_queue cp) (message_queue cp) (websocket cp)
    (timer_ops cp) (enable_evse_callback cp) (disable_evse_callback cp)
    (callback_invocations cp) (leap_seconds cp)
    (switch_security_profile_callback cp) (pki_handler cp).

Definition set_status (v : ChargePointStates.t) (cp : ChargePoint) : ChargePoint :=
  mkChargePoint (initialized cp) (registration_status cp)
    (connection_state cp) (boot_time cp) (configuration cp)
    (database_handler cp) (transaction_handler cp) v
    (smart_charging_handler cp) (change_availability_queue cp)
    (message_queue cp) (websocket cp) (timer_ops cp)
    (enable_evse_callback cp) (disable_evse_callback cp)
    (callback_invocations cp) (leap_seconds cp)
    (switch_security_profile_callback cp) (pki_handler cp).

Definition set_smart_charging_handler (v : SmartChargingHandler.t) (cp : ChargePoint) : ChargePoint :=
  mkChargePoint (initialized cp) (registration_status cp)
    (connection_state cp) (boot_time cp) (configuration cp)
    (database_handler cp) (transaction_handler cp) (status cp) v
    (change_availability_queue cp) (message_queue cp) (websocket cp)
    (timer_ops cp) (enable_evse_callback cp) (disable_evse_callback cp)
    (callback_invocations cp) (leap_seconds cp)
    (switch_security_profile_callback cp) (pki_handler cp).

Definition set_change_availability_queue (v : gmap Z AvailabilityType.t) (cp : ChargePoint) : ChargePoint :=
  mkChargePoint (initialized cp) (registration_status cp)
    (connection_state cp) (boot_time cp) (configuration cp)
    (database_handler cp) (transaction_handler cp) (status cp)
    (smart_charging_handler cp) v (message_queue cp) (websocket cp)
    (timer_ops cp) (enable_evse_callback cp) (disable_evse_callback cp)
    (callback_invocations cp) (leap_seconds cp)
    (switch_security_profile_callback cp) (pki_handler cp).

Definition set_message_queue (v : MessageQueue.t) (cp : ChargePoint) : ChargePoint :=
  mkChargePoint (initialized cp) (registration_status cp)
    (connection_state cp) (boot_time cp) (configuration cp)
    (database_handler cp) (transaction_handler cp) (status cp)
    (smart_charging_handler cp) (change_availability_queue cp) v
    (websocket cp) (timer_ops cp) (enable_evse_callback cp)
    (disable_evse_callback cp) (callback_invocations cp) (leap_seconds cp)
    (switch_security_profile_callback cp) (pki_handler cp).

Definition set_websocket (v : Websocket.t) (cp : ChargePoint) : ChargePoint :=
  mkChargePoint (initialized cp) (registration_status cp)
    (connection_state cp) (boot_time cp) (configuration cp)
    (database_handler cp) (transaction_handler cp) (status cp)
    (smart_charging_handler cp) (change_availability_queue cp)
    (message_queue cp) v (timer_ops cp) (enable_evse_callback cp)
    (disable_evse_callback cp) (callback_invocations cp) (leap_seconds cp)
    (switch_security_profile_callback cp) (pki_handler cp).

Definition set_timer_ops (v : list TimerOp) (cp : ChargePoint) : ChargePoint :=
  mkChargePoint (initialized cp) (registration_status cp)
    (connection_state cp) (boot_time cp) (configuration cp)
    (database_handler cp) (transaction_handler cp) (status cp)
    (smart_charging_handler cp) (change_availability_queue cp)
    (message_queue cp) (websocket cp) v (enable_evse_callback cp)
    (disable_evse_callback cp) (callback_invocations cp) (leap_seconds cp)
    (switch_security_profile_callback cp) (pki_handler cp).

Definition set_callback_invocations (v : list CallbackInvocation) (cp : ChargePoint) : ChargePoint :=
  mkChargePoint (initialized cp) (registration_status cp)
    (connection_state cp) (boot_time cp) (configuration cp)
    (database_handler cp) (transaction_handler cp) (status cp)
    (smart_charging_handler cp) (change_availability_queue cp)
    (message_queue cp) (websocket cp) (timer_ops cp)
    (enable_evse_callback cp) (disable_evse_callback cp) v (leap_seconds cp)
    (switch_security_profile_callback cp) (pki_handler cp).

Definition set_switch_security_profile_callback (v : option SwitchSecurityProfileCallback) (cp : ChargePoint) : ChargePoint :=
  mkChargePoint (initialized cp) (registration_status cp)
    (connection_state cp) (boot_time cp) (configuration cp)
    (database_handler cp) (transaction_handler cp) (status cp)
    (smart_charging_handler cp) (change_availability_queue cp)
    (message_queue cp) (websocket cp) (timer_ops cp)
    (enable_evse_callback cp) (disable_evse_callback cp)
    (callback_invocations cp) (leap_seconds cp) v (pki_handler cp).

Definition set_pki_handler (v : PkiHandler.t) (cp : ChargePoint) : ChargePoint :=
  mkChargePoint (initialized cp) (registration_status cp)
    (connection_state cp) (boot_time cp) (configuration cp)
    (database_handler cp) (transaction_handler cp) (status cp)
    (smart_charging_handler cp) (change_availability_queue cp)
    (message_queue cp) (websocket cp) (timer_ops cp)
    (enable_evse_callback cp) (disable_evse_callback cp)
    (callback_invocations cp) (leap_seconds cp)
    (switch_security_profile_callback cp) v.

(** ** Outbound gating and sending *)

(** [std::chrono::seconds(s)] added to a time point of the clock. *)
Definition ticks_per_second : Z := 1000000000.
Definition seconds (s : Z) : Z := s * ticks_per_second.

Definition boot_or_stop (message_type : MessageType.t) : bool :=
  bool_decide (message_type = MessageType.BootNotification)
  || bool_decide (message_type = MessageType.StopTransaction).

(** [ChargePoint::allowed_to_send_message]; [message] is the call whose JSON
    form the source receives, [now] the reading of
    [date::utc_clock::now()]. *)
Definition allowed_to_send_message (cp : ChargePoint) (now : Z)
    (message : Call.t Request) : bool :=
  let message_type := call_action message in
  if negb (initialized cp) then
    if boot_or_stop message_type then true else false
  else if bool_decide (registration_status cp = RegistrationStatus.Rejected)
  then
    let retry_time :=
      boot_time cp
      + seconds (ChargePointConfiguration.getHeartbeatInterval
                   (configuration cp)) in
    if now <? retry_time then false else true
  else if bool_decide (registration_status cp = RegistrationStatus.Pending)
  then
    if boot_or_stop message_type then true else false
  else true.

(** [ChargePoint::send(ocpp::Call<T>)]. *)
Definition send (cp : ChargePoint) (now : Z) (call : Call.t Request) :
    bool * ChargePoint :=
  if allowed_to_send_message cp now call then
    (true, set_message_queue (MessageQueue.push call (message_queue cp)) cp)
  else (false, cp).

(** [ChargePoint::send_async(ocpp::Call<T>)]. *)
Definition send_async (cp : ChargePoint) (call : Call.t Request) :
    ChargePoint :=
  set_message_queue (MessageQueue.push_async call (message_queue cp)) cp.

(** [ChargePoint::send(ocpp::CallResult<T>)]. *)
Definition send_call_result (cp : ChargePoint)
    (call_result : CallResult.t Response) : ChargePoint :=
  set_websocket (Websocket.send (Frame_CallResult call_result) (websocket cp))
                cp.

(** [ChargePoint::send(CallError)]. *)
Definition send_call_error (cp : ChargePoint) (call_error : CallError.t) :
    ChargePoint :=
  set_websocket (Websocket.send (Frame_CallError call_error) (websocket cp))
                cp.

(** [ChargePoint::status_notification(connector, errorCode, status)]. *)
Definition status_notification (cp : ChargePoint) (now : Z) (connector : Z)
    (errorCode : ChargePointErrorCode.t) (status' : ChargePointStatus.t) :
    ChargePoint :=
  let request :=
    StatusNotificationRequest.mk connector errorCode None status' None in
  let '(message_id, mq) := MessageQueue.createMessageId (message_queue cp) in
  let cp := set_message_queue mq cp in
  (send cp now (Call.mk (Request_StatusNotification request) message_id)).2.

(** ** Connection life cycle *)

(** [ChargePoint::connected_callback]. *)
Definition connected_callback (cp : ChargePoint) (now : Z) : ChargePoint :=
  let cp := set_switch_security_profile_callback None cp in
  let cp :=
    set_pki_handler
      (PkiHandler.removeCentralSystemFallbackCa (pki_handler cp)) cp in
  match connection_state cp with
  | ChargePointConnectionState.Disconnected =>
      set_connection_state ChargePointConnectionState.Connected cp
  | ChargePointConnectionState.Booted =>
      foldl (fun cp connector =>
               status_notification cp now connector
                 ChargePointErrorCode.NoError
                 (ChargePointStates.get_state (status cp) connector))
            cp
            (seqZ 0 (ChargePointConfiguration.getNumberOfConnectors
                       (configuration cp) + 1))
  | _ => cp
  end.

Definition update_heartbeat_interval (cp : ChargePoint) : ChargePoint :=
  set_timer_ops
    (timer_ops cp ++
     [heartbeat_timer_interval
        (ChargePointConfiguration.getHeartbeatInterval (configuration cp))])
    cp.

(** [ChargePoint::update_clock_aligned_meter_values_interval]: the next
    multiple of the interval after midnight (UTC, shifted by the leap
    seconds).  Durations divide and convert by truncation. *)
Definition update_clock_aligned_meter_values_interval (cp : ChargePoint)
    (now : Z) : ChargePoint :=
  let clock_aligned_data_interval :=
    ChargePointConfiguration.getClockAlignedDataInterval (configuration cp) in
  if clock_aligned_data_interval =? 0 then cp
  else
    let midnight :=
      (now / seconds 86400) * seconds 86400 + seconds (leap_seconds cp) in
    let diff := now - midnight in
    let start :=
      Z.quot (Z.quot diff clock_aligned_data_interval) ticks_per_second
      * clock_aligned_data_interval
      + clock_aligned_data_interval in
    set_timer_ops
      (timer_ops cp ++
       [clock_aligned_meter_values_timer_at (midnight + seconds start)])
      cp.

(** [ChargePoint::handleBootNotificationResponse]. *)
Definition handleBootNotificationResponse (cp : ChargePoint) (now : Z)
    (call_result : CallResult.t BootNotificationResponse.t) : ChargePoint :=
  let msg := CallResult.msg call_result in
  let cp := set_registration_status (BootNotificationResponse.status msg) cp in
  let cp := set_initialized true cp in
  let cp := set_boot_time now cp in
  let cp :=
    if 0 <? BootNotificationResponse.interval msg then
      set_configuration
        (ChargePointConfiguration.setHeartbeatInterval
           (BootNotificationResponse.interval msg) (configuration cp))
        cp
    else cp in
  match BootNotificationResponse.status msg with
  | RegistrationStatus.Accepted =>
      let cp := set_connection_state ChargePointConnectionState.Booted cp in
      let cp := update_heartbeat_interval cp in
      let cp := update_clock_aligned_meter_values_interval cp now in
      let connector_availability :=
        DatabaseHandler.get_connector_availability_map (database_handler cp) in
      let connector_availability :=
        <[0 := AvailabilityType.Operative]> connector_availability in
      set_status (ChargePointStates.run connector_availability (status cp)) cp
  | RegistrationStatus.Pending =>
      let cp := set_connection_state ChargePointConnectionState.Pending cp in
      set_timer_ops
        (timer_ops cp ++
         [boot_notification_timer_timeout
            (BootNotificationResponse.interval msg)])
        cp
  | RegistrationStatus.Rejected =>
      let cp := set_connection_state ChargePointConnectionState.Rejected cp in
      set_timer_ops
        (timer_ops cp ++
         [boot_notification_timer_timeout
            (BootNotificationResponse.interval msg)])
        cp
  end.

(** ** Handlers of central system requests and responses *)

(** The body executed for one connector when an availability change is
    applied: the enable or disable callback if registered, then the event of
    the state machine.  Shared by [handleChangeAvailabilityRequest] and
    [handleStopTransactionResponse], which spell it out in the source. *)
Definition apply_availability (type : AvailabilityType.t) (cp : ChargePoint)
    (connector : Z) : ChargePoint :=
  match type with
  | AvailabilityType.Operative =>
      let cp :=
        if enable_evse_callback cp then
          set_callback_invocations
            (callback_invocations cp ++ [enable_evse_callback_call connector])
            cp
        else cp in
      set_status
        (ChargePointStates.submit_event connector Event_BecomeAvailable
           (status cp))
        cp
  | AvailabilityType.Inoperative =>
      let cp :=
        if disable_evse_callback cp then
          set_callback_invocations
            (callback_invocations cp ++ [disable_evse_callback_call connector])
            cp
        else cp in
      set_status
        (ChargePointStates.submit_event connector
           Event_ChangeAvailabilityToUnavailable (status cp))
        cp
  end.

(** The loop of [handleChangeAvailabilityRequest] for connector id 0: the
    state threaded through the iterations is the charge point, the vector
    [connectors] and the flag [transaction_running]. *)
Definition change_availability_scan (type : AvailabilityType.t)
    (acc : ChargePoint * list Z * bool) (connector : Z) :
    ChargePoint * list Z * bool :=
  let '(cp, connectors, transaction_running) := acc in
  if TransactionHandler.transaction_active (transaction_handler cp) connector
  then
    (set_change_availability_queue
       (<[connector := type]> (change_availability_queue cp)) cp,
     connectors, true)
  else (cp, connectors ++ [connector], transaction_running).

(** [ChargePoint::handleChangeAvailabilityRequest]. *)
Definition handleChangeAvailabilityRequest (cp : ChargePoint)
    (call : Call.t ChangeAvailabilityRequest.t) : ChargePoint :=
  let msg := Call.msg call in
  let connectorId := ChangeAvailabilityRequest.connectorId msg in
  let type := ChangeAvailabilityRequest.type msg in
  let number_of_connectors :=
    ChargePointConfiguration.getNumberOfConnectors (configuration cp) in
  let '(cp, response_status) :=
    if (connectorId <=? number_of_connectors) && (0 <=? connectorId) then
      let '(cp, connectors, transaction_running) :=
        if connectorId =? 0 then
          foldl (change_availability_scan type) (cp, [], false)
                (seqZ 1 number_of_connectors)
        else if TransactionHandler.transaction_active
                  (transaction_handler cp) connectorId
        then (cp, [], true)
        else (cp, [connectorId], false) in
      if transaction_running then (cp, AvailabilityStatus.Scheduled)
      else
        let cp :=
          set_database_handler
            (DatabaseHandler.insert_or_update_connector_availability_vector
               connectors type (database_handler cp))
            cp in
        let cp := foldl (apply_availability type) cp connectors in
        (cp, AvailabilityStatus.Accepted)
    else (cp, AvailabilityStatus.Rejected) in
  send_call_result cp
    (CallResult.mk
       (Response_ChangeAvailability
          (ChangeAvailabilityResponse.mk response_status))
       (Call.uniqueId call)).

(** [ChargePoint::handleStopTransactionResponse].  [operator[]] on the queue
    yields a value-initialised [AvailabilityType] when the connector has no
    entry; the entry is erased in either case. *)
Definition handleStopTransactionResponse (cp : ChargePoint)
    (call_result : CallResult.t StopTransactionResponse.t) : ChargePoint :=
  let stop_transaction_response := CallResult.msg call_result in
  let connector := 1 in
  let cp :=
    match StopTransactionResponse.idTagInfo stop_transaction_response with
    | Some id_tag_info =>
        match TransactionHandler.get_authorized_id_tag
                (transaction_handler cp) (CallResult.uniqueId call_result) with
        | Some id_tag =>
            set_database_handler
              (DatabaseHandler.insert_or_update_authorization_cache_entry
                 id_tag id_tag_info (database_handler cp))
              cp
        | None => cp
        end
    | None => cp
    end in
  let change_queued :=
    bool_decide (is_Some (change_availability_queue cp !! connector)) in
  let connector_availability :=
    default AvailabilityType.Inoperative
            (change_availability_queue cp !! connector) in
  let cp :=
    set_change_availability_queue
      (delete connector (change_availability_queue cp)) cp in
  let cp :=
    if change_queued then
      let cp :=
        set_database_handler
          (DatabaseHandler.insert_or_update_connector_availability
             connector connector_availability (database_handler cp))
          cp in
      apply_availability connector_availability cp connector
    else cp in
  set_transaction_handler
    (TransactionHandler.erase_stopped_transaction
       (CallResult.uniqueId call_result) (transaction_handler cp))
    cp.

(** [ChargePoint::handleRemoteStartTransactionRequest].
    [provide_token_callback] is invoked without a null check. *)
Definition handleRemoteStartTransactionRequest (cp : ChargePoint)
    (call : Call.t RemoteStartTransactionRequest.t) : ChargePoint :=
  let msg := Call.msg call in
  let respond cp status' :=
    send_call_result cp
      (CallResult.mk
         (Response_RemoteStartTransaction
            (RemoteStartTransactionResponse.mk status'))
         (Call.uniqueId call)) in
  let connector_rejected :=
    match RemoteStartTransactionRequest.connectorId msg with
    | Some connector =>
        if connector =? 0 then true
        else if bool_decide
                  (DatabaseHandler.get_connector_availability
                     (database_handler cp) connector
                   = AvailabilityType.Inoperative)
        then true
        else
          bool_decide
            (is_Some (TransactionHandler.get_transaction
                        (transaction_handler cp) connector))
          || bool_decide
               (ChargePointStates.get_state (status cp) connector
                = ChargePointStatus.Finishing)
    | None => false
    end in
  if connector_rejected then respond cp RemoteStartStopStatus.Rejected
  else
    let profile_installed : option ChargePoint :=
      match RemoteStartTransactionRequest.chargingProfile msg with
      | Some profile =>
          match RemoteStartTransactionRequest.connectorId msg with
          | Some connector_id =>
              let c := configuration cp in
              if bool_decide
                   (ChargingProfile.chargingProfilePurpose profile
                    = ChargingProfilePurposeType.TxProfile)
                 && SmartChargingHandler.validate_profile
                      (smart_charging_handler cp) profile connector_id true
                      (ChargePointConfiguration.getChargeProfileMaxStackLevel c)
                      (ChargePointConfiguration.getMaxChargingProfilesInstalled
                         c)
                      (ChargePointConfiguration.getChargingScheduleMaxPeriods c)
                      (ChargePointConfiguration.getChargingScheduleAllowedChargingRateUnitVector
                         c)
              then
                Some
                  (set_smart_charging_handler
                     (SmartChargingHandler.add_tx_profile profile connector_id
                        (smart_charging_handler cp))
                     cp)
              else None
          | None => None
          end
      | None => Some cp
      end in
    match profile_installed with
    | None => respond cp RemoteStartStopStatus.Rejected
    | Some cp =>
        let referenced_connectors :=
          match RemoteStartTransactionRequest.connectorId msg with
          | None =>
              seqZ 1 (ChargePointConfiguration.getNumberOfConnectors
                        (configuration cp))
          | Some connector_id => [connector_id]
          end in
        let cp := respond cp RemoteStartStopStatus.Accepted in
        let prevalidated :=
          if ChargePointConfiguration.getAuthorizeRemoteTxRequests
               (configuration cp)
          then false else true in
        set_callback_invocations
          (callback_invocations cp ++
           [provide_token_callback_call
              (RemoteStartTransactionRequest.idTag msg) referenced_connectors
              prevalidated])
          cp
    end.

(** [ChargePoint::handleSendLocalListRequest]. *)
Definition handleSendLocalListRequest (cp : ChargePoint)
    (call : Call.t SendLocalListRequest.t) : ChargePoint :=
  let msg := Call.msg call in
  let db := database_handler cp in
  let '(db, response_status) :=
    if negb (ChargePointConfiguration.getLocalAuthListEnabled
               (configuration cp))
    then (db, UpdateStatus.NotSupported)
    else if bool_decide (SendLocalListRequest.updateType msg = UpdateType.Full)
    then
      match SendLocalListRequest.localAuthorizationList msg with
      | Some local_auth_list =>
          let db := DatabaseHandler.clear_local_authorization_list db in
          let db :=
            DatabaseHandler.insert_or_update_local_list_version
              (SendLocalListRequest.listVersion msg) db in
          (DatabaseHandler.insert_or_update_local_authorization_list
             local_auth_list db,
           UpdateStatus.Accepted)
      | None =>
          let db :=
            DatabaseHandler.insert_or_update_local_list_version
              (SendLocalListRequest.listVersion msg) db in
          (DatabaseHandler.clear_local_authorization_list db,
           UpdateStatus.Accepted)
      end
    else if bool_decide
              (SendLocalListRequest.updateType msg = UpdateType.Differential)
    then
      match SendLocalListRequest.localAuthorizationList msg with
      | Some local_auth_list =>
          if DatabaseHandler.get_local_list_version db
             <? SendLocalListRequest.listVersion msg
          then
            let db :=
              DatabaseHandler.insert_or_update_local_list_version
                (SendLocalListRequest.listVersion msg) db in
            (DatabaseHandler.insert_or_update_local_authorization_list
               local_auth_list db,
             UpdateStatus.Accepted)
          else (db, UpdateStatus.VersionMismatch)
      | None => (db, UpdateStatus.Failed)
      end
    else (db, UpdateStatus.Failed) in
  send_call_result (set_database_handler db cp)
    (CallResult.mk
       (Response_SendLocalList (SendLocalListResponse.mk response_status))
       (Call.uniqueId call)).

(** [ChargePoint::handleGetLocalListVersionRequest]. *)
Definition handleGetLocalListVersionRequest (cp : ChargePoint)
    (call : Call.t GetLocalListVersionRequest.t) : ChargePoint :=
  let listVersion :=
    if negb (bool_decide
               (SupportedFeatureProfiles.LocalAuthListManagement
                ∈ ChargePointConfiguration.getSupportedFeatureProfilesSet
                    (configuration cp)))
    then -1
    else DatabaseHandler.get_local_list_version (database_handler cp) in
  send_call_result cp
    (CallResult.mk
       (Response_GetLocalListVersion
          (GetLocalListVersionResponse.mk listVersion))
       (Call.uniqueId call)).

(** ** Authorization *)

(** [ChargePoint::validate_against_cache_entries]; [now] is the value of
    the default-constructed [ocpp::DateTime()]. *)
Definition validate_against_cache_entries (cp : ChargePoint) (now : Z)
    (id_tag : IdToken) : bool * ChargePoint :=
  match DatabaseHandler.get_authorization_cache_entry (database_handler cp)
          id_tag with
  | Some cache_entry =>
      if bool_decide
           (IdTagInfo.status cache_entry = AuthorizationStatus.Accepted)
      then
        match IdTagInfo.expiryDate cache_entry with
        | Some expiry_date =>
            if expiry_date <? now then
              let cache_entry :=
                IdTagInfo.mk AuthorizationStatus.Expired
                  (IdTagInfo.expiryDate cache_entry)
                  (IdTagInfo.parentIdTag cache_entry) in
              (false,
               set_database_handler
                 (DatabaseHandler.insert_or_update_authorization_cache_entry
                    id_tag cache_entry (database_handler cp))
                 cp)
            else (true, cp)
        | None => (true, cp)
        end
      else (false, cp)
  | None => (false, cp)
  end.

(** The condition under which [authorize_id_token] authorizes locally. *)
Definition authorize_locally (cp : ChargePoint) : bool :=
  let c := configuration cp in
  let is_connected := Websocket.is_connected (websocket cp) in
  (ChargePointConfiguration.getLocalPreAuthorize c && is_connected)
  || (ChargePointConfiguration.getLocalAuthorizeOffline c && negb is_connected).

(** The statements of [authorize_id_token] up to the Authorize request: the
    lookup in the local list and in the cache.  [inl] is a [return] (or
    [None] inside it, the [bad_optional_access] of [.value()] on an empty
    optional); [inr] falls through to the request. *)
Definition authorize_id_token_local (cp : ChargePoint) (now : Z)
    (idTag : IdToken) : option (IdTagInfo.t * ChargePoint) + ChargePoint :=
  if authorize_locally cp then
    let auth_list_entry_opt :=
      if ChargePointConfiguration.getLocalAuthListEnabled (configuration cp)
      then DatabaseHandler.get_local_authorization_list_entry
             (database_handler cp) idTag
      else None in
    match auth_list_entry_opt with
    | Some auth_list_entry => inl (Some (auth_list_entry, cp))
    | None =>
        if ChargePointConfiguration.getAuthorizationCacheEnabled
             (configuration cp)
        then
          let '(valid, cp) := validate_against_cache_entries cp now idTag in
          if valid then
            inl (match DatabaseHandler.get_authorization_cache_entry
                         (database_handler cp) idTag with
                 | Some entry => Some (entry, cp)
                 | None => None
                 end)
          else inr cp
        else inr cp
    end
  else inr cp.

(** The statements of [authorize_id_token] from the Authorize request on;
    [enhanced_message] is what the future of [send_async] resolves to.
    [None] is the exception of converting a JSON that is no
    [CallResult<AuthorizeResponse>]. *)
Definition authorize_id_token_request (cp : ChargePoint) (idTag : IdToken)
    (enhanced_message : EnhancedMessage.t) :
    option (IdTagInfo.t * ChargePoint) :=
  let req := AuthorizeRequest.mk idTag in
  let '(message_id, mq) := MessageQueue.createMessageId (message_queue cp) in
  let cp := set_message_queue mq cp in
  let call := Call.mk (Request_Authorize req) message_id in
  let cp := send_async cp call in
  if bool_decide (EnhancedMessage.messageType enhanced_message
                  = MessageType.AuthorizeResponse)
  then
    match to_AuthorizeResponse (EnhancedMessage.message enhanced_message) with
    | Some call_result =>
        let id_tag_info :=
          AuthorizeResponse.idTagInfo (CallResult.msg call_result) in
        let cp :=
          if bool_decide
               (IdTagInfo.status id_tag_info = AuthorizationStatus.Accepted)
          then
            set_database_handler
              (DatabaseHandler.insert_or_update_authorization_cache_entry
                 idTag id_tag_info (database_handler cp))
              cp
          else cp in
        Some (id_tag_info, cp)
    | None => None
    end
  else
    let invalid := IdTagInfo.mk AuthorizationStatus.Invalid None None in
    if EnhancedMessage.offline enhanced_message then
      match ChargePointConfiguration.getAllowOfflineTxForUnknownId
              (configuration cp) with
      | Some true =>
          Some (IdTagInfo.mk AuthorizationStatus.Accepted None None, cp)
      | _ => Some (invalid, cp)
      end
    else Some (invalid, cp).

(** [ChargePoint::authorize_id_token].  The call blocks on the future; the
    embedding takes the resolution as an argument and leaves the charge
    point as it is while the call waits. *)
Definition authorize_id_token (cp : ChargePoint) (now : Z) (idTag : IdToken)
    (enhanced_message : EnhancedMessage.t) :
    option (IdTagInfo.t * ChargePoint) :=
  match authorize_id_token_local cp now idTag with
  | inl result => result
  | inr cp => authorize_id_token_request cp idTag enhanced_message
  end.

(** ** Inbound dispatch *)

(** What handling an inbound message comes to: the charge point after the
    handler; an exception of the conversion from JSON; or a handler that is
    not part of this development. *)
Inductive Outcome :=
| Handled (cp : ChargePoint)
| Throws
| NotEmbedded (message_type : MessageType.t).

Definition convert {T : Type} (converted : option T)
    (handler : T -> ChargePoint) : Outcome :=
  match converted with
  | Some argument => Handled (handler argument)
  | None => Throws
  end.

(** [ChargePoint::handle_message]. *)
Definition handle_message (cp : ChargePoint) (json_message : json)
    (message_type : MessageType.t) : Outcome :=
  match message_type with
  | MessageType.AuthorizeResponse => Handled cp
  | MessageType.DataTransferResponse => Handled cp
  | MessageType.ChangeAvailability =>
      convert (to_ChangeAvailability json_message)
              (handleChangeAvailabilityRequest cp)
  | MessageType.RemoteStartTransaction =>
      convert (to_RemoteStartTransaction json_message)
              (handleRemoteStartTransactionRequest cp)
  | MessageType.StopTransactionResponse =>
      convert (to_StopTransactionResponse json_message)
              (handleStopTransactionResponse cp)
  | MessageType.SendLocalList =>
      convert (to_SendLocalList json_message) (handleSendLocalListRequest cp)
  | MessageType.GetLocalListVersion =>
      convert (to_GetLocalListVersion json_message)
              (handleGetLocalListVersionRequest cp)
  | MessageType.CertificateSigned | MessageType.ChangeConfiguration
  | MessageType.ClearCache | MessageType.DataTransfer
  | MessageType.GetConfiguration | MessageType.RemoteStopTransaction
  | MessageType.Reset | MessageType.StartTransactionResponse
  | MessageType.UnlockConnector | MessageType.SetChargingProfile
  | MessageType.GetCompositeSchedule | MessageType.ClearChargingProfile
  | MessageType.TriggerMessage | MessageType.GetDiagnostics
  | MessageType.UpdateFirmware | MessageType.GetInstalledCertificateIds
  | MessageType.DeleteCertificate | MessageType.InstallCertificate
  | MessageType.GetLog | MessageType.SignedUpdateFirmware
  | MessageType.ReserveNow | MessageType.CancelReservation
  | MessageType.ExtendedTriggerMessage => NotEmbedded message_type
  | _ => Handled cp
  end.

Definition handle_boot_notification_response (cp : ChargePoint) (now : Z)
    (json_message : json) : Outcome :=
  convert (to_BootNotificationResponse json_message)
          (handleBootNotificationResponse cp now).

(** [ChargePoint::message_callback]; [enhanced_message] is the result of
    [message_queue->receive(message)]. *)
Definition message_callback (cp : ChargePoint) (now : Z)
    (enhanced_message : EnhancedMessage.t) : Outcome :=
  let json_message := EnhancedMessage.message enhanced_message in
  let message_type := EnhancedMessage.messageType enhanced_message in
  if bool_decide
       (message_type
        ∉ ChargePointConfiguration.getSupportedMessageTypesReceiving
            (configuration cp))
  then
    if bool_decide
         (EnhancedMessage.messageTypeId enhanced_message = MessageTypeId.CALL)
    then
      Handled
        (send_call_error cp
           (CallError.mk (EnhancedMessage.uniqueId enhanced_message)
                         "NotSupported" EmptyString))
    else Handled cp
  else
    match connection_state cp with
    | ChargePointConnectionState.Disconnected => Handled cp
    | ChargePointConnectionState.Connected =>
        if bool_decide (message_type = MessageType.BootNotificationResponse)
        then handle_boot_notification_response cp now json_message
        else Handled cp
    | ChargePointConnectionState.Rejected =>
        if bool_decide (registration_status cp = RegistrationStatus.Rejected)
        then
          if bool_decide (message_type = MessageType.BootNotificationResponse)
          then handle_boot_notification_response cp now json_message
          else Handled cp
        else Handled cp
    | ChargePointConnectionState.Pending =>
        if bool_decide (registration_status cp = RegistrationStatus.Pending)
        then
          if bool_decide (message_type = MessageType.BootNotificationResponse)
          then handle_boot_notification_response cp now json_message
          else handle_message cp json_message message_type
        else Handled cp
    | ChargePointConnectionState.Booted =>
        handle_message cp json_message message_type
    end.

(** ** Concrete charge points

    A charge point with two connectors, taken through its start, used to
    run the embedding on concrete inputs. *)

Definition example_configuration : ChargePointConfiguration.t :=
  ChargePointConfiguration.mk
    2 (* NumberOfConnectors *)
    300 (* HeartbeatInterval *)
    900 (* ClockAlignedDataInterval *)
    {[SupportedFeatureProfiles.Core;
      SupportedFeatureProfiles.LocalAuthListManagement]}
    {[MessageType.BootNotificationResponse; MessageType.ChangeAvailability;
      MessageType.RemoteStartTransaction; MessageType.StopTransactionResponse;
      MessageType.SendLocalList; MessageType.GetLocalListVersion;
      MessageType.AuthorizeResponse]}
    true (* LocalAuthListEnabled *)
    true (* AuthorizationCacheEnabled *)
    true (* LocalPreAuthorize *)
    true (* LocalAuthorizeOffline *)
    None (* AllowOfflineTxForUnknownId *)
    true (* AuthorizeRemoteTxRequests *)
    10 20 30 [ChargingRateUnit.A; ChargingRateUnit.W].

(** A transition table for the examples: availability events only. *)
Definition example_transition (s : ChargePointStatus.t) (e : Event) :
    ChargePointStatus.t :=
  match e with
  | Event_BecomeAvailable => ChargePointStatus.Available
  | Event_ChangeAvailabilityToUnavailable => ChargePointStatus.Unavailable
  | _ => s
  end.

Definition example_transaction (connector : Z) (stop_message_id : string) :
    Transaction.t :=
  Transaction.mk connector "session" "TAG01" 42 stop_message_id false.

Definition boot_notification_call : Call.t Request :=
  Call.mk (Request_other MessageType.BootNotification) "0".

Definition heartbeat_call : Call.t Request :=
  Call.mk (Request_other MessageType.Heartbeat) "1".

(** The charge point as [start] leaves it: not initialized, registration
    pending, the first BootNotification enqueued, the websocket connecting.
    All connectors are operative and the stored list version is 5. *)
Definition started_charge_point : ChargePoint :=
  mkChargePoint
    false RegistrationStatus.Pending ChargePointConnectionState.Disconnected
    0 example_configuration
    (DatabaseHandler.mk
       {[0 := AvailabilityType.Operative; 1 := AvailabilityType.Operative;
         2 := AvailabilityType.Operative]}
       5 ∅ ∅)
    (TransactionHandler.mk ∅ [])
    (ChargePointStates.mk example_transition ∅ [])
    (SmartChargingHandler.mk (fun _ _ _ _ _ _ _ => true) [])
    ∅ (MessageQueue.mk 1 [boot_notification_call]) (Websocket.mk true [])
    [] true true [] 27 None (PkiHandler.mk []).

(** The websocket has connected. *)
Definition connected_charge_point : ChargePoint :=
  connected_callback started_charge_point 0.

(** The BootNotificationResponse of the central system, with heartbeat
    interval 60 s, as [receive] returns it. *)
Definition boot_notification_response (status' : RegistrationStatus.t) :
    CallResult.t BootNotificationResponse.t :=
  CallResult.mk (BootNotificationResponse.mk status' 1000 60) "0".

Definition boot_notification_response_message
    (status' : RegistrationStatus.t) : EnhancedMessage.t :=
  EnhancedMessage.mk
    (json_BootNotificationResponse (boot_notification_response status'))
    "0" MessageTypeId.CALLRESULT MessageType.BootNotificationResponse false.

(** The charge point after the boot response, received at time 1000, was
    Accepted, Pending or Rejected. *)
Definition booted_charge_point : ChargePoint :=
  handleBootNotificationResponse connected_charge_point 1000
    (boot_notification_response RegistrationStatus.Accepted).


Definition pending_charge_point : ChargePoint :=
  handleBootNotificationResponse connected_charge_point 1000
    (boot_notification_response RegistrationStatus.Pending).

Definition rejected_charge_point : ChargePoint :=
  handleBootNotificationResponse connected_charge_point 1000
    (boot_notification_response RegistrationStatus.Rejected).

(** Booted, with a transaction active on connector 1. *)
Definition charging_charge_point : ChargePoint :=
  set_transaction_handler
    (TransactionHandler.mk {[1 := example_transaction 1 EmptyString]} [])
    booted_charge_point.

(** Booted; the transaction of connector 1 is active, the one of
    connector 2 is stopped and awaits its StopTransactionResponse (message
    id [stop-2]); a change to Inoperative is queued for both connectors. *)
Definition stopping_charge_point : ChargePoint :=
  set_change_availability_queue
    {[1 := AvailabilityType.Inoperative; 2 := AvailabilityType.Inoperative]}
    (set_transaction_handler
       (TransactionHandler.mk {[1 := example_transaction 1 EmptyString]}
          [example_transaction 2 "stop-2"])
       booted_charge_point).

(** Booted; the authorization cache holds TAG02, Accepted, expired at
    time 500. *)
Definition expired_cache_charge_point : ChargePoint :=
  set_database_handler
    (DatabaseHandler.insert_or_update_authorization_cache_entry "TAG02"
       (IdTagInfo.mk AuthorizationStatus.Accepted (Some 500) None)
       (database_handler booted_charge_point))
    booted_charge_point.

(** The same charge point, offline. *)
Definition offline_expired_cache_charge_point : ChargePoint :=
  set_websocket (Websocket.mk false []) expired_cache_charge_point.

(** An inbound GetLocalListVersion request as [receive] returns it. *)
Definition get_local_list_version_message : EnhancedMessage.t :=
  EnhancedMessage.mk
    (json_GetLocalListVersion (Call.mk GetLocalListVersionRequest.mk "cs-7"))
    "cs-7" MessageTypeId.CALL MessageType.GetLocalListVersion false.

(** What the future of an Authorize request resolves to when the queue is
    offline, and when the central system accepts the id tag. *)
Definition offline_message : EnhancedMessage.t :=
  EnhancedMessage.mk json_other EmptyString MessageTypeId.UNKNOWN
    MessageType.InternalError true.

Definition accepted_authorize_response : EnhancedMessage.t :=
  EnhancedMessage.mk
    (json_AuthorizeResponse
       (CallResult.mk
          (AuthorizeResponse.mk
             (IdTagInfo.mk AuthorizationStatus.Accepted (Some 9000) None))
          "1"))
    "1" MessageTypeId.CALLRESULT MessageType.AuthorizeResponse false.

(** A differential update to list version 7 and a full update to list
    version 3. *)
Definition differential_update_call : Call.t SendLocalListRequest.t :=
  Call.mk
    (SendLocalListRequest.mk 7
       (Some [LocalAuthorizationList.mk "TAG03"
                (Some (IdTagInfo.mk AuthorizationStatus.Accepted None None))])
       UpdateType.Differential)
    "cs-5".

Definition full_update_call : Call.t SendLocalListRequest.t :=
  Call.mk (SendLocalListRequest.mk 3 None UpdateType.Full) "cs-6".

(** A ChangeAvailability request to Inoperative. *)
Definition change_availability_call (connectorId : Z) :
    Call.t ChangeAvailabilityRequest.t :=
  Call.mk
    (ChangeAvailabilityRequest.mk connectorId AvailabilityType.Inoperative)
    "cs-3".

(** A RemoteStartTransaction request without charging profile. *)
Definition remote_start_call (connectorId : option Z) :
    Call.t RemoteStartTransactionRequest.t :=
  Call.mk (RemoteStartTransactionRequest.mk connectorId "TAG01" None) "cs-9".

(** ** Auxiliary definitions of the statements *)

(** The StatusNotification request that [connected_callback] builds for a
    connector. *)
Definition reconnect_status_request (cp : ChargePoint) (connector : Z) :
    Request :=
  Request_StatusNotification
    (StatusNotificationRequest.mk connector ChargePointErrorCode.NoError None
       (ChargePointStates.get_state (status cp) connector) None).

(** The event that applying an availability submits to the state machine. *)
Definition availability_event (type : AvailabilityType.t) : Event :=
  match type with
  | AvailabilityType.Operative => Event_BecomeAvailable
  | AvailabilityType.Inoperative => Event_ChangeAvailabilityToUnavailable
  end.

(** The connectors a ChangeAvailability request for [connectorId] targets:
    all physical connectors for id 0, the connector itself otherwise. *)
Definition targeted_connectors (cp : ChargePoint) (connectorId : Z) : list Z :=
  if connectorId =? 0 then
    seqZ 1 (ChargePointConfiguration.getNumberOfConnectors (configuration cp))
  else [connectorId].

(** The response a handler sent last, if the last frame is a response. *)
Definition last_response (cp : ChargePoint) : option Response :=
  match list.last (Websocket.sent (websocket cp)) with
  | Some (Frame_CallResult call_result) => Some (CallResult.msg call_result)
  | _ => None
  end.

Definition change_availability_response (status' : AvailabilityStatus.t) :
    Response :=
  Response_ChangeAvailability (ChangeAvailabilityResponse.mk status').

Definition send_local_list_response (status' : UpdateStatus.t) : Response :=
  Response_SendLocalList (SendLocalListResponse.mk status').

Definition remote_start_response (status' : RemoteStartStopStatus.t) :
    Response :=
  Response_RemoteStartTransaction (RemoteStartTransactionResponse.mk status').

(** A cache entry with its status set to Expired. *)
Definition expired_entry (cache_entry : IdTagInfo.t) : IdTagInfo.t :=
  IdTagInfo.mk AuthorizationStatus.Expired (IdTagInfo.expiryDate cache_entry)
    (IdTagInfo.parentIdTag cache_entry).

(** The charge point after the cache entry of [id_tag] was rewritten as
    expired. *)
Definition with_expired_entry (cp : ChargePoint) (id_tag : IdToken)
    (cache_entry : IdTagInfo.t) : ChargePoint :=
  set_database_handler
    (DatabaseHandler.insert_or_update_authorization_cache_entry id_tag
       (expired_entry cache_entry) (database_handler cp))
    cp.

(** The registration state is the same in two charge points. *)
Definition same_registration (cp cp' : ChargePoint) : Prop :=
  initialized cp' = initialized cp
  /\ registration_status cp' = registration_status cp
  /\ connection_state cp' = connection_state cp.

(** In the Booted state the charge point is initialized and accepted. *)
Definition booted_accepted (cp : ChargePoint) : Prop :=
  connection_state cp = ChargePointConnectionState.Booted ->
  initialized cp = true
  /\ registration_status cp = RegistrationStatus.Accepted.

(** Decides the range check of [handleChangeAvailabilityRequest] for a
    connector id [c] known to lie in 0..NumberOfConnectors. *)
Ltac connector_in_range c :=
  replace (c <=? _) with true by (symmetry; apply Z.leb_le; lia);
  replace (0 <=? c) with true by (symmetry; apply Z.leb_le; lia).

(** ** Further definitions of the statements *)

(** Midnight of the day of [now], shifted by the leap seconds, as
    [update_clock_aligned_meter_values_interval] computes it. *)
Definition aligned_midnight (cp : ChargePoint) (now : Z) : Z :=
  (now / seconds 86400) * seconds 86400 + seconds (leap_seconds cp).

(** The time from which [allowed_to_send_message] lets messages through
    while the registration is rejected. *)
Definition retry_time (cp : ChargePoint) : Z :=
  boot_time cp
  + seconds (ChargePointConfiguration.getHeartbeatInterval (configuration cp)).

(** The message id inside a parsed JSON message. *)
Definition json_uniqueId (j : json) : option MessageId :=
  match j with
  | json_ChangeAvailability call => Some (Call.uniqueId call)
  | json_RemoteStartTransaction call => Some (Call.uniqueId call)
  | json_SendLocalList call => Some (Call.uniqueId call)
  | json_GetLocalListVersion call => Some (Call.uniqueId call)
  | json_StopTransactionResponse call_result =>
      Some (CallResult.uniqueId call_result)
  | json_BootNotificationResponse call_result =>
      Some (CallResult.uniqueId call_result)
  | json_AuthorizeResponse call_result =>
      Some (CallResult.uniqueId call_result)
  | json_other => None
  end.

(** The response type of the requests whose handlers are embedded. *)
Definition response_message_type (request : MessageType.t) :
    option MessageType.t :=
  match request with
  | MessageType.ChangeAvailability =>
      Some MessageType.ChangeAvailabilityResponse
  | MessageType.RemoteStartTransaction =>
      Some MessageType.RemoteStartTransactionResponse
  | MessageType.SendLocalList => Some MessageType.SendLocalListResponse
  | MessageType.GetLocalListVersion =>
      Some MessageType.GetLocalListVersionResponse
  | _ => None
  end.

(** Between [cp] and [cp'] one response of type [type] for message id
    [uniqueId] went out on the websocket, and the queue of calls is the
    same. *)
Definition answered (cp cp' : ChargePoint) (uniqueId : MessageId)
    (type : MessageType.t) : Prop :=
  message_queue cp' = message_queue cp
  /\ exists response,
      Websocket.sent (websocket cp')
      = Websocket.sent (websocket cp)
        ++ [Frame_CallResult (CallResult.mk response uniqueId)]
      /\ response_type response = type.


(** The Authorize call that [authorize_id_token] submits from the charge
    point [cp]. *)
Definition authorize_call (cp : ChargePoint) (idTag : IdToken) :
    Call.t Request :=
  Call.mk (Request_Authorize (AuthorizeRequest.mk idTag))
    (pretty (MessageQueue.next_message_id (message_queue cp))).

(** A cache entry that [validate_against_cache_entries] accepts at time
    [now]. *)
Definition cache_entry_valid (now : Z) (cache_entry : IdTagInfo.t) : Prop :=
  IdTagInfo.status cache_entry = AuthorizationStatus.Accepted
  /\ forall expiry_date,
       IdTagInfo.expiryDate cache_entry = Some expiry_date ->
       now <= expiry_date.

(** The id tags that a local authorization list of a request mentions. *)
Definition mentioned (id_tag : IdToken)
    (local_authorization_list : option (list LocalAuthorizationList.t)) :
    Prop :=
  match local_authorization_list with
  | Some entries => id_tag ∈ LocalAuthorizationList.idTag <$> entries
  | None => False
  end.

(** ** Further concrete charge points *)

(** Booted, after the differential update that puts TAG03 in the local
    list. *)
Definition local_list_charge_point : ChargePoint :=
  handleSendLocalListRequest booted_charge_point differential_update_call.

(** Booted; the cache holds TAG04, Accepted, without expiry date. *)
Definition valid_cache_charge_point : ChargePoint :=
  set_database_handler
    (DatabaseHandler.insert_or_update_authorization_cache_entry "TAG04"
       (IdTagInfo.mk AuthorizationStatus.Accepted None None)
       (database_handler booted_charge_point))
    booted_charge_point.



(** A Blocked answer of the central system to an Authorize request. *)
Definition blocked_authorize_response : EnhancedMessage.t :=
  EnhancedMessage.mk
    (json_AuthorizeResponse
       (CallResult.mk
          (AuthorizeResponse.mk
             (IdTagInfo.mk AuthorizationStatus.Blocked None None))
          "1"))
    "1" MessageTypeId.CALLRESULT MessageType.AuthorizeResponse false.

(** Booted; the transaction of connector 1 has stopped and awaits its
    StopTransactionResponse (message id [stop-1]), and a change of
    connector 1 to Inoperative is still queued. *)
Definition stopped_with_queued_change : ChargePoint :=
  set_change_availability_queue {[1 := AvailabilityType.Inoperative]}
    (set_transaction_handler
       (TransactionHandler.mk ∅ [example_transaction 1 "stop-1"])
       booted_charge_point).

(** A ChangeAvailability request to Operative. *)
Definition make_operative_call (connectorId : Z) :
    Call.t ChangeAvailabilityRequest.t :=
  Call.mk (ChangeAvailabilityRequest.mk connectorId AvailabilityType.Operative)
    "cs-4".

(** The callback that applying an availability invokes for a connector. *)
Definition availability_callback (type : AvailabilityType.t) (connector : Z) :
    CallbackInvocation :=
  match type with
  | AvailabilityType.Operative => enable_evse_callback_call connector
  | AvailabilityType.Inoperative => disable_evse_callback_call connector
  end.

Definition availability_callback_registered (type : AvailabilityType.t)
    (cp : ChargePoint) : bool :=
  match type with
  | AvailabilityType.Operative => enable_evse_callback cp
  | AvailabilityType.Inoperative => disable_evse_callback cp
  end.

(** ** Further functions of the charge point

    The functions below send responses of types, and invoke callbacks,
    beyond those above.  What such a function does to the outside is its
    list of effects, in the order of the source: a response handed to
    [send], or a callback invoked with its arguments. *)

Module Reason.
Inductive t :=
  EmergencyStop | EVDisconnected | HardReset | Local | Other | PowerLoss
| Reboot | Remote | SoftReset | UnlockCommand | DeAuthorized.
#[global] Instance Reason_eq_dec : EqDecision t.
Proof. solve_decision. Defined.
End Reason.

Module UnlockStatus.
Inductive t := Unlocked | UnlockFailed | NotSupported.
#[global] Instance UnlockStatus_eq_dec : EqDecision t.
Proof. solve_decision. Defined.
End UnlockStatus.

Module ClearCacheStatus.
Inductive t := Accepted | Rejected.
#[global] Instance ClearCacheStatus_eq_dec : EqDecision t.
Proof. solve_decision. Defined.
End ClearCacheStatus.

Module DataTransferStatus.
Inductive t := Accepted | Rejected | UnknownMessageId | UnknownVendorId.
#[global] Instance DataTransferStatus_eq_dec : EqDecision t.
Proof. solve_decision. Defined.
End DataTransferStatus.

Module UnlockConnectorRequest.
Record t := mk { connectorId : Z }.
End UnlockConnectorRequest.

Module RemoteStopTransactionRequest.
Record t := mk { transactionId : Z }.
End RemoteStopTransactionRequest.

Module DataTransferRequest.
Record t := mk {
  vendorId : string;
  messageId : option string;
  data : option string
}.
End DataTransferRequest.

(** An effect of a handler: [R] is the type of the response (its status),
    [C] the type of the data-transfer callbacks. *)
Inductive Effect (R C : Type) :=
| effect_send (response : R) (uniqueId : MessageId)
| effect_stop_transaction_callback (connector : Z) (reason : Reason.t)
| effect_unlock_connector_callback (connector : Z)
| effect_data_transfer_callback (callback : C) (data : string).
Arguments effect_send {R C} _ _.
Arguments effect_stop_transaction_callback {R C} _ _.
Arguments effect_unlock_connector_callback {R C} _.
Arguments effect_data_transfer_callback {R C} _ _.

(** [ChargePoint::handleUnlockConnectorRequest];
    [unlock_connector_callback] is the registered callback, if any, with the
    result it returns for a connector.  [stop_transaction_callback] is
    invoked without a null check. *)
Definition handleUnlockConnectorRequest (cp : ChargePoint)
    (unlock_connector_callback : option (Z -> bool))
    (call : Call.t UnlockConnectorRequest.t) :
    list (Effect UnlockStatus.t Empty_set) :=
  let connector := UnlockConnectorRequest.connectorId (Call.msg call) in
  let '(effects, response_status) :=
    if (connector =? 0)
       || (ChargePointConfiguration.getNumberOfConnectors (configuration cp)
           <? connector)
    then ([], UnlockStatus.NotSupported)
    else
      let effects :=
        if TransactionHandler.transaction_active (transaction_handler cp)
             connector
        then [effect_stop_transaction_callback connector Reason.UnlockCommand]
        else [] in
      match unlock_connector_callback with
      | Some callback =>
          (effects ++ [effect_unlock_connector_callback connector],
           if callback connector then UnlockStatus.Unlocked
           else UnlockStatus.UnlockFailed)
      | None => (effects, UnlockStatus.NotSupported)
      end in
  effects ++ [effect_send response_status (Call.uniqueId call)].

(** Modelled from the spec: [TransactionHandler::get_connector_from_transaction_id]
    (the transaction manager is declared in another file): the connector of
    an active transaction with that transaction id, -1 if there is none. *)
Definition get_connector_from_transaction_id (h : TransactionHandler.t)
    (transaction_id : Z) : Z :=
  default (-1)
    (Transaction.connector <$>
       List.find
         (fun tx => bool_decide (Transaction.transaction_id tx = transaction_id))
         ((map_to_list (TransactionHandler.active_transactions h)).*2)).

(** [ChargePoint::handleRemoteStopTransactionRequest]. *)
Definition handleRemoteStopTransactionRequest (cp : ChargePoint)
    (call : Call.t RemoteStopTransactionRequest.t) :
    list (Effect RemoteStartStopStatus.t Empty_set) :=
  let connector :=
    get_connector_from_transaction_id (transaction_handler cp)
      (RemoteStopTransactionRequest.transactionId (Call.msg call)) in
  let response_status :=
    if 0 <? connector then RemoteStartStopStatus.Accepted
    else RemoteStartStopStatus.Rejected in
  [effect_send response_status (Call.uniqueId call)]
  ++ (if 0 <? connector
      then [effect_stop_transaction_callback connector Reason.Remote]
      else []).

(** Modelled from the spec: [DatabaseHandler::clear_authorization_cache]
    (the durable store is an external collaborator) empties the cache. *)
Definition clear_authorization_cache (db : DatabaseHandler.t) :
    DatabaseHandler.t :=
  DatabaseHandler.mk (DatabaseHandler.connector_availability db)
    (DatabaseHandler.local_list_version db)
    (DatabaseHandler.local_authorization_list db) ∅.

(** [ChargePoint::handleClearCacheRequest]: the charge point afterwards and
    the response sent. *)
Definition handleClearCacheRequest (cp : ChargePoint) (uniqueId : MessageId) :
    ChargePoint * list (Effect ClearCacheStatus.t Empty_set) :=
  if ChargePointConfiguration.getAuthorizationCacheEnabled (configuration cp)
  then
    (set_database_handler (clear_authorization_cache (database_handler cp))
       cp,
     [effect_send ClearCacheStatus.Accepted uniqueId])
  else (cp, [effect_send ClearCacheStatus.Rejected uniqueId]).

(** [ChargePoint::register_data_transfer_callback] on the member
    [data_transfer_callbacks], a map from vendor id to a map from message id
    to callback. *)
Definition register_data_transfer_callback {C : Type}
    (vendorId messageId : string) (callback : C)
    (data_transfer_callbacks : gmap string (gmap string C)) :
    gmap string (gmap string C) :=
  <[vendorId :=
      <[messageId := callback]>
        (default ∅ (data_transfer_callbacks !! vendorId))]>
    data_transfer_callbacks.

(** [ChargePoint::handleDataTransferRequest]. *)
Definition handleDataTransferRequest {C : Type}
    (data_transfer_callbacks : gmap string (gmap string C))
    (call : Call.t DataTransferRequest.t) :
    list (Effect DataTransferStatus.t C) :=
  let msg := Call.msg call in
  let vendorId := DataTransferRequest.vendorId msg in
  let messageId := default EmptyString (DataTransferRequest.messageId msg) in
  let '(response_status, callback) :=
    match data_transfer_callbacks !! vendorId with
    | None => (DataTransferStatus.UnknownVendorId, None)
    | Some callbacks =>
        match callbacks !! messageId with
        | None => (DataTransferStatus.UnknownMessageId, None)
        | Some callback => (DataTransferStatus.Accepted, Some callback)
        end
    end in
  [effect_send response_status (Call.uniqueId call)]
  ++ match callback with
     | Some callback =>
         [effect_data_transfer_callback callback
            (default EmptyString (DataTransferRequest.data msg))]
     | None => []
     end.

(** [ChargePoint::get_all_composite_charging_schedules].  The calls to the
    smart charging handler ([get_valid_profiles], then
    [calculate_composite_schedule] in Ampere) are the parameter
    [composite_schedule] of start time, end time and connector; [clock]
    gives the time read in the iteration of a connector. *)
Definition get_all_composite_charging_schedules {ChargingSchedule : Type}
    (composite_schedule : Z -> Z -> Z -> ChargingSchedule)
    (cp : ChargePoint) (clock : Z -> Z) (duration_s : Z) :
    gmap Z ChargingSchedule :=
  foldl (fun charging_schedules connector_id =>
           let start_time := clock connector_id in
           let end_time := start_time + seconds duration_s in
           <[connector_id :=
               composite_schedule start_time end_time connector_id]>
             charging_schedules)
        ∅
        (seqZ 0 (ChargePointConfiguration.getNumberOfConnectors
                   (configuration cp))).

(** The example charge point with a transaction (id 42) on connector 1. *)
Definition example_unlock_call (connectorId : Z) :
    Call.t UnlockConnectorRequest.t :=
  Call.mk (UnlockConnectorRequest.mk connectorId) "cs-11".

Definition example_data_transfer_call (messageId : option string) :
    Call.t DataTransferRequest.t :=
  Call.mk (DataTransferRequest.mk "vendor" messageId (Some "payload")) "cs-12".

(** ** Properties of outbound gating *)

Lemma boot_or_stop_spec message_type :
  boot_or_stop message_type = true <->
  message_type = MessageType.BootNotification
  \/ message_type = MessageType.StopTransaction.
Proof.
  unfold boot_or_stop. rewrite orb_true_iff, !bool_decide_eq_true. tauto.
Qed.

(** While the registration is rejected, nothing is allowed before the retry
    time. *)
Lemma allowed_to_send_message_rejected_early cp now message :
  initialized cp = true ->
  registration_status cp = RegistrationStatus.Rejected ->
  now < boot_time cp
        + seconds (ChargePointConfiguration.getHeartbeatInterval
                     (configuration cp)) ->
  allowed_to_send_message cp now message = false.
Proof.
  intros Hi Hr Hnow. unfold allowed_to_send_message.
  rewrite Hi, Hr. simpl.
  destruct (Z.ltb_spec now
              (boot_time cp
               + seconds (ChargePointConfiguration.getHeartbeatInterval
                            (configuration cp)))); [done | lia].
Qed.

(** While the registration is rejected, every message type is allowed from
    the retry time on. *)
Lemma allowed_to_send_message_rejected_late cp now message :
  initialized cp = true ->
  registration_status cp = RegistrationStatus.Rejected ->
  boot_time cp
  + seconds (ChargePointConfiguration.getHeartbeatInterval (configuration cp))
  <= now ->
  allowed_to_send_message cp now message = true.
Proof.
  intros Hi Hr Hnow. unfold allowed_to_send_message.
  rewrite Hi, Hr. simpl.
  destruct (Z.ltb_spec now
              (boot_time cp
               + seconds (ChargePointConfiguration.getHeartbeatInterval
                            (configuration cp)))); [lia | done].
Qed.

(** Before a boot response and while the registration is pending, exactly
    BootNotification and StopTransaction are allowed. *)
Lemma allowed_to_send_message_not_booted cp now message :
  initialized cp = false
  \/ registration_status cp = RegistrationStatus.Pending ->
  allowed_to_send_message cp now message = boot_or_stop (call_action message).
Proof.
  intros H. unfold allowed_to_send_message.
  destruct (initialized cp); simpl; [|by destruct (boot_or_stop _)].
  destruct H as [H|H]; [done|]. rewrite H. simpl.
  by destruct (boot_or_stop _).
Qed.

(** Once accepted, everything is allowed. *)
Lemma allowed_to_send_message_accepted cp now message :
  initialized cp = true ->
  registration_status cp = RegistrationStatus.Accepted ->
  allowed_to_send_message cp now message = true.
Proof.
  intros Hi Hr. unfold allowed_to_send_message. by rewrite Hi, Hr.
Qed.

(** C1. The boot response, received at time 1000 with heartbeat
    interval 60 s, was Rejected.  One tick before the retry time
    [allowed_to_send_message] refuses a Heartbeat; at the retry time it
    allows it, and [send] enqueues it.  The specification permits only a
    BootNotification there. *)
Theorem C1_rejected_allows_heartbeat_after_retry :
  let now := 1000 + seconds 60 in
  message_callback connected_charge_point 1000
    (boot_notification_response_message RegistrationStatus.Rejected)
  = Handled rejected_charge_point
  /\ initialized rejected_charge_point = true
  /\ registration_status rejected_charge_point = RegistrationStatus.Rejected
  /\ boot_time rejected_charge_point
     + seconds (ChargePointConfiguration.getHeartbeatInterval
                  (configuration rejected_charge_point))
     = now
  /\ call_action heartbeat_call = MessageType.Heartbeat
  /\ allowed_to_send_message rejected_charge_point (now - 1) heartbeat_call
     = false
  /\ allowed_to_send_message rejected_charge_point now heartbeat_call = true
  /\ MessageQueue.queue
       (message_queue (send rejected_charge_point now heartbeat_call).2)
     = MessageQueue.queue (message_queue rejected_charge_point)
       ++ [heartbeat_call].
Proof. by vm_compute. Qed.

(** [send] either enqueues the call at the back of the queue or leaves the
    charge point as it is; it never writes to the websocket. *)
Lemma send_spec cp now call :
  send cp now call
  = if allowed_to_send_message cp now call
    then (true,
          set_message_queue
            (MessageQueue.mk
               (MessageQueue.next_message_id (message_queue cp))
               (MessageQueue.queue (message_queue cp) ++ [call]))
            cp)
    else (false, cp).
Proof. reflexivity. Qed.

(** C2, as amended. Through [send] for calls, as long as no boot response
    was received, or the registration is pending, or it is rejected and the
    retry time is not reached, a call is enqueued only if it is a
    BootNotification or a StopTransaction; a refused call changes nothing,
    and the websocket is not written. *)
Theorem C2_send_gated_before_accepted cp now call :
  initialized cp = false
  \/ registration_status cp = RegistrationStatus.Pending
  \/ (registration_status cp = RegistrationStatus.Rejected
      /\ now < boot_time cp
               + seconds (ChargePointConfiguration.getHeartbeatInterval
                            (configuration cp))) ->
  ((send cp now call).1 = true ->
   call_action call = MessageType.BootNotification
   \/ call_action call = MessageType.StopTransaction)
  /\ ((send cp now call).1 = false -> (send cp now call).2 = cp)
  /\ websocket (send cp now call).2 = websocket cp
  /\ MessageQueue.queue (message_queue (send cp now call).2)
     = MessageQueue.queue (message_queue cp)
       ++ (if (send cp now call).1 then [call] else []).
Proof.
  intros H. rewrite send_spec.
  assert (Hgate : allowed_to_send_message cp now call = true ->
                  boot_or_stop (call_action call) = true).
  { destruct (initialized cp) eqn:Hi.
    - destruct H as [H|[H|[H1 H2]]]; [done| |].
      + rewrite allowed_to_send_message_not_booted by auto. done.
      + rewrite allowed_to_send_message_rejected_early by auto. done.
    - rewrite allowed_to_send_message_not_booted by auto. done. }
  destruct (allowed_to_send_message cp now call); simpl.
  - split; [intros _; by apply boot_or_stop_spec, Hgate|].
    split; [done|]. split; reflexivity.
  - split; [done|]. split; [done|]. split; [done|]. by rewrite app_nil_r.
Qed.

Lemma C2_send_gated_witness :
  (initialized pending_charge_point = false
   \/ registration_status pending_charge_point = RegistrationStatus.Pending
   \/ (registration_status pending_charge_point = RegistrationStatus.Rejected
       /\ 2000 < boot_time pending_charge_point
                 + seconds (ChargePointConfiguration.getHeartbeatInterval
                              (configuration pending_charge_point))))
  /\ (send pending_charge_point 2000 heartbeat_call).1 = false
  /\ (send pending_charge_point 2000 boot_notification_call).1 = true
  /\ MessageQueue.queue
       (message_queue (send pending_charge_point 2000 heartbeat_call).2)
     = MessageQueue.queue (message_queue pending_charge_point)
       ++ (if (send pending_charge_point 2000 heartbeat_call).1
           then [heartbeat_call] else []).
Proof.
  split; [right; left; reflexivity|].
  split; [reflexivity|]. split; [reflexivity|].
  apply (C2_send_gated_before_accepted pending_charge_point 2000
           heartbeat_call).
  right; left; reflexivity.
Defined.

(** C2, counterexample. The boot response was Pending, so that the
    registration status is Pending, not yet Accepted, and the connection
    state is Pending.  A GetLocalListVersion request of the central system
    is dispatched to its handler, and the GetLocalListVersionResponse goes
    out on the websocket: a message that is neither a BootNotification nor
    a StopTransaction. *)
Lemma C2_call_result_sent_while_pending :
  message_callback connected_charge_point 1000
    (boot_notification_response_message RegistrationStatus.Pending)
  = Handled pending_charge_point
  /\ registration_status pending_charge_point = RegistrationStatus.Pending
  /\ connection_state pending_charge_point
     = ChargePointConnectionState.Pending
  /\ Websocket.sent (websocket pending_charge_point) = []
  /\ exists cp' response,
      message_callback pending_charge_point 2000
        get_local_list_version_message = Handled cp'
      /\ Websocket.sent (websocket cp')
         = [Frame_CallResult (CallResult.mk response "cs-7")]
      /\ response_type response = MessageType.GetLocalListVersionResponse
      /\ response_type response <> MessageType.BootNotification
      /\ response_type response <> MessageType.StopTransaction
      /\ registration_status cp' = RegistrationStatus.Pending.
Proof.
  split; [by vm_compute|].
  split; [reflexivity|]. split; [reflexivity|]. split; [reflexivity|].
  eexists _, _. split; [vm_compute; reflexivity|].
  split; [reflexivity|]. split; [reflexivity|]. by repeat split.
Qed.

(** ** Reconnect in the Booted state *)

Lemma status_notification_accepted cp now connector errorCode status' :
  initialized cp = true ->
  registration_status cp = RegistrationStatus.Accepted ->
  status_notification cp now connector errorCode status'
  = set_message_queue
      (MessageQueue.mk
         (N.succ (MessageQueue.next_message_id (message_queue cp)))
         (MessageQueue.queue (message_queue cp)
          ++ [Call.mk
                (Request_StatusNotification
                   (StatusNotificationRequest.mk connector errorCode None
                      status' None))
                (pretty (MessageQueue.next_message_id (message_queue cp)))]))
      cp.
Proof.
  intros Hi Hr. unfold status_notification. simpl.
  rewrite send_spec, allowed_to_send_message_accepted by done.
  reflexivity.
Qed.

(** The loop of [connected_callback] over any list of connectors. *)
Lemma reconnect_loop now connectors : forall cp,
  initialized cp = true ->
  registration_status cp = RegistrationStatus.Accepted ->
  let cp' :=
    foldl (fun cp connector =>
             status_notification cp now connector ChargePointErrorCode.NoError
               (ChargePointStates.get_state (status cp) connector))
          cp connectors in
  cp' = set_message_queue (message_queue cp') cp
  /\ exists new,
      MessageQueue.queue (message_queue cp')
      = MessageQueue.queue (message_queue cp) ++ new
      /\ Call.msg <$> new = reconnect_status_request cp <$> connectors.
Proof.
  induction connectors as [|connector connectors IH]; intros cp Hi Hr; simpl.
  - split; [by destruct cp|]. exists []. by rewrite app_nil_r.
  - rewrite status_notification_accepted by done.
    match goal with |- context [foldl _ ?c _] => set (cp1 := c) end.
    destruct (IH cp1) as [Hframe (new & Hq & Hnew)]; [done..|].
    split.
    + rewrite Hframe at 1. reflexivity.
    + eexists (_ :: new). split.
      * rewrite Hq. subst cp1. simpl. rewrite <- app_assoc. reflexivity.
      * rewrite !fmap_cons, Hnew. reflexivity.
Qed.






(** [handleBootNotificationResponse], the only writer of the Booted state,
    enters it exactly when the registration is accepted, and leaves the
    charge point initialized. *)
Lemma handleBootNotificationResponse_state cp now call_result :
  let cp' := handleBootNotificationResponse cp now call_result in
  initialized cp' = true
  /\ boot_time cp' = now
  /\ registration_status cp'
     = BootNotificationResponse.status (CallResult.msg call_result)
  /\ (connection_state cp' = ChargePointConnectionState.Booted
      <-> registration_status cp' = RegistrationStatus.Accepted).
Proof.
  unfold handleBootNotificationResponse,
    update_clock_aligned_meter_values_interval, update_heartbeat_interval.
  destruct (BootNotificationResponse.status (CallResult.msg call_result));
    destruct (0 <? BootNotificationResponse.interval
                     (CallResult.msg call_result)); simpl;
    repeat match goal with |- context [if ?b then _ else _] =>
             destruct b end; simpl; by repeat split.
Qed.

(** ** Availability changes *)

Lemma apply_availability_spec type cp connector :
  apply_availability type cp connector
  = set_status
      (ChargePointStates.submit_event connector (availability_event type)
         (status cp))
      (set_callback_invocations
         (callback_invocations cp
          ++ match type with
             | AvailabilityType.Operative =>
                 if enable_evse_callback cp
                 then [enable_evse_callback_call connector] else []
             | AvailabilityType.Inoperative =>
                 if disable_evse_callback cp
                 then [disable_evse_callback_call connector] else []
             end)
         cp).
Proof.
  unfold apply_availability.
  destruct type, cp as [? ? ? ? ? ? ? ? ? ? ? ? ? [] [] ? ?]; simpl;
    by rewrite ?app_nil_r.
Qed.

(** C4. For every StopTransactionResponse, whatever its message id and
    whatever transaction it belongs to, the entry of the availability queue
    that is consumed is the one of connector 1: if there is one, it is
    persisted for connector 1 and its event is submitted for connector 1;
    otherwise no availability is persisted and no event submitted.  The
    entries of the other connectors stay queued. *)
Theorem C4_stop_transaction_response_uses_connector_1 cp call_result :
  let cp' := handleStopTransactionResponse cp call_result in
  change_availability_queue cp' = delete 1 (change_availability_queue cp)
  /\ match change_availability_queue cp !! 1 with
     | Some availability =>
         DatabaseHandler.connector_availability (database_handler cp')
         = <[1 := availability]>
             (DatabaseHandler.connector_availability (database_handler cp))
         /\ ChargePointStates.submitted (status cp')
            = ChargePointStates.submitted (status cp)
              ++ [(1, availability_event availability)]
     | None =>
         DatabaseHandler.connector_availability (database_handler cp')
         = DatabaseHandler.connector_availability (database_handler cp)
         /\ status cp' = status cp
     end.
Proof.
  unfold handleStopTransactionResponse.
  destruct (StopTransactionResponse.idTagInfo (CallResult.msg call_result))
    as [id_tag_info|];
    [destruct (TransactionHandler.get_authorized_id_tag
                 (transaction_handler cp) (CallResult.uniqueId call_result))
       as [id_tag|]|];
    simpl; destruct (change_availability_queue cp !! 1) as [availability|];
    simpl; rewrite ?apply_availability_spec; by repeat split.
Qed.

(** Both connectors had a transaction when the central system made the
    charge point inoperative, so that the change is queued for both; the
    transaction of connector 2 has stopped.  Its StopTransactionResponse
    applies the change of connector 1, whose transaction is still active,
    and leaves the change of connector 2 in the queue. *)
Example stop_transaction_response_of_connector_2 :
  let cp' :=
    handleStopTransactionResponse stopping_charge_point
      (CallResult.mk (StopTransactionResponse.mk None) "stop-2") in
  TransactionHandler.transaction_active
    (transaction_handler stopping_charge_point) 1 = true
  /\ Transaction.connector <$>
       TransactionHandler.stopped_transactions
         (transaction_handler stopping_charge_point) = [2]
  /\ change_availability_queue cp' = {[2 := AvailabilityType.Inoperative]}
  /\ DatabaseHandler.connector_availability (database_handler cp')
     = {[0 := AvailabilityType.Operative; 1 := AvailabilityType.Inoperative;
         2 := AvailabilityType.Operative]}
  /\ ChargePointStates.submitted (status cp')
     = [(1, Event_ChangeAvailabilityToUnavailable)]
  /\ callback_invocations cp' = [disable_evse_callback_call 1]
  /\ TransactionHandler.stopped_transactions (transaction_handler cp') = [].
Proof. by vm_compute. Qed.

Lemma last_response_send_call_result cp call_result :
  last_response (send_call_result cp call_result)
  = Some (CallResult.msg call_result).
Proof.
  unfold last_response, send_call_result. simpl. by rewrite last_snoc.
Qed.

(** C3. A transaction is active on connector 1 and the central system
    changes the availability of connector 1 to Inoperative: the response is
    Scheduled, but nothing is recorded in the availability queue, so that
    the StopTransactionResponse that follows applies no change and the
    connector stays operative.  The same request for connector id 0 does
    record the change for connector 1. *)
Theorem C3_single_connector_change_is_not_queued :
  let cp' :=
    handleChangeAvailabilityRequest charging_charge_point
      (change_availability_call 1) in
  let cp'' :=
    handleStopTransactionResponse cp'
      (CallResult.mk (StopTransactionResponse.mk None) "stop-1") in
  let cp0 :=
    handleChangeAvailabilityRequest charging_charge_point
      (change_availability_call 0) in
  TransactionHandler.transaction_active
    (transaction_handler charging_charge_point) 1 = true
  /\ change_availability_queue charging_charge_point = ∅
  /\ last_response cp'
     = Some (change_availability_response AvailabilityStatus.Scheduled)
  /\ change_availability_queue cp' = ∅
  /\ DatabaseHandler.get_connector_availability (database_handler cp'') 1
     = AvailabilityType.Operative
  /\ ChargePointStates.submitted (status cp'') = []
  /\ last_response cp0
     = Some (change_availability_response AvailabilityStatus.Scheduled)
  /\ change_availability_queue cp0 = {[1 := AvailabilityType.Inoperative]}.
Proof. by vm_compute. Qed.

(** The general form of the above: for a connector id other than 0 with an
    active transaction, the handler only sends the response Scheduled. *)
Lemma handleChangeAvailabilityRequest_single_active cp call :
  let connectorId := ChangeAvailabilityRequest.connectorId (Call.msg call) in
  connectorId <> 0 ->
  0 <= connectorId
    <= ChargePointConfiguration.getNumberOfConnectors (configuration cp) ->
  TransactionHandler.transaction_active (transaction_handler cp) connectorId
  = true ->
  handleChangeAvailabilityRequest cp call
  = send_call_result cp
      (CallResult.mk
         (change_availability_response AvailabilityStatus.Scheduled)
         (Call.uniqueId call)).
Proof.
  intros c Hne Hrange Hactive. unfold handleChangeAvailabilityRequest.
  fold c.
  connector_in_range c.
  replace (c =? 0) with false by (symmetry; apply Z.eqb_neq; lia).
  simpl. rewrite Hactive. reflexivity.
Qed.

(** A connector id outside 0..NumberOfConnectors is rejected. *)
Lemma handleChangeAvailabilityRequest_rejected cp call :
  let connectorId := ChangeAvailabilityRequest.connectorId (Call.msg call) in
  ~ (0 <= connectorId
       <= ChargePointConfiguration.getNumberOfConnectors (configuration cp)) ->
  handleChangeAvailabilityRequest cp call
  = send_call_result cp
      (CallResult.mk
         (change_availability_response AvailabilityStatus.Rejected)
         (Call.uniqueId call)).
Proof.
  intros c Hrange. unfold handleChangeAvailabilityRequest. fold c.
  destruct (Z.leb_spec c (ChargePointConfiguration.getNumberOfConnectors
                            (configuration cp)));
    destruct (Z.leb_spec 0 c); simpl; try reflexivity; lia.
Qed.

(** The scan of [handleChangeAvailabilityRequest] for connector id 0. *)
Lemma change_availability_scan_foldl type connectors :
  forall cp collected running,
  let active :=
    TransactionHandler.transaction_active (transaction_handler cp) in
  foldl (change_availability_scan type) (cp, collected, running) connectors
  = (set_change_availability_queue
       (foldl (fun queue connector => <[connector := type]> queue)
              (change_availability_queue cp) (List.filter active connectors))
       cp,
     collected ++ List.filter (fun c => negb (active c)) connectors,
     running || existsb active connectors).
Proof.
  induction connectors as [|c connectors IH]; intros cp collected running;
    simpl.
  - rewrite app_nil_r, orb_false_r. by destruct cp.
  - destruct (TransactionHandler.transaction_active (transaction_handler cp) c)
      eqn:Hc; simpl; rewrite IH; simpl.
    + by rewrite orb_true_r.
    + by rewrite <- app_assoc.
Qed.

Lemma foldl_insert_lookup (type : AvailabilityType.t) (connectors : list Z) :
  forall (queue : gmap Z AvailabilityType.t) (c : Z),
  foldl (fun queue connector => <[connector := type]> queue) queue connectors
    !! c
  = if decide (c ∈ connectors) then Some type else queue !! c.
Proof.
  induction connectors as [|c' connectors IH]; intros queue c; cbn [foldl].
  - destruct (decide (c ∈ [])) as [H|H]; [by apply elem_of_nil in H | done].
  - rewrite IH.
    destruct (decide (c ∈ connectors)) as [H|H],
      (decide (c ∈ c' :: connectors)) as [H'|H']; try done.
    + exfalso. apply H'. by right.
    + apply elem_of_cons in H' as [->|]; [|done]. by rewrite lookup_insert_eq.
    + rewrite lookup_insert_ne; [done|]. intros ->. apply H'. by left.
Qed.

Lemma filter_existsb_false {A} (f : A -> bool) (l : list A) :
  existsb f l = false ->
  List.filter f l = [] /\ List.filter (fun x => negb (f x)) l = l.
Proof.
  induction l as [|x l IH]; simpl; [done|].
  intros [Hx Hl]%orb_false_iff. rewrite Hx. simpl.
  destruct (IH Hl) as [-> ->]. done.
Qed.

Lemma insert_or_update_connector_availability_vector_spec connectors type :
  forall db,
  DatabaseHandler.connector_availability
    (DatabaseHandler.insert_or_update_connector_availability_vector
       connectors type db)
  = foldl (fun m connector => <[connector := type]> m)
          (DatabaseHandler.connector_availability db) connectors.
Proof.
  unfold DatabaseHandler.insert_or_update_connector_availability_vector.
  induction connectors as [|c connectors IH]; intros db; simpl; [done|].
  by rewrite IH.
Qed.

(** Applying an availability to a list of connectors submits one event per
    connector, in order, and touches neither the store, nor the queue of
    availability changes, nor the websocket. *)
Lemma foldl_apply_availability type connectors : forall cp,
  let cp' := foldl (apply_availability type) cp connectors in
  ChargePointStates.submitted (status cp')
  = ChargePointStates.submitted (status cp)
    ++ ((fun c => (c, availability_event type)) <$> connectors)
  /\ database_handler cp' = database_handler cp
  /\ change_availability_queue cp' = change_availability_queue cp
  /\ websocket cp' = websocket cp.
Proof.
  induction connectors as [|c connectors IH]; intros cp; simpl.
  - by rewrite app_nil_r.
  - destruct (IH (apply_availability type cp c)) as (-> & -> & -> & ->).
    rewrite apply_availability_spec. simpl.
    rewrite <- app_assoc. done.
Qed.

(** What the handler guarantees about the response status:
    for a connector id in range, the response is Scheduled if a targeted
    connector has an active transaction and Accepted otherwise. *)
Lemma handleChangeAvailabilityRequest_status cp call :
  let connectorId := ChangeAvailabilityRequest.connectorId (Call.msg call) in
  0 <= connectorId
    <= ChargePointConfiguration.getNumberOfConnectors (configuration cp) ->
  last_response (handleChangeAvailabilityRequest cp call)
  = Some
      (change_availability_response
         (if existsb
               (TransactionHandler.transaction_active (transaction_handler cp))
               (targeted_connectors cp connectorId)
          then AvailabilityStatus.Scheduled
          else AvailabilityStatus.Accepted)).
Proof.
  intros c Hrange. unfold handleChangeAvailabilityRequest, targeted_connectors.
  fold c.
  connector_in_range c.
  cbn [andb]. destruct (c =? 0).
  - rewrite change_availability_scan_foldl. cbn [orb].
    destruct (existsb _ _); by rewrite last_response_send_call_result.
  - cbn [existsb]. rewrite orb_false_r.
    destruct (TransactionHandler.transaction_active _ c);
      by rewrite last_response_send_call_result.
Qed.

(** For connector id 0, the change is recorded in the queue for every
    physical connector with an active transaction (and for no other), and
    when the response is Scheduled nothing is persisted. *)
Lemma handleChangeAvailabilityRequest_all_connectors cp call :
  let msg := Call.msg call in
  let number_of_connectors :=
    ChargePointConfiguration.getNumberOfConnectors (configuration cp) in
  let active :=
    TransactionHandler.transaction_active (transaction_handler cp) in
  let cp' := handleChangeAvailabilityRequest cp call in
  ChangeAvailabilityRequest.connectorId msg = 0 ->
  0 <= number_of_connectors ->
  (forall c,
     change_availability_queue cp' !! c
     = if decide (c ∈ List.filter active (seqZ 1 number_of_connectors))
       then Some (ChangeAvailabilityRequest.type msg)
       else change_availability_queue cp !! c)
  /\ (existsb active (seqZ 1 number_of_connectors) = true ->
      database_handler cp' = database_handler cp /\ status cp' = status cp).
Proof.
  intros msg n active cp' Hc Hn. subst cp'.
  unfold handleChangeAvailabilityRequest. fold msg n. rewrite Hc.
  replace (0 <=? n) with true by (symmetry; apply Z.leb_le; lia).
  cbn [andb Z.eqb Z.leb Z.compare].
  rewrite change_availability_scan_foldl. cbn [orb app]. fold active.
  destruct (existsb active (seqZ 1 n)) eqn:Hex.
  - split; [|done]. intros c. simpl. apply foldl_insert_lookup.
  - split; [|done]. intros c.
    destruct (filter_existsb_false _ _ Hex) as [Hf Hg]. rewrite Hf, Hg.
    match goal with |- context [foldl (apply_availability ?t) ?c0 ?l] =>
      destruct (foldl_apply_availability t l c0) as (_ & _ & Hq & _) end.
    simpl. simpl in Hq. rewrite Hq.
    destruct (decide (c ∈ [])) as [H|H]; [by apply elem_of_nil in H|done].
Qed.

(** When no targeted connector has an active transaction, the availability
    is persisted for every targeted connector and its event is submitted
    for every targeted connector; the queue is left as it is. *)
Lemma handleChangeAvailabilityRequest_accepted cp call :
  let msg := Call.msg call in
  let connectorId := ChangeAvailabilityRequest.connectorId msg in
  let type := ChangeAvailabilityRequest.type msg in
  let targeted := targeted_connectors cp connectorId in
  let cp' := handleChangeAvailabilityRequest cp call in
  0 <= connectorId
    <= ChargePointConfiguration.getNumberOfConnectors (configuration cp) ->
  existsb (TransactionHandler.transaction_active (transaction_handler cp))
          targeted = false ->
  last_response cp'
  = Some (change_availability_response AvailabilityStatus.Accepted)
  /\ DatabaseHandler.connector_availability (database_handler cp')
     = foldl (fun m connector => <[connector := type]> m)
             (DatabaseHandler.connector_availability (database_handler cp))
             targeted
  /\ ChargePointStates.submitted (status cp')
     = ChargePointStates.submitted (status cp)
       ++ ((fun c => (c, availability_event type)) <$> targeted)
  /\ change_availability_queue cp' = change_availability_queue cp.
Proof.
  intros msg c type targeted cp' Hrange Hidle.
  split.
  { subst cp'. rewrite handleChangeAvailabilityRequest_status by done.
    fold msg c targeted. by rewrite Hidle. }
  subst cp' targeted. revert Hidle.
  unfold handleChangeAvailabilityRequest, targeted_connectors.
  fold msg c type.
  connector_in_range c.
  cbn [andb]. destruct (c =? 0).
  - intros Hidle. rewrite change_availability_scan_foldl. cbn [orb app].
    destruct (filter_existsb_false _ _ Hidle) as [Hf Hg].
    rewrite Hidle, Hf, Hg.
    match goal with |- context [foldl (apply_availability ?t) ?c0 ?l] =>
      destruct (foldl_apply_availability t l c0) as (Hs & Hd & Hq & _) end.
    cbn [send_call_result set_websocket database_handler status
         change_availability_queue].
    rewrite Hs, Hd, Hq. simpl.
    by rewrite insert_or_update_connector_availability_vector_spec.
  - cbn [existsb]. rewrite orb_false_r. intros ->. simpl.
    rewrite apply_availability_spec. simpl. done.
Qed.

(** ** The local authorization list *)

(** C5, counterexample. The stored list version is 5; a Full update with
    list version 3 is answered Accepted and stores version 3. *)
Lemma C5_full_update_lowers_version :
  let cp' := handleSendLocalListRequest booted_charge_point full_update_call in
  DatabaseHandler.get_local_list_version (database_handler booted_charge_point)
  = 5
  /\ last_response cp'
     = Some (send_local_list_response UpdateStatus.Accepted)
  /\ DatabaseHandler.get_local_list_version (database_handler cp') = 3
  /\ ~ (DatabaseHandler.get_local_list_version (database_handler cp')
        >= DatabaseHandler.get_local_list_version
             (database_handler booted_charge_point)).
Proof. by vm_compute. Qed.

(** C5, as amended. After a SendLocalList answered Accepted the stored
    list version is the one of the request; for a Differential update it is
    greater than the version stored before. *)
Theorem C5_accepted_update_stores_version cp call :
  let cp' := handleSendLocalListRequest cp call in
  let before := DatabaseHandler.get_local_list_version (database_handler cp) in
  let after := DatabaseHandler.get_local_list_version (database_handler cp') in
  last_response cp' = Some (send_local_list_response UpdateStatus.Accepted) ->
  after = SendLocalListRequest.listVersion (Call.msg call)
  /\ (SendLocalListRequest.updateType (Call.msg call) = UpdateType.Differential
      -> before < after /\ after >= before).
Proof.
  unfold handleSendLocalListRequest.
  destruct (ChargePointConfiguration.getLocalAuthListEnabled
              (configuration cp));
    destruct (SendLocalListRequest.updateType (Call.msg call));
    destruct (SendLocalListRequest.localAuthorizationList (Call.msg call));
    cbn -[Z.ltb send_call_result last_response];
    repeat (case_bool_decide; try congruence);
    cbn -[Z.ltb send_call_result last_response];
    rewrite ?last_response_send_call_result; try discriminate.
  - destruct (Z.ltb_spec
                (DatabaseHandler.get_local_list_version (database_handler cp))
                (SendLocalListRequest.listVersion (Call.msg call)));
      cbn -[send_call_result last_response];
      rewrite last_response_send_call_result; [|discriminate].
    intros _. unfold DatabaseHandler.get_local_list_version in *. simpl.
    split; [done|]. intros _. lia.
  - intros _. simpl. by split.
  - intros _. simpl. by split.
Qed.

Lemma C5_accepted_update_witness :
  let cp' :=
    handleSendLocalListRequest booted_charge_point differential_update_call in
  last_response cp' = Some (send_local_list_response UpdateStatus.Accepted)
  /\ DatabaseHandler.get_local_list_version (database_handler cp') = 7
  /\ 5 < DatabaseHandler.get_local_list_version (database_handler cp').
Proof.
  split; [reflexivity|].
  destruct (C5_accepted_update_stores_version booted_charge_point
              differential_update_call eq_refl) as [Hv Hd].
  split; [exact Hv|]. exact (proj1 (Hd eq_refl)).
Defined.

(** C9. The answer to GetLocalListVersion carries list version -1 if the
    LocalAuthListManagement profile is not among the supported feature
    profiles, and the version read from the store otherwise; the store is
    not written. *)
Theorem C9_get_local_list_version cp call :
  let cp' := handleGetLocalListVersionRequest cp call in
  let listVersion :=
    if decide (SupportedFeatureProfiles.LocalAuthListManagement
               ∈ ChargePointConfiguration.getSupportedFeatureProfilesSet
                   (configuration cp))
    then DatabaseHandler.local_list_version (database_handler cp)
    else -1 in
  Websocket.sent (websocket cp')
  = Websocket.sent (websocket cp)
    ++ [Frame_CallResult
          (CallResult.mk
             (Response_GetLocalListVersion
                (GetLocalListVersionResponse.mk listVersion))
             (Call.uniqueId call))]
  /\ database_handler cp' = database_handler cp
  /\ message_queue cp' = message_queue cp.
Proof.
  unfold handleGetLocalListVersionRequest.
  destruct (decide (SupportedFeatureProfiles.LocalAuthListManagement
                    ∈ ChargePointConfiguration.getSupportedFeatureProfilesSet
                        (configuration cp))) as [H|H].
  - rewrite (bool_decide_eq_true_2 _ H). by repeat split.
  - rewrite (bool_decide_eq_false_2 _ H). by repeat split.
Qed.

(** The two cases on concrete charge points: the profile is supported and
    the store holds version 5; the profile is not supported. *)
Example get_local_list_version_examples :
  let call := Call.mk GetLocalListVersionRequest.mk "cs-7" in
  let unsupported :=
    set_configuration
      (ChargePointConfiguration.mk 2 60 900 {[SupportedFeatureProfiles.Core]}
         ∅ true true true true None true 10 20 30 [])
      booted_charge_point in
  last_response (handleGetLocalListVersionRequest booted_charge_point call)
  = Some (Response_GetLocalListVersion (GetLocalListVersionResponse.mk 5))
  /\ last_response (handleGetLocalListVersionRequest unsupported call)
     = Some (Response_GetLocalListVersion (GetLocalListVersionResponse.mk (-1))).
Proof. by vm_compute. Qed.

(** ** Remote start *)

(** The connector ids 1 through [n], each once. *)
Lemma connectors_from_1 n :
  NoDup (seqZ 1 n) /\ forall c, c ∈ seqZ 1 n <-> 1 <= c <= n.
Proof.
  split; [apply NoDup_seqZ|]. intros c. rewrite elem_of_seqZ. lia.
Qed.

(** C10. A RemoteStartTransaction request without connector id and without
    charging profile is answered Accepted whatever the availability, the
    transactions and the states of the connectors are, and the provide-token
    callback is invoked with the id tag, the connector ids 1 through
    NumberOfConnectors, and prevalidated unless AuthorizeRemoteTxRequests
    is set. *)
Theorem C10_remote_start_without_connector cp call :
  let msg := Call.msg call in
  let cp' := handleRemoteStartTransactionRequest cp call in
  RemoteStartTransactionRequest.connectorId msg = None ->
  RemoteStartTransactionRequest.chargingProfile msg = None ->
  Websocket.sent (websocket cp')
  = Websocket.sent (websocket cp)
    ++ [Frame_CallResult
          (CallResult.mk
             (remote_start_response RemoteStartStopStatus.Accepted)
             (Call.uniqueId call))]
  /\ callback_invocations cp'
     = callback_invocations cp
       ++ [provide_token_callback_call
             (RemoteStartTransactionRequest.idTag msg)
             (seqZ 1 (ChargePointConfiguration.getNumberOfConnectors
                        (configuration cp)))
             (negb (ChargePointConfiguration.getAuthorizeRemoteTxRequests
                      (configuration cp)))]
  /\ smart_charging_handler cp' = smart_charging_handler cp
  /\ database_handler cp' = database_handler cp.
Proof.
  intros msg cp' Hc Hp. subst cp'.
  unfold handleRemoteStartTransactionRequest. fold msg. rewrite Hc, Hp.
  simpl.
  destruct (ChargePointConfiguration.getAuthorizeRemoteTxRequests
              (configuration cp)); by repeat split.
Qed.

(** On a charge point whose connector 1 is charging: the request without
    connector id is accepted for connectors 1 and 2, the request for
    connector 1 is rejected. *)
Lemma C10_remote_start_witness :
  let cp' :=
    handleRemoteStartTransactionRequest charging_charge_point
      (remote_start_call None) in
  RemoteStartTransactionRequest.connectorId (Call.msg (remote_start_call None))
  = None
  /\ last_response
       (handleRemoteStartTransactionRequest charging_charge_point
          (remote_start_call (Some 1)))
     = Some (remote_start_response RemoteStartStopStatus.Rejected)
  /\ Websocket.sent (websocket cp')
     = [Frame_CallResult
          (CallResult.mk
             (remote_start_response RemoteStartStopStatus.Accepted) "cs-9")]
  /\ callback_invocations cp'
     = [provide_token_callback_call "TAG01" [1; 2] false].
Proof.
  split; [reflexivity|]. split; [reflexivity|].
  destruct (C10_remote_start_without_connector charging_charge_point
              (remote_start_call None) eq_refl eq_refl) as (Hs & Hc & _).
  split; [exact Hs | exact Hc].
Defined.

(** ** Authorization *)

(** [validate_against_cache_entries] writes nothing but the store. *)
Lemma validate_against_cache_entries_frame cp now id_tag :
  let cp' := (validate_against_cache_entries cp now id_tag).2 in
  cp' = set_database_handler (database_handler cp') cp.
Proof.
  unfold validate_against_cache_entries.
  destruct (DatabaseHandler.get_authorization_cache_entry _ _) as [entry|];
    [|by destruct cp].
  destruct (bool_decide _); [|by destruct cp].
  destruct (IdTagInfo.expiryDate entry) as [expiry|]; [|by destruct cp].
  destruct (expiry <? now); by destruct cp.
Qed.

(** A valid cache entry is present in the store: [.value()] in
    [authorize_id_token] does not throw. *)
Lemma validate_against_cache_entries_valid cp now id_tag cp' :
  validate_against_cache_entries cp now id_tag = (true, cp') ->
  cp' = cp
  /\ is_Some (DatabaseHandler.get_authorization_cache_entry
                (database_handler cp) id_tag).
Proof.
  unfold validate_against_cache_entries.
  destruct (DatabaseHandler.get_authorization_cache_entry _ _) as [entry|];
    [|discriminate].
  destruct (bool_decide _); [|discriminate].
  destruct (IdTagInfo.expiryDate entry) as [expiry|];
    [destruct (expiry <? now)|]; intros [= <-]; eauto.
Qed.

(** An accepted entry whose expiry date is before [now] is rewritten as
    expired and is not valid. *)
Lemma validate_against_cache_entries_expired cp now id_tag entry expiry :
  DatabaseHandler.get_authorization_cache_entry (database_handler cp) id_tag
  = Some entry ->
  IdTagInfo.status entry = AuthorizationStatus.Accepted ->
  IdTagInfo.expiryDate entry = Some expiry ->
  expiry < now ->
  validate_against_cache_entries cp now id_tag
  = (false, with_expired_entry cp id_tag entry).
Proof.
  intros He Hs Hx Hlt. unfold validate_against_cache_entries.
  rewrite He, Hs, Hx. simpl.
  replace (expiry <? now) with true by (symmetry; apply Z.ltb_lt; lia).
  unfold with_expired_entry, expired_entry. by rewrite Hx.
Qed.

(** The local part of [authorize_id_token] leaves the configuration as it
    is. *)
Lemma authorize_id_token_local_configuration cp now idTag cp1 :
  authorize_id_token_local cp now idTag = inr cp1 ->
  configuration cp1 = configuration cp.
Proof.
  unfold authorize_id_token_local.
  destruct (authorize_locally cp); [|by intros [= <-]].
  destruct (if ChargePointConfiguration.getLocalAuthListEnabled _ then _
            else None); [discriminate|].
  destruct (ChargePointConfiguration.getAuthorizationCacheEnabled _);
    [|by intros [= <-]].
  pose proof (validate_against_cache_entries_frame cp now idTag) as Hf.
  destruct (validate_against_cache_entries cp now idTag) as [[] cp2];
    [discriminate|].
  intros [= <-]. simpl in Hf. by rewrite Hf.
Qed.

(** The request part of [authorize_id_token] when the future resolves to
    something else than an AuthorizeResponse. *)
Lemma authorize_id_token_request_no_response cp idTag enhanced_message :
  EnhancedMessage.messageType enhanced_message
  <> MessageType.AuthorizeResponse ->
  exists cp',
    authorize_id_token_request cp idTag enhanced_message
    = Some
        (IdTagInfo.mk
           (if EnhancedMessage.offline enhanced_message
               && bool_decide
                    (ChargePointConfiguration.getAllowOfflineTxForUnknownId
                       (configuration cp) = Some true)
            then AuthorizationStatus.Accepted
            else AuthorizationStatus.Invalid)
           None None,
         cp')
    /\ database_handler cp' = database_handler cp
    /\ MessageQueue.queue (message_queue cp')
       = MessageQueue.queue (message_queue cp)
         ++ [Call.mk (Request_Authorize (AuthorizeRequest.mk idTag))
               (pretty (MessageQueue.next_message_id (message_queue cp)))].
Proof.
  intros Hm. unfold authorize_id_token_request. simpl.
  rewrite (bool_decide_eq_false_2 _ Hm).
  destruct (EnhancedMessage.offline enhanced_message);
    destruct (ChargePointConfiguration.getAllowOfflineTxForUnknownId
                (configuration cp)) as [[]|]; simpl;
    eexists; (split; [reflexivity|]); by split.
Qed.

(** [authorize_id_token] never throws on a well-formed resolution of the
    future, one whose JSON is an AuthorizeResponse whenever its message type
    says so. *)
Lemma authorize_id_token_returns cp now idTag enhanced_message :
  (EnhancedMessage.messageType enhanced_message
   = MessageType.AuthorizeResponse ->
   is_Some (to_AuthorizeResponse (EnhancedMessage.message enhanced_message)))
  -> is_Some (authorize_id_token cp now idTag enhanced_message).
Proof.
  intros Hwf. unfold authorize_id_token.
  destruct (authorize_id_token_local cp now idTag) as [result|cp1] eqn:Hl.
  - revert Hl. unfold authorize_id_token_local.
    destruct (authorize_locally cp); [|discriminate].
    destruct (if ChargePointConfiguration.getLocalAuthListEnabled _ then _
              else None); [by intros [= <-]|].
    destruct (ChargePointConfiguration.getAuthorizationCacheEnabled _);
      [|discriminate].
    destruct (validate_against_cache_entries cp now idTag) as [[] cp2] eqn:Hv;
      [|discriminate].
    apply validate_against_cache_entries_valid in Hv as [-> [entry He]].
    rewrite He. by intros [= <-].
  - destruct (decide (EnhancedMessage.messageType enhanced_message
                      = MessageType.AuthorizeResponse)) as [Hm|Hm].
    + destruct (Hwf Hm) as [call_result Hc].
      unfold authorize_id_token_request. simpl.
      rewrite (bool_decide_eq_true_2 _ Hm), Hc. eauto.
    + destruct (authorize_id_token_request_no_response cp1 idTag
                  enhanced_message Hm) as (cp' & -> & _). eauto.
Qed.

(** C6, counterexample. The cache holds TAG02 with status Accepted and an
    expiry date in the past; the charge point is online and the central
    system accepts the id tag: [authorize_id_token] returns Accepted, and
    the cache entry is the one of the response. *)
Lemma C6_expired_entry_accepted_online :
  DatabaseHandler.get_authorization_cache_entry
    (database_handler expired_cache_charge_point) "TAG02"
  = Some (IdTagInfo.mk AuthorizationStatus.Accepted (Some 500) None)
  /\ 500 < 2000
  /\ exists id_tag_info cp',
      authorize_id_token expired_cache_charge_point 2000 "TAG02"
        accepted_authorize_response
      = Some (id_tag_info, cp')
      /\ IdTagInfo.status id_tag_info = AuthorizationStatus.Accepted
      /\ IdTagInfo.status id_tag_info <> AuthorizationStatus.Invalid
      /\ DatabaseHandler.get_authorization_cache_entry (database_handler cp')
           "TAG02"
         = Some (IdTagInfo.mk AuthorizationStatus.Accepted (Some 9000) None).
Proof.
  split; [reflexivity|]. split; [lia|].
  eexists _, _. split; [vm_compute; reflexivity|].
  split; [reflexivity|]. split; [discriminate|]. reflexivity.
Qed.

(** C6, as amended. When the lookup consults the cache (local
    authorization applies, the local list does not answer, the cache is
    enabled) and the cache entry of the id tag is Accepted with an expiry
    date before now, the entry is rewritten with status Expired and the
    lookup goes on to the Authorize request.  If the future resolves to
    something else than an AuthorizeResponse, and not to offline with
    AllowOfflineTxForUnknownId set and true, the result is Invalid and the
    store holds the expired entry. *)
Theorem C6_expired_cache_entry cp now idTag entry expiry enhanced_message :
  authorize_locally cp = true ->
  (ChargePointConfiguration.getLocalAuthListEnabled (configuration cp) = true
   -> DatabaseHandler.get_local_authorization_list_entry (database_handler cp)
        idTag = None) ->
  ChargePointConfiguration.getAuthorizationCacheEnabled (configuration cp)
  = true ->
  DatabaseHandler.get_authorization_cache_entry (database_handler cp) idTag
  = Some entry ->
  IdTagInfo.status entry = AuthorizationStatus.Accepted ->
  IdTagInfo.expiryDate entry = Some expiry ->
  expiry < now ->
  validate_against_cache_entries cp now idTag
  = (false, with_expired_entry cp idTag entry)
  /\ authorize_id_token cp now idTag enhanced_message
     = authorize_id_token_request (with_expired_entry cp idTag entry) idTag
         enhanced_message
  /\ (EnhancedMessage.messageType enhanced_message
      <> MessageType.AuthorizeResponse ->
      ~ (EnhancedMessage.offline enhanced_message = true
         /\ ChargePointConfiguration.getAllowOfflineTxForUnknownId
              (configuration cp) = Some true) ->
      exists cp',
        authorize_id_token cp now idTag enhanced_message
        = Some (IdTagInfo.mk AuthorizationStatus.Invalid None None, cp')
        /\ DatabaseHandler.get_authorization_cache_entry
             (database_handler cp') idTag
           = Some (expired_entry entry)).
Proof.
  intros Hlocal Hlist Hcache He Hs Hx Hlt.
  pose proof (validate_against_cache_entries_expired cp now idTag entry
                expiry He Hs Hx Hlt) as Hv.
  assert (Hauth : authorize_id_token cp now idTag enhanced_message
                  = authorize_id_token_request
                      (with_expired_entry cp idTag entry) idTag
                      enhanced_message).
  { unfold authorize_id_token, authorize_id_token_local.
    rewrite Hlocal, Hcache, Hv.
    destruct (ChargePointConfiguration.getLocalAuthListEnabled
                (configuration cp)); [by rewrite Hlist|done]. }
  split; [exact Hv|]. split; [exact Hauth|].
  intros Hm Hoff. rewrite Hauth.
  destruct (authorize_id_token_request_no_response
              (with_expired_entry cp idTag entry) idTag enhanced_message Hm)
    as (cp' & -> & Hdb & _).
  exists cp'. split.
  - destruct (EnhancedMessage.offline enhanced_message); [|done].
    simpl. case_bool_decide as Ha; [|done]. exfalso. by apply Hoff.
  - rewrite Hdb. unfold with_expired_entry. simpl.
    unfold DatabaseHandler.get_authorization_cache_entry. simpl.
    apply lookup_insert_eq.
Qed.

(** The scenario of the expired entry read offline: Invalid, and the entry
    is rewritten as expired. *)
Lemma C6_expired_cache_entry_witness :
  authorize_locally offline_expired_cache_charge_point = true
  /\ 500 < 2000
  /\ exists cp',
      authorize_id_token offline_expired_cache_charge_point 2000 "TAG02"
        offline_message
      = Some (IdTagInfo.mk AuthorizationStatus.Invalid None None, cp')
      /\ DatabaseHandler.get_authorization_cache_entry (database_handler cp')
           "TAG02"
         = Some (IdTagInfo.mk AuthorizationStatus.Expired (Some 500) None).
Proof.
  split; [reflexivity|]. split; [lia|].
  refine (proj2 (proj2
    (C6_expired_cache_entry offline_expired_cache_charge_point 2000 "TAG02"
       (IdTagInfo.mk AuthorizationStatus.Accepted (Some 500) None) 500
       offline_message eq_refl (fun _ => eq_refl) eq_refl eq_refl eq_refl
       eq_refl _)) _ _).
  - lia.
  - discriminate.
  - intros [_ H]. discriminate H.
Defined.

(** C7. When the call reaches the Authorize request and the future
    resolves with [offline] set, carrying no AuthorizeResponse (the queue
    resolves a future either with the response or as offline), the result
    is Accepted if AllowOfflineTxForUnknownId is set and true, and Invalid
    otherwise. *)
Theorem C7_offline_authorization cp now idTag enhanced_message cp1 :
  authorize_id_token_local cp now idTag = inr cp1 ->
  EnhancedMessage.offline enhanced_message = true ->
  EnhancedMessage.messageType enhanced_message
  <> MessageType.AuthorizeResponse ->
  exists cp',
    authorize_id_token cp now idTag enhanced_message
    = Some
        (IdTagInfo.mk
           (if decide (ChargePointConfiguration.getAllowOfflineTxForUnknownId
                         (configuration cp) = Some true)
            then AuthorizationStatus.Accepted
            else AuthorizationStatus.Invalid)
           None None,
         cp').
Proof.
  intros Hl Hoff Hm. unfold authorize_id_token. rewrite Hl.
  destruct (authorize_id_token_request_no_response cp1 idTag enhanced_message
              Hm) as (cp' & -> & _).
  exists cp'. rewrite Hoff. simpl.
  rewrite (authorize_id_token_local_configuration _ _ _ _ Hl).
  destruct (decide (ChargePointConfiguration.getAllowOfflineTxForUnknownId
                      (configuration cp) = Some true)) as [H|H].
  - by rewrite (bool_decide_eq_true_2 _ H).
  - by rewrite (bool_decide_eq_false_2 _ H).
Qed.

Lemma C7_offline_authorization_witness :
  authorize_id_token_local booted_charge_point 2000 "TAG01"
  = inr booted_charge_point
  /\ EnhancedMessage.offline offline_message = true
  /\ exists cp',
      authorize_id_token booted_charge_point 2000 "TAG01" offline_message
      = Some (IdTagInfo.mk AuthorizationStatus.Invalid None None, cp').
Proof.
  split; [reflexivity|]. split; [reflexivity|].
  refine (C7_offline_authorization booted_charge_point 2000 "TAG01"
            offline_message booted_charge_point eq_refl eq_refl _).
  discriminate.
Defined.

(** With AllowOfflineTxForUnknownId set and true the same call returns
    Accepted. *)
Example offline_authorization_allowed :
  let cp :=
    set_configuration
      (ChargePointConfiguration.mk 2 60 900 ∅ ∅ true true true true
         (Some true) true 10 20 30 [])
      booted_charge_point in
  fst <$> authorize_id_token cp 2000 "TAG01" offline_message
  = Some (IdTagInfo.mk AuthorizationStatus.Accepted None None).
Proof. by vm_compute. Qed.

(** ** The Booted state under inbound messages and reconnects

    The handlers embedded here do not write the registration state; only
    [handleBootNotificationResponse] does.  Hence a charge point that is
    initialized and accepted whenever it is Booted stays so under
    [message_callback] and [connected_callback]. *)

Lemma foldl_apply_availability_registration type connectors : forall cp,
  same_registration cp (foldl (apply_availability type) cp connectors).
Proof.
  unfold same_registration.
  induction connectors as [|c connectors IH]; intros cp; simpl; [done|].
  destruct (IH (apply_availability type cp c)) as (-> & -> & ->).
  rewrite apply_availability_spec. done.
Qed.

Lemma handleChangeAvailabilityRequest_registration cp call :
  same_registration cp (handleChangeAvailabilityRequest cp call).
Proof.
  unfold handleChangeAvailabilityRequest.
  destruct (_ && _); [|done].
  destruct (_ =? 0).
  - rewrite change_availability_scan_foldl. cbn [orb app].
    destruct (existsb _ _); [done|].
    match goal with |- context [foldl (apply_availability ?t) ?c0 ?l] =>
      destruct (foldl_apply_availability_registration t l c0)
        as (Hi & Hr & Hc) end.
    unfold same_registration.
    cbn [send_call_result set_websocket initialized registration_status
         connection_state].
    by rewrite Hi, Hr, Hc.
  - destruct (TransactionHandler.transaction_active _ _); [done|].
    simpl. rewrite apply_availability_spec. done.
Qed.

Lemma handleStopTransactionResponse_registration cp call_result :
  same_registration cp (handleStopTransactionResponse cp call_result).
Proof.
  unfold handleStopTransactionResponse.
  destruct (StopTransactionResponse.idTagInfo (CallResult.msg call_result))
    as [id_tag_info|];
    [destruct (TransactionHandler.get_authorized_id_tag
                 (transaction_handler cp) (CallResult.uniqueId call_result))
       as [id_tag|]|];
    simpl; destruct (change_availability_queue cp !! 1) as [availability|];
    simpl; rewrite ?apply_availability_spec; done.
Qed.

Lemma handleRemoteStartTransactionRequest_registration cp call :
  same_registration cp (handleRemoteStartTransactionRequest cp call).
Proof.
  unfold handleRemoteStartTransactionRequest.
  repeat match goal with
         | |- context [match ?x with _ => _ end] =>
             lazymatch x with
             | context [match _ with _ => _ end] => fail
             | _ => destruct x
             end
         end; done.
Qed.

Lemma handleSendLocalListRequest_registration cp call :
  same_registration cp (handleSendLocalListRequest cp call).
Proof.
  unfold handleSendLocalListRequest.
  destruct (if negb _ then _ else _) as [db response_status]. done.
Qed.

Lemma handleGetLocalListVersionRequest_registration cp call :
  same_registration cp (handleGetLocalListVersionRequest cp call).
Proof. done. Qed.

Lemma handle_message_registration cp json_message message_type cp' :
  handle_message cp json_message message_type = Handled cp' ->
  same_registration cp cp'.
Proof.
  unfold handle_message, convert.
  destruct message_type; try discriminate; try (by intros [= <-]).
  - destruct (to_ChangeAvailability json_message); [|discriminate].
    intros [= <-]. apply handleChangeAvailabilityRequest_registration.
  - destruct (to_GetLocalListVersion json_message); [|discriminate].
    intros [= <-]. apply handleGetLocalListVersionRequest_registration.
  - destruct (to_RemoteStartTransaction json_message); [|discriminate].
    intros [= <-]. apply handleRemoteStartTransactionRequest_registration.
  - destruct (to_SendLocalList json_message); [|discriminate].
    intros [= <-]. apply handleSendLocalListRequest_registration.
  - destruct (to_StopTransactionResponse json_message); [|discriminate].
    intros [= <-]. apply handleStopTransactionResponse_registration.
Qed.

Lemma same_registration_booted_accepted cp cp' :
  same_registration cp cp' -> booted_accepted cp -> booted_accepted cp'.
Proof.
  intros (Hi & Hr & Hc) H. unfold booted_accepted. rewrite Hi, Hr, Hc. exact H.
Qed.

Lemma handle_boot_notification_response_booted_accepted cp now json_message
    cp' :
  handle_boot_notification_response cp now json_message = Handled cp' ->
  booted_accepted cp'.
Proof.
  unfold handle_boot_notification_response, convert.
  destruct (to_BootNotificationResponse json_message) as [call_result|];
    [|discriminate].
  intros [= <-] Hb.
  destruct (handleBootNotificationResponse_state cp now call_result)
    as (Hi & _ & _ & Hiff).
  split; [exact Hi | by apply Hiff].
Qed.

Lemma message_callback_booted_accepted cp now enhanced_message cp' :
  booted_accepted cp ->
  message_callback cp now enhanced_message = Handled cp' ->
  booted_accepted cp'.
Proof.
  intros Hinv. unfold message_callback.
  destruct (bool_decide (_ ∉ _)).
  { destruct (bool_decide _); intros [= <-]; exact Hinv. }
  destruct (connection_state cp) eqn:Hc.
  - by intros [= <-].
  - destruct (bool_decide _); [|by intros [= <-]].
    apply handle_boot_notification_response_booted_accepted.
  - intros H. apply handle_message_registration in H.
    by apply (same_registration_booted_accepted cp).
  - destruct (bool_decide (registration_status cp = _)); [|by intros [= <-]].
    destruct (bool_decide _).
    + apply handle_boot_notification_response_booted_accepted.
    + intros H. apply handle_message_registration in H.
      by apply (same_registration_booted_accepted cp).
  - destruct (bool_decide (registration_status cp = _)); [|by intros [= <-]].
    destruct (bool_decide _); [|by intros [= <-]].
    apply handle_boot_notification_response_booted_accepted.
Qed.

Lemma connected_callback_booted_accepted cp now :
  booted_accepted cp -> booted_accepted (connected_callback cp now).
Proof.
  intros Hinv. unfold connected_callback.
  set (cp0 := set_pki_handler _ (set_switch_security_profile_callback _ cp)).
  change (connection_state cp0) with (connection_state cp).
  destruct (connection_state cp) eqn:Hc; try exact Hinv.
  - intros H. discriminate H.
  - destruct (Hinv Hc) as [Hi Hr].
    destruct (reconnect_loop now
                (seqZ 0 (ChargePointConfiguration.getNumberOfConnectors
                           (configuration cp0) + 1)) cp0 Hi Hr) as [Hf _].
    cbv zeta in Hf. rewrite Hf. intros _. by split.
Qed.

(** * Further properties of the embedded code *)

(** ** Outbound gating over time *)

(** Monotonicity in time: with the registration state unchanged, a message
    that [allowed_to_send_message] lets through at some time is let through
    at every later time. *)
Theorem allowed_to_send_message_monotone cp now now' message :
  now <= now' ->
  allowed_to_send_message cp now message = true ->
  allowed_to_send_message cp now' message = true.
Proof.
  intros Hle. unfold allowed_to_send_message.
  destruct (initialized cp); simpl; [|done].
  destruct (registration_status cp); simpl; try done.
  destruct (Z.ltb_spec now
              (boot_time cp
               + seconds (ChargePointConfiguration.getHeartbeatInterval
                            (configuration cp)))); [done|].
  intros _.
  destruct (Z.ltb_spec now'
              (boot_time cp
               + seconds (ChargePointConfiguration.getHeartbeatInterval
                            (configuration cp)))); [lia|done].
Qed.

Lemma allowed_to_send_message_monotone_witness :
  1000 + seconds 60 <= 1000 + seconds 61
  /\ allowed_to_send_message rejected_charge_point (1000 + seconds 61)
       heartbeat_call = true.
Proof.
  split; [by vm_compute|].
  apply (allowed_to_send_message_monotone rejected_charge_point
           (1000 + seconds 60) (1000 + seconds 61) heartbeat_call).
  - by vm_compute.
  - reflexivity.
Defined.

(** ** The boot response and the retry of the BootNotification *)

(** After a Rejected boot response received at [now0], the boot timer is
    armed with the interval of the response, while [send] lets a
    BootNotification through from [now0] plus the heartbeat interval on,
    which is the interval of the response only if that is positive.  So the
    retry that the timer fires when it expires is enqueued if the interval
    is positive, and refused if the interval is not positive and the
    configured heartbeat interval is. *)
Theorem rejected_boot_response_retry cp now0 call_result call :
  let msg := CallResult.msg call_result in
  let interval := BootNotificationResponse.interval msg in
  let configured :=
    ChargePointConfiguration.getHeartbeatInterval (configuration cp) in
  let cp' := handleBootNotificationResponse cp now0 call_result in
  BootNotificationResponse.status msg = RegistrationStatus.Rejected ->
  call_action call = MessageType.BootNotification ->
  list.last (timer_ops cp') = Some (boot_notification_timer_timeout interval)
  /\ retry_time cp'
     = now0 + seconds (if 0 <? interval then interval else configured)
  /\ (forall now, (send cp' now call).1 = bool_decide (retry_time cp' <= now))
  /\ (0 < interval -> (send cp' (now0 + seconds interval) call).1 = true)
  /\ (interval <= 0 -> 0 < configured ->
      (send cp' (now0 + seconds interval) call).1 = false).
Proof.
  intros msg interval configured cp' Hs Hc.
  assert (Hstate :
    initialized cp' = true
    /\ registration_status cp' = RegistrationStatus.Rejected
    /\ boot_time cp' = now0
    /\ ChargePointConfiguration.getHeartbeatInterval (configuration cp')
       = (if 0 <? interval then interval else configured)
    /\ timer_ops cp'
       = timer_ops cp ++ [boot_notification_timer_timeout interval]).
  { subst cp'. unfold handleBootNotificationResponse.
    fold msg interval. rewrite Hs. by destruct (0 <? interval). }
  destruct Hstate as (Hi & Hr & Hbt & Hhb & Hto).
  assert (Hretry : retry_time cp'
                   = now0 + seconds (if 0 <? interval then interval
                                     else configured))
    by (unfold retry_time; by rewrite Hbt, Hhb).
  assert (Hgate : forall now,
            (send cp' now call).1 = bool_decide (retry_time cp' <= now)).
  { intros now. rewrite send_spec.
    destruct (Z.le_gt_cases (retry_time cp') now) as [H|H].
    - rewrite allowed_to_send_message_rejected_late by done.
      by rewrite bool_decide_eq_true_2.
    - rewrite allowed_to_send_message_rejected_early by done.
      rewrite bool_decide_eq_false_2; [done|lia]. }
  split; [by rewrite Hto, last_snoc|]. split; [exact Hretry|].
  split; [exact Hgate|].
  split.
  - intros Hpos. rewrite Hgate, Hretry.
    replace (0 <? interval) with true by (symmetry; apply Z.ltb_lt; lia).
    by apply bool_decide_eq_true_2.
  - intros Hneg Hconf. rewrite Hgate, Hretry.
    replace (0 <? interval) with false by (symmetry; apply Z.ltb_ge; lia).
    apply bool_decide_eq_false_2. unfold seconds, ticks_per_second. lia.
Qed.

Lemma rejected_boot_response_retry_witness :
  let response := CallResult.mk
                    (BootNotificationResponse.mk RegistrationStatus.Rejected
                       1000 0) "0" in
  let cp' := handleBootNotificationResponse connected_charge_point 1000
               response in
  BootNotificationResponse.status (CallResult.msg response)
  = RegistrationStatus.Rejected
  /\ list.last (timer_ops cp') = Some (boot_notification_timer_timeout 0)
  /\ retry_time cp' = 1000 + seconds 300
  /\ (send cp' 1000 boot_notification_call).1 = false.
Proof.
  split; [reflexivity|].
  destruct (rejected_boot_response_retry connected_charge_point 1000
              (CallResult.mk
                 (BootNotificationResponse.mk RegistrationStatus.Rejected
                    1000 0) "0")
              boot_notification_call eq_refl eq_refl)
    as (Ht & Hr & _ & _ & Hdrop).
  split; [exact Ht|]. split; [exact Hr|].
  apply Hdrop; by vm_compute.
Defined.

(** ** The clock-aligned timer *)

(** For a positive interval the clock-aligned timer is set to a time
    strictly after now that is a whole number of intervals after the
    (leap-second shifted) midnight; if now is not before that midnight, the
    time is at most one interval ahead.  For interval 0 no timer is set. *)
Theorem clock_aligned_time_point cp now :
  let interval :=
    ChargePointConfiguration.getClockAlignedDataInterval (configuration cp) in
  let cp' := update_clock_aligned_meter_values_interval cp now in
  0 <= interval ->
  (interval = 0 /\ cp' = cp)
  \/ exists time_point,
       timer_ops cp'
       = timer_ops cp ++ [clock_aligned_meter_values_timer_at time_point]
       /\ now < time_point
       /\ (time_point - aligned_midnight cp now) mod seconds interval = 0
       /\ (aligned_midnight cp now <= now ->
           time_point <= now + seconds interval).
Proof.
  intros interval cp' Hnonneg. subst cp'.
  unfold update_clock_aligned_meter_values_interval. fold interval.
  destruct (Z.eqb_spec interval 0) as [H0|H0]; [by left|right].
  fold (aligned_midnight cp now).
  set (m := aligned_midnight cp now). set (d := now - m).
  eexists. split; [reflexivity|].
  assert (Hi : 0 < interval) by lia.
  pose proof (Z.quot_rem' d interval) as Hd.
  pose proof (Z.quot_rem' (Z.quot d interval) ticks_per_second) as Hq.
  pose proof (Z.rem_bound_abs d interval ltac:(lia)) as Hr.
  pose proof (Z.rem_bound_abs (Z.quot d interval) ticks_per_second
                ltac:(done)) as Hs.
  assert (HT : ticks_per_second = 1000000000) by reflexivity.
  set (q := Z.quot d interval) in *. set (r := Z.rem d interval) in *.
  set (v := Z.quot q ticks_per_second) in *.
  set (s := Z.rem q ticks_per_second) in *.
  unfold seconds.
  split; [|split].
  - assert (d < (v * interval + interval) * ticks_per_second); [|lia].
    assert (s <= ticks_per_second - 1) by lia.
    assert (r <= interval - 1) by lia. nia.
  - replace (m + (v * interval + interval) * ticks_per_second - m)
      with ((v + 1) * (interval * ticks_per_second)) by lia.
    apply Z.mod_mul. lia.
  - intros Hm. assert (0 <= d) by lia.
    assert (0 <= r) by (apply Z.rem_nonneg; lia).
    assert (0 <= q) by (apply Z.quot_pos; lia).
    assert (0 <= s) by (apply Z.rem_nonneg; lia).
    assert (v * interval * ticks_per_second <= d); [nia|lia].
Qed.

Lemma clock_aligned_time_point_witness :
  0 <= ChargePointConfiguration.getClockAlignedDataInterval
         (configuration connected_charge_point)
  /\ timer_ops
       (update_clock_aligned_meter_values_interval connected_charge_point
          (seconds 1000))
     = [clock_aligned_meter_values_timer_at (seconds 1827)].
Proof.
  split; [by vm_compute|].
  destruct (clock_aligned_time_point connected_charge_point (seconds 1000))
    as [[H _]|(tp & Htp & _)]; [by vm_compute|discriminate H|].
  reflexivity.
Defined.

(** ** Inbound dispatch: what goes out *)

Lemma foldl_apply_availability_outbound type connectors : forall cp,
  let cp' := foldl (apply_availability type) cp connectors in
  message_queue cp' = message_queue cp /\ websocket cp' = websocket cp.
Proof.
  induction connectors as [|c connectors IH]; intros cp; simpl; [done|].
  destruct (IH (apply_availability type cp c)) as (-> & ->).
  by rewrite apply_availability_spec.
Qed.

Lemma send_call_result_answered cp cp1 response uniqueId :
  message_queue cp1 = message_queue cp ->
  websocket cp1 = websocket cp ->
  answered cp (send_call_result cp1 (CallResult.mk response uniqueId))
    uniqueId (response_type response).
Proof.
  intros Hq Hw. split; [exact Hq|]. exists response.
  unfold send_call_result. simpl. by rewrite Hw.
Qed.

Lemma handleChangeAvailabilityRequest_answered cp call :
  answered cp (handleChangeAvailabilityRequest cp call) (Call.uniqueId call)
    MessageType.ChangeAvailabilityResponse.
Proof.
  unfold handleChangeAvailabilityRequest.
  destruct (_ && _);
    [|by apply (send_call_result_answered cp cp
                  (Response_ChangeAvailability _))].
  destruct (_ =? 0).
  - rewrite change_availability_scan_foldl. cbn [orb app].
    destruct (existsb _ _);
      [by apply (send_call_result_answered cp _
                   (Response_ChangeAvailability _))|].
    match goal with |- context [foldl (apply_availability ?t) ?c0 ?l] =>
      destruct (foldl_apply_availability_outbound t l c0) as (Hq & Hw) end.
    by apply (send_call_result_answered cp _ (Response_ChangeAvailability _)).
  - destruct (TransactionHandler.transaction_active _ _);
      [by apply (send_call_result_answered cp cp
                   (Response_ChangeAvailability _))|].
    cbn [foldl]. rewrite apply_availability_spec.
    by apply (send_call_result_answered cp _ (Response_ChangeAvailability _)).
Qed.

Lemma handleRemoteStartTransactionRequest_answered cp call :
  answered cp (handleRemoteStartTransactionRequest cp call)
    (Call.uniqueId call) MessageType.RemoteStartTransactionResponse.
Proof.
  unfold handleRemoteStartTransactionRequest, answered.
  repeat match goal with
         | |- context [match ?x with _ => _ end] =>
             lazymatch x with
             | context [match _ with _ => _ end] => fail
             | _ => destruct x
             end
         end; simpl; (split; [done|]); eexists; by split.
Qed.

Lemma handleSendLocalListRequest_answered cp call :
  answered cp (handleSendLocalListRequest cp call) (Call.uniqueId call)
    MessageType.SendLocalListResponse.
Proof.
  unfold handleSendLocalListRequest.
  destruct (if negb _ then _ else _) as [db response_status].
  by apply (send_call_result_answered cp _ (Response_SendLocalList _)).
Qed.

Lemma handleGetLocalListVersionRequest_answered cp call :
  answered cp (handleGetLocalListVersionRequest cp call) (Call.uniqueId call)
    MessageType.GetLocalListVersionResponse.
Proof.
  by apply (send_call_result_answered cp cp (Response_GetLocalListVersion _)).
Qed.



(** Every request of the central system that reaches one of the embedded
    request handlers (ChangeAvailability, RemoteStartTransaction,
    SendLocalList, GetLocalListVersion) is answered by exactly one
    CallResult, of the response type of the request and carrying the message
    id of the request; no call is enqueued. *)
Theorem embedded_request_answered_once cp json_message message_type cp' type :
  response_message_type message_type = Some type ->
  handle_message cp json_message message_type = Handled cp' ->
  exists uniqueId,
    json_uniqueId json_message = Some uniqueId
    /\ answered cp cp' uniqueId type.
Proof.
  unfold handle_message, convert.
  destruct message_type; try discriminate; intros [= <-].
  - destruct json_message; try discriminate. intros [= <-].
    eexists. split; [reflexivity|].
    apply handleChangeAvailabilityRequest_answered.
  - destruct json_message; try discriminate. intros [= <-].
    eexists. split; [reflexivity|].
    apply handleGetLocalListVersionRequest_answered.
  - destruct json_message; try discriminate. intros [= <-].
    eexists. split; [reflexivity|].
    apply handleRemoteStartTransactionRequest_answered.
  - destruct json_message; try discriminate. intros [= <-].
    eexists. split; [reflexivity|].
    apply handleSendLocalListRequest_answered.
Qed.

Lemma embedded_request_answered_once_witness :
  response_message_type MessageType.ChangeAvailability
  = Some MessageType.ChangeAvailabilityResponse
  /\ exists uniqueId,
      json_uniqueId (json_ChangeAvailability (change_availability_call 1))
      = Some uniqueId
      /\ answered charging_charge_point
           (handleChangeAvailabilityRequest charging_charge_point
              (change_availability_call 1))
           uniqueId MessageType.ChangeAvailabilityResponse.
Proof.
  split; [reflexivity|].
  apply (embedded_request_answered_once charging_charge_point
           (json_ChangeAvailability (change_availability_call 1))
           MessageType.ChangeAvailability); reflexivity.
Defined.







(** "Booted implies initialized and accepted" under the events of the
    transport: [handleBootNotificationResponse] establishes it from any
    state, and [connected_callback] and every message that
    [message_callback] handles inside this development (outcome [Handled])
    preserve it.  It is no invariant of the whole charge point: [stop]
    clears [initialized] and leaves the connection state Booted. *)
Theorem booted_accepted_preserved cp now :
  (forall call_result,
     booted_accepted (handleBootNotificationResponse cp now call_result))
  /\ (booted_accepted cp ->
      booted_accepted (connected_callback cp now)
      /\ forall enhanced_message cp',
           message_callback cp now enhanced_message = Handled cp' ->
           booted_accepted cp').
Proof.
  split.
  - intros call_result Hb.
    destruct (handleBootNotificationResponse_state cp now call_result)
      as (Hi & _ & _ & Hs).
    split; [exact Hi | by apply Hs].
  - intros Hinv. split.
    + by apply connected_callback_booted_accepted.
    + intros enhanced_message cp'.
      by apply message_callback_booted_accepted.
Qed.

Lemma booted_accepted_preserved_witness :
  let cp' :=
    handleSendLocalListRequest booted_charge_point full_update_call in
  booted_accepted booted_charge_point
  /\ message_callback booted_charge_point 2000
       (EnhancedMessage.mk (json_SendLocalList full_update_call)
          (Call.uniqueId full_update_call) MessageTypeId.CALL
          MessageType.SendLocalList false)
     = Handled cp'
  /\ connection_state cp' = ChargePointConnectionState.Booted
  /\ initialized cp' = true
  /\ registration_status cp' = RegistrationStatus.Accepted.
Proof.
  intros cp'.
  assert (H : booted_accepted booted_charge_point) by (intros _; by split).
  assert (Hm : message_callback booted_charge_point 2000
                 (EnhancedMessage.mk (json_SendLocalList full_update_call)
                    (Call.uniqueId full_update_call) MessageTypeId.CALL
                    MessageType.SendLocalList false)
               = Handled cp') by (by vm_compute).
  assert (Hc : connection_state cp' = ChargePointConnectionState.Booted)
    by reflexivity.
  split; [exact H|]. split; [exact Hm|]. split; [exact Hc|].
  exact (proj2 (proj2 (booted_accepted_preserved booted_charge_point 2000) H)
           _ cp' Hm Hc).
Defined.

(** ** Authorization: the order of the sources *)

(** A hit in the local authorization list wins: when local authorization
    applies and the list is enabled and has an entry for the id tag, that
    entry is the result, whatever its status and expiry date are and
    whatever the cache holds; no Authorize request is made and nothing is
    written. *)
Theorem local_list_entry_wins cp now idTag entry enhanced_message :
  authorize_locally cp = true ->
  ChargePointConfiguration.getLocalAuthListEnabled (configuration cp) = true ->
  DatabaseHandler.get_local_authorization_list_entry (database_handler cp)
    idTag = Some entry ->
  authorize_id_token cp now idTag enhanced_message = Some (entry, cp).
Proof.
  intros Hl He Hentry. unfold authorize_id_token, authorize_id_token_local.
  by rewrite Hl, He, Hentry.
Qed.

Lemma local_list_entry_wins_witness :
  authorize_locally local_list_charge_point = true
  /\ authorize_id_token local_list_charge_point 2000 "TAG03" offline_message
     = Some (IdTagInfo.mk AuthorizationStatus.Accepted None None,
             local_list_charge_point).
Proof.
  split; [reflexivity|].
  apply (local_list_entry_wins local_list_charge_point 2000 "TAG03");
    reflexivity.
Defined.

(** A valid cache entry answers without a request: when local
    authorization applies, the local list does not answer and the cache is
    enabled, an Accepted entry with no expiry date or one not before now is
    the result, and the charge point is left as it is. *)
Theorem valid_cache_entry_answers cp now idTag entry enhanced_message :
  authorize_locally cp = true ->
  (ChargePointConfiguration.getLocalAuthListEnabled (configuration cp) = true
   -> DatabaseHandler.get_local_authorization_list_entry (database_handler cp)
        idTag = None) ->
  ChargePointConfiguration.getAuthorizationCacheEnabled (configuration cp)
  = true ->
  DatabaseHandler.get_authorization_cache_entry (database_handler cp) idTag
  = Some entry ->
  cache_entry_valid now entry ->
  authorize_id_token cp now idTag enhanced_message = Some (entry, cp).
Proof.
  intros Hl Hlist Hc He [Hs Hx].
  unfold authorize_id_token, authorize_id_token_local.
  rewrite Hl, Hc.
  assert (Hv : validate_against_cache_entries cp now idTag = (true, cp)).
  { unfold validate_against_cache_entries. rewrite He, Hs. simpl.
    destruct (IdTagInfo.expiryDate entry) as [expiry|] eqn:Hexp; [|done].
    specialize (Hx expiry eq_refl).
    destruct (Z.ltb_spec expiry now); [lia|done]. }
  rewrite Hv, He.
  destruct (ChargePointConfiguration.getLocalAuthListEnabled
              (configuration cp)); [by rewrite Hlist|done].
Qed.

Lemma valid_cache_entry_answers_witness :
  cache_entry_valid 2000 (IdTagInfo.mk AuthorizationStatus.Accepted None None)
  /\ authorize_id_token valid_cache_charge_point 2000 "TAG04" offline_message
     = Some (IdTagInfo.mk AuthorizationStatus.Accepted None None,
             valid_cache_charge_point).
Proof.
  assert (H : cache_entry_valid 2000
                (IdTagInfo.mk AuthorizationStatus.Accepted None None))
    by (split; [reflexivity | intros ? [=]]).
  split; [exact H|].
  apply (valid_cache_entry_answers valid_cache_charge_point 2000 "TAG04");
    try reflexivity. exact H.
Defined.




(** The Authorize request is not gated: whenever the lookup reaches the
    request, exactly one Authorize call is enqueued, with a fresh message
    id, even while [allowed_to_send_message] refuses that call. *)
Theorem authorize_request_not_gated cp now idTag enhanced_message cp1 result :
  authorize_id_token_local cp now idTag = inr cp1 ->
  authorize_id_token cp now idTag enhanced_message = Some result ->
  MessageQueue.queue (message_queue result.2)
  = MessageQueue.queue (message_queue cp) ++ [authorize_call cp idTag]
  /\ MessageQueue.next_message_id (message_queue result.2)
     = N.succ (MessageQueue.next_message_id (message_queue cp)).
Proof.
  intros Hl. unfold authorize_id_token. rewrite Hl.
  assert (Hq : message_queue cp1 = message_queue cp).
  { revert Hl. unfold authorize_id_token_local.
    destruct (authorize_locally cp); [|by intros [= <-]].
    destruct (if ChargePointConfiguration.getLocalAuthListEnabled _ then _
              else None); [discriminate|].
    destruct (ChargePointConfiguration.getAuthorizationCacheEnabled _);
      [|by intros [= <-]].
    pose proof (validate_against_cache_entries_frame cp now idTag) as Hf.
    destruct (validate_against_cache_entries cp now idTag) as [[] cp2];
      [discriminate|].
    intros [= <-]. simpl in Hf. by rewrite Hf. }
  unfold authorize_id_token_request, authorize_call. simpl. rewrite Hq.
  destruct (bool_decide _).
  - destruct (to_AuthorizeResponse _) as [call_result|]; [|discriminate].
    intros [= <-]. simpl. by destruct (bool_decide _).
  - destruct (EnhancedMessage.offline enhanced_message);
      [destruct (ChargePointConfiguration.getAllowOfflineTxForUnknownId _)
         as [[]|]|]; by intros [= <-].
Qed.

Lemma authorize_request_not_gated_witness :
  let call := authorize_call started_charge_point "TAG01" in
  allowed_to_send_message started_charge_point 0 call = false
  /\ exists result,
      authorize_id_token started_charge_point 0 "TAG01" offline_message
      = Some result
      /\ MessageQueue.queue (message_queue result.2)
         = [boot_notification_call; call].
Proof.
  split; [reflexivity|]. eexists. split; [by vm_compute|].
  apply (authorize_request_not_gated started_charge_point 0 "TAG01"
           offline_message started_charge_point); by vm_compute.
Defined.

Lemma authorize_id_token_request_response cp idTag enhanced_message
    call_result :
  EnhancedMessage.messageType enhanced_message
  = MessageType.AuthorizeResponse ->
  to_AuthorizeResponse (EnhancedMessage.message enhanced_message)
  = Some call_result ->
  let id_tag_info :=
    AuthorizeResponse.idTagInfo (CallResult.msg call_result) in
  exists cp',
    authorize_id_token_request cp idTag enhanced_message
    = Some (id_tag_info, cp')
    /\ database_handler cp'
       = (if decide (IdTagInfo.status id_tag_info
                     = AuthorizationStatus.Accepted)
          then DatabaseHandler.insert_or_update_authorization_cache_entry
                 idTag id_tag_info (database_handler cp)
          else database_handler cp).
Proof.
  intros Hm Hc id_tag_info. unfold authorize_id_token_request. simpl.
  rewrite (bool_decide_eq_true_2 _ Hm), Hc. fold id_tag_info.
  eexists. split; [reflexivity|].
  destruct (decide (IdTagInfo.status id_tag_info
                    = AuthorizationStatus.Accepted)) as [H|H].
  - by rewrite (bool_decide_eq_true_2 _ H).
  - by rewrite (bool_decide_eq_false_2 _ H).
Qed.

(** The store as the local part of [authorize_id_token] leaves it when the
    lookup goes on to the request: as before, or with the expired cache
    entry of the id tag rewritten. *)
Lemma authorize_id_token_local_store cp now idTag cp1 :
  authorize_id_token_local cp now idTag = inr cp1 ->
  cp1 = cp
  \/ exists entry expiry,
       DatabaseHandler.get_authorization_cache_entry (database_handler cp)
         idTag = Some entry
       /\ IdTagInfo.status entry = AuthorizationStatus.Accepted
       /\ IdTagInfo.expiryDate entry = Some expiry
       /\ expiry < now
       /\ cp1 = with_expired_entry cp idTag entry.
Proof.
  unfold authorize_id_token_local.
  destruct (authorize_locally cp); [|intros [= <-]; by left].
  destruct (if ChargePointConfiguration.getLocalAuthListEnabled _ then _
            else None); [discriminate|].
  destruct (ChargePointConfiguration.getAuthorizationCacheEnabled _);
    [|intros [= <-]; by left].
  unfold validate_against_cache_entries.
  destruct (DatabaseHandler.get_authorization_cache_entry
              (database_handler cp) idTag) as [entry|] eqn:He;
    [|intros [= <-]; by left].
  case_bool_decide as Hs; [|intros [= <-]; by left].
  destruct (IdTagInfo.expiryDate entry) as [expiry|] eqn:Hx.
  - destruct (Z.ltb_spec expiry now) as [Hlt|Hge].
    + intros [= <-]. right. exists entry, expiry.
      repeat split; try done.
      unfold with_expired_entry, expired_entry. by rewrite Hx.
    + by rewrite He.
  - by rewrite He.
Qed.

(** When [authorize_id_token] reaches the Authorize request and the future
    resolves to an AuthorizeResponse, the id tag info of the response is the
    result, and it is written to the cache exactly if its status is
    Accepted.  A response with another status writes nothing: the store
    stays as the local lookup left it, that is as before the call, except
    that an Accepted cache entry of the id tag that has expired was
    rewritten as Expired. *)
Theorem authorize_response_cached_iff_accepted cp now idTag enhanced_message
    call_result cp1 :
  authorize_id_token_local cp now idTag = inr cp1 ->
  EnhancedMessage.messageType enhanced_message
  = MessageType.AuthorizeResponse ->
  to_AuthorizeResponse (EnhancedMessage.message enhanced_message)
  = Some call_result ->
  let id_tag_info :=
    AuthorizeResponse.idTagInfo (CallResult.msg call_result) in
  exists cp',
    authorize_id_token cp now idTag enhanced_message
    = Some (id_tag_info, cp')
    /\ database_handler cp'
       = (if decide (IdTagInfo.status id_tag_info
                     = AuthorizationStatus.Accepted)
          then DatabaseHandler.insert_or_update_authorization_cache_entry
                 idTag id_tag_info (database_handler cp1)
          else database_handler cp1)
    /\ (cp1 = cp
        \/ exists entry expiry,
             DatabaseHandler.get_authorization_cache_entry
               (database_handler cp) idTag = Some entry
             /\ IdTagInfo.status entry = AuthorizationStatus.Accepted
             /\ IdTagInfo.expiryDate entry = Some expiry
             /\ expiry < now
             /\ cp1 = with_expired_entry cp idTag entry).
Proof.
  intros Hl Hm Hc id_tag_info. unfold authorize_id_token. rewrite Hl.
  destruct (authorize_id_token_request_response cp1 idTag enhanced_message
              call_result Hm Hc) as (cp' & Hr & Hd).
  exists cp'. split; [exact Hr|]. split; [exact Hd|].
  by apply (authorize_id_token_local_store cp now idTag).
Qed.

Lemma authorize_response_cached_iff_accepted_witness :
  exists cp',
    authorize_id_token expired_cache_charge_point 2000 "TAG02"
      blocked_authorize_response
    = Some (IdTagInfo.mk AuthorizationStatus.Blocked None None, cp')
    /\ DatabaseHandler.get_authorization_cache_entry (database_handler cp')
         "TAG02"
       = Some (IdTagInfo.mk AuthorizationStatus.Expired (Some 500) None).
Proof.
  destruct (authorize_response_cached_iff_accepted expired_cache_charge_point
              2000 "TAG02" blocked_authorize_response _
              (with_expired_entry expired_cache_charge_point "TAG02"
                 (IdTagInfo.mk AuthorizationStatus.Accepted (Some 500) None))
              eq_refl eq_refl eq_refl) as (cp' & Hr & Hd & _).
  exists cp'. split; [exact Hr|]. rewrite Hd. reflexivity.
Defined.

Lemma authorize_id_token_returns_witness :
  is_Some (authorize_id_token expired_cache_charge_point 2000 "TAG02"
             accepted_authorize_response).
Proof.
  apply (authorize_id_token_returns expired_cache_charge_point 2000 "TAG02"
           accepted_authorize_response).
  intros _. by eexists.
Defined.

(** ** SendLocalList: the outcomes *)

(** Whatever is not answered Accepted leaves the store as it is.  The
    answer is NotSupported exactly if the local list is disabled;
    VersionMismatch only for a differential update whose version is not
    above the stored one; Failed only for a differential update without a
    list. *)
Theorem send_local_list_not_accepted cp call status' :
  let msg := Call.msg call in
  let cp' := handleSendLocalListRequest cp call in
  last_response cp' = Some (send_local_list_response status') ->
  status' <> UpdateStatus.Accepted ->
  database_handler cp' = database_handler cp
  /\ (status' = UpdateStatus.NotSupported
      <-> ChargePointConfiguration.getLocalAuthListEnabled (configuration cp)
          = false)
  /\ (status' = UpdateStatus.VersionMismatch ->
      SendLocalListRequest.updateType msg = UpdateType.Differential
      /\ SendLocalListRequest.listVersion msg
         <= DatabaseHandler.get_local_list_version (database_handler cp))
  /\ (status' = UpdateStatus.Failed ->
      SendLocalListRequest.updateType msg = UpdateType.Differential
      /\ SendLocalListRequest.localAuthorizationList msg = None).
Proof.
  intros msg cp'. subst cp'. unfold handleSendLocalListRequest. fold msg.
  destruct (ChargePointConfiguration.getLocalAuthListEnabled
              (configuration cp));
    destruct (SendLocalListRequest.updateType msg);
    destruct (SendLocalListRequest.localAuthorizationList msg);
    cbn -[Z.ltb send_call_result last_response];
    repeat (case_bool_decide; try congruence);
    cbn -[Z.ltb send_call_result last_response];
    try (destruct (Z.ltb_spec
                     (DatabaseHandler.get_local_list_version
                        (database_handler cp))
                     (SendLocalListRequest.listVersion msg));
         cbn -[send_call_result last_response]);
    rewrite last_response_send_call_result; intros [= <-] Hne;
    try done;
    (split; [by destruct cp|]); (split; [done|]); split; try done;
    intros _; split; done || lia.
Qed.

Lemma send_local_list_not_accepted_witness :
  let call :=
    Call.mk (SendLocalListRequest.mk 5 (Some []) UpdateType.Differential)
      "cs-8" in
  let cp' := handleSendLocalListRequest booted_charge_point call in
  last_response cp'
  = Some (send_local_list_response UpdateStatus.VersionMismatch)
  /\ database_handler cp' = database_handler booted_charge_point.
Proof.
  split; [reflexivity|].
  refine (proj1 (send_local_list_not_accepted booted_charge_point
                   (Call.mk
                      (SendLocalListRequest.mk 5 (Some [])
                         UpdateType.Differential) "cs-8")
                   UpdateStatus.VersionMismatch eq_refl _)).
  discriminate.
Defined.

Lemma foldl_local_list_unmentioned (entries : list LocalAuthorizationList.t)
    (id_tag : string) :
  id_tag ∉ LocalAuthorizationList.idTag <$> entries ->
  forall m : gmap string IdTagInfo.t,
  foldl (fun m entry =>
           match LocalAuthorizationList.idTagInfo entry with
           | Some info => <[LocalAuthorizationList.idTag entry := info]> m
           | None => delete (LocalAuthorizationList.idTag entry) m
           end) m entries !! id_tag
  = m !! id_tag.
Proof.
  induction entries as [|entry entries IH]; intros Hnot m; simpl; [done|].
  rewrite fmap_cons in Hnot. apply not_elem_of_cons in Hnot as [Hne Hnot].
  rewrite IH by done.
  destruct (LocalAuthorizationList.idTagInfo entry).
  - by rewrite lookup_insert_ne.
  - by rewrite lookup_delete_ne.
Qed.

(** After an accepted update, an id tag that the request does not mention
    is gone from the local list if the update is Full, and keeps its entry
    if the update is Differential. *)
Theorem send_local_list_unmentioned cp call id_tag :
  let msg := Call.msg call in
  let cp' := handleSendLocalListRequest cp call in
  last_response cp' = Some (send_local_list_response UpdateStatus.Accepted) ->
  ~ mentioned id_tag (SendLocalListRequest.localAuthorizationList msg) ->
  DatabaseHandler.get_local_authorization_list_entry (database_handler cp')
    id_tag
  = match SendLocalListRequest.updateType msg with
    | UpdateType.Full => None
    | UpdateType.Differential =>
        DatabaseHandler.get_local_authorization_list_entry
          (database_handler cp) id_tag
    end.
Proof.
  intros msg cp'. subst cp'. unfold handleSendLocalListRequest, mentioned.
  fold msg.
  destruct (ChargePointConfiguration.getLocalAuthListEnabled
              (configuration cp));
    destruct (SendLocalListRequest.updateType msg);
    destruct (SendLocalListRequest.localAuthorizationList msg)
      as [entries|];
    cbn -[Z.ltb send_call_result last_response];
    repeat (case_bool_decide; try congruence);
    cbn -[Z.ltb send_call_result last_response];
    try (destruct (Z.ltb_spec
                     (DatabaseHandler.get_local_list_version
                        (database_handler cp))
                     (SendLocalListRequest.listVersion msg));
         cbn -[send_call_result last_response]);
    rewrite last_response_send_call_result; try discriminate;
    intros _ Hnot; unfold DatabaseHandler.get_local_authorization_list_entry;
    simpl; rewrite ?foldl_local_list_unmentioned by done; done.
Qed.

Lemma send_local_list_unmentioned_witness :
  let cp' :=
    handleSendLocalListRequest local_list_charge_point full_update_call in
  DatabaseHandler.get_local_authorization_list_entry
    (database_handler local_list_charge_point) "TAG03"
  = Some (IdTagInfo.mk AuthorizationStatus.Accepted None None)
  /\ DatabaseHandler.get_local_authorization_list_entry (database_handler cp')
       "TAG03" = None.
Proof.
  split; [reflexivity|].
  apply (send_local_list_unmentioned local_list_charge_point full_update_call
           "TAG03"); [reflexivity|]. intros H. exact H.
Defined.

(** ** RemoteStartTransaction: rejections and effects *)

(** The request is rejected, and nothing but the response happens, when it
    names connector 0, an inoperative connector, a connector with a
    transaction, or a connector in state Finishing; and when it carries a
    charging profile without a connector id, with a purpose other than
    TxProfile, or one that the validation refuses. *)
Theorem remote_start_rejected cp call :
  let msg := Call.msg call in
  let c := configuration cp in
  (exists connector,
     RemoteStartTransactionRequest.connectorId msg = Some connector
     /\ (connector = 0
         \/ DatabaseHandler.get_connector_availability (database_handler cp)
              connector = AvailabilityType.Inoperative
         \/ is_Some (TransactionHandler.get_transaction
                       (transaction_handler cp) connector)
         \/ ChargePointStates.get_state (status cp) connector
            = ChargePointStatus.Finishing))
  \/ (exists profile,
        RemoteStartTransactionRequest.chargingProfile msg = Some profile
        /\ (RemoteStartTransactionRequest.connectorId msg = None
            \/ ChargingProfile.chargingProfilePurpose profile
               <> ChargingProfilePurposeType.TxProfile
            \/ exists connector,
                 RemoteStartTransactionRequest.connectorId msg
                 = Some connector
                 /\ SmartChargingHandler.validate_profile
                      (smart_charging_handler cp) profile connector true
                      (ChargePointConfiguration.getChargeProfileMaxStackLevel
                         c)
                      (ChargePointConfiguration.getMaxChargingProfilesInstalled
                         c)
                      (ChargePointConfiguration.getChargingScheduleMaxPeriods
                         c)
                      (ChargePointConfiguration.getChargingScheduleAllowedChargingRateUnitVector
                         c)
                    = false)) ->
  handleRemoteStartTransactionRequest cp call
  = send_call_result cp
      (CallResult.mk (remote_start_response RemoteStartStopStatus.Rejected)
         (Call.uniqueId call)).
Proof.
  intros msg c H. unfold handleRemoteStartTransactionRequest. fold msg c.
  destruct H as [(connector & Hc & H)|(profile & Hp & H)].
  - rewrite Hc.
    destruct (Z.eqb_spec connector 0) as [->|Hne]; [done|].
    destruct H as [H|[H|[H|H]]]; [done| | |].
    + by rewrite (bool_decide_eq_true_2 _ H).
    + rewrite (bool_decide_eq_true_2 _ H). by destruct (bool_decide _).
    + rewrite (bool_decide_eq_true_2 (_ = ChargePointStatus.Finishing) H).
      rewrite orb_true_r. by destruct (bool_decide _).
  - rewrite Hp.
    destruct (match RemoteStartTransactionRequest.connectorId msg with
              | Some _ => _ | None => false end); [done|].
    destruct H as [H|[H|(connector & Hc & H)]].
    + by rewrite H.
    + rewrite (bool_decide_eq_false_2 _ H).
      by destruct (RemoteStartTransactionRequest.connectorId msg).
    + rewrite Hc, H. by rewrite andb_false_r.
Qed.

Lemma remote_start_rejected_witness :
  is_Some (TransactionHandler.get_transaction
             (transaction_handler charging_charge_point) 1)
  /\ handleRemoteStartTransactionRequest charging_charge_point
       (remote_start_call (Some 1))
     = send_call_result charging_charge_point
         (CallResult.mk
            (remote_start_response RemoteStartStopStatus.Rejected) "cs-9").
Proof.
  assert (H : is_Some (TransactionHandler.get_transaction
                         (transaction_handler charging_charge_point) 1))
    by (by eexists).
  split; [exact H|].
  apply (remote_start_rejected charging_charge_point
           (remote_start_call (Some 1))).
  left. exists 1. split; [reflexivity|]. right; right; left. exact H.
Defined.

(** The effects follow the answer.  Rejected: nothing but the response.
    Accepted: the response is sent, a charging profile of the request is
    handed to the smart charging handler as TxProfile of its connector, and
    the provide-token callback is invoked once with the connector of the
    request, or with all connectors 1..NumberOfConnectors if it names
    none. *)
Theorem remote_start_effects cp call status' :
  let msg := Call.msg call in
  let cp' := handleRemoteStartTransactionRequest cp call in
  last_response cp' = Some (remote_start_response status') ->
  match status' with
  | RemoteStartStopStatus.Rejected =>
      cp' = send_call_result cp
              (CallResult.mk
                 (remote_start_response RemoteStartStopStatus.Rejected)
                 (Call.uniqueId call))
  | RemoteStartStopStatus.Accepted =>
      callback_invocations cp'
      = callback_invocations cp
        ++ [provide_token_callback_call
              (RemoteStartTransactionRequest.idTag msg)
              (match RemoteStartTransactionRequest.connectorId msg with
               | Some connector => [connector]
               | None =>
                   seqZ 1 (ChargePointConfiguration.getNumberOfConnectors
                             (configuration cp))
               end)
              (negb (ChargePointConfiguration.getAuthorizeRemoteTxRequests
                       (configuration cp)))]
      /\ SmartChargingHandler.tx_profiles (smart_charging_handler cp')
         = SmartChargingHandler.tx_profiles (smart_charging_handler cp)
           ++ match RemoteStartTransactionRequest.chargingProfile msg,
                    RemoteStartTransactionRequest.connectorId msg with
              | Some profile, Some connector => [(connector, profile)]
              | _, _ => []
              end
      /\ Websocket.sent (websocket cp')
         = Websocket.sent (websocket cp)
           ++ [Frame_CallResult
                 (CallResult.mk
                    (remote_start_response RemoteStartStopStatus.Accepted)
                    (Call.uniqueId call))]
  end.
Proof.
  intros msg cp'. subst cp'. unfold handleRemoteStartTransactionRequest.
  fold msg.
  destruct (match RemoteStartTransactionRequest.connectorId msg with
            | Some _ => _ | None => false end).
  { rewrite last_response_send_call_result. by intros [= <-]. }
  destruct (RemoteStartTransactionRequest.chargingProfile msg) as [profile|];
    [destruct (RemoteStartTransactionRequest.connectorId msg)
       as [connector|];
     [destruct (_ && _)|]|];
    try (rewrite last_response_send_call_result; by intros [= <-]).
  - unfold last_response. cbn. rewrite last_snoc. intros [= <-].
    rewrite app_nil_r || idtac.
    destruct (ChargePointConfiguration.getAuthorizeRemoteTxRequests
                (configuration cp)); by repeat split.
  - unfold last_response. cbn. rewrite last_snoc. intros [= <-].
    destruct (ChargePointConfiguration.getAuthorizeRemoteTxRequests
                (configuration cp));
      destruct (RemoteStartTransactionRequest.connectorId msg);
      by rewrite app_nil_r.
Qed.

Lemma remote_start_effects_witness :
  let cp' :=
    handleRemoteStartTransactionRequest booted_charge_point
      (remote_start_call (Some 2)) in
  last_response cp' = Some (remote_start_response RemoteStartStopStatus.Accepted)
  /\ callback_invocations cp' = [provide_token_callback_call "TAG01" [2] false].
Proof.
  split; [reflexivity|].
  exact (proj1 (remote_start_effects booted_charge_point
                  (remote_start_call (Some 2)) RemoteStartStopStatus.Accepted
                  eq_refl)).
Defined.

(** ** ChangeAvailability: what Scheduled and Accepted leave behind *)

(** A request for connector id 0 while some connector has a transaction is
    answered Scheduled and changes only the queue: the change is queued for
    the connectors with a transaction and for no other, and for the idle
    connectors it is neither persisted nor applied (no callback, no event)
    nor queued. *)
Theorem change_availability_scheduled_for_all cp call :
  let msg := Call.msg call in
  let number_of_connectors :=
    ChargePointConfiguration.getNumberOfConnectors (configuration cp) in
  let active :=
    TransactionHandler.transaction_active (transaction_handler cp) in
  ChangeAvailabilityRequest.connectorId msg = 0 ->
  (exists connector,
     1 <= connector <= number_of_connectors /\ active connector = true) ->
  exists queue,
    handleChangeAvailabilityRequest cp call
    = send_call_result (set_change_availability_queue queue cp)
        (CallResult.mk
           (change_availability_response AvailabilityStatus.Scheduled)
           (Call.uniqueId call))
    /\ forall connector,
         queue !! connector
         = if decide (1 <= connector <= number_of_connectors
                      /\ active connector = true)
           then Some (ChangeAvailabilityRequest.type msg)
           else change_availability_queue cp !! connector.
Proof.
  intros msg n active Hc (c0 & Hrange & Hactive).
  unfold handleChangeAvailabilityRequest. fold msg n. rewrite Hc.
  replace (0 <=? n) with true by (symmetry; apply Z.leb_le; lia).
  cbn [andb Z.eqb Z.leb Z.compare].
  rewrite change_availability_scan_foldl. cbn [orb app]. fold active.
  assert (Hex : existsb active (seqZ 1 n) = true).
  { apply existsb_exists. exists c0. split; [|done].
    apply list_elem_of_In, elem_of_seqZ. lia. }
  rewrite Hex. eexists. split; [reflexivity|].
  intros c. rewrite foldl_insert_lookup.
  destruct (decide (c ∈ List.filter active (seqZ 1 n))) as [Hin|Hin];
    destruct (decide (1 <= c <= n /\ active c = true)) as [Hd|Hd]; try done.
  - exfalso. apply Hd. apply list_elem_of_In, filter_In in Hin as [Hin ?].
    apply list_elem_of_In, elem_of_seqZ in Hin. split; [lia|done].
  - exfalso. apply Hin. apply list_elem_of_In, filter_In.
    destruct Hd as [? ?]. split; [|done].
    apply list_elem_of_In, elem_of_seqZ. lia.
Qed.

Lemma change_availability_scheduled_for_all_witness :
  exists queue,
    handleChangeAvailabilityRequest charging_charge_point
      (change_availability_call 0)
    = send_call_result
        (set_change_availability_queue queue charging_charge_point)
        (CallResult.mk
           (change_availability_response AvailabilityStatus.Scheduled) "cs-3")
    /\ queue !! 1 = Some AvailabilityType.Inoperative
    /\ queue !! 2 = None.
Proof.
  destruct (change_availability_scheduled_for_all charging_charge_point
              (change_availability_call 0) eq_refl)
    as (queue & Hh & Hq).
  { exists 1. split; [by vm_compute|reflexivity]. }
  exists queue. split; [exact Hh|].
  split; [rewrite Hq; reflexivity | rewrite Hq; reflexivity].
Defined.

Lemma foldl_apply_availability_callbacks type connectors : forall cp,
  callback_invocations (foldl (apply_availability type) cp connectors)
  = callback_invocations cp
    ++ (if availability_callback_registered type cp
        then availability_callback type <$> connectors else []).
Proof.
  induction connectors as [|c connectors IH]; intros cp; simpl.
  - destruct (availability_callback_registered type cp);
      by rewrite app_nil_r.
  - rewrite IH, apply_availability_spec.
    destruct type, cp as [? ? ? ? ? ? ? ? ? ? ? ? ? [] [] ? ?]; simpl;
      by rewrite <- ?app_assoc, ?app_nil_r.
Qed.

(** When no targeted connector has a transaction, the enable (or disable)
    callback, if registered, is invoked once for every targeted connector,
    in increasing order; and an older queued change of a targeted connector
    is left in the queue. *)
Theorem change_availability_accepted_callbacks cp call :
  let msg := Call.msg call in
  let connectorId := ChangeAvailabilityRequest.connectorId msg in
  let type := ChangeAvailabilityRequest.type msg in
  let targeted := targeted_connectors cp connectorId in
  let cp' := handleChangeAvailabilityRequest cp call in
  0 <= connectorId
    <= ChargePointConfiguration.getNumberOfConnectors (configuration cp) ->
  existsb (TransactionHandler.transaction_active (transaction_handler cp))
          targeted = false ->
  callback_invocations cp'
  = callback_invocations cp
    ++ (if availability_callback_registered type cp
        then availability_callback type <$> targeted else [])
  /\ change_availability_queue cp' = change_availability_queue cp.
Proof.
  intros msg c type targeted cp' Hrange Hidle.
  split;
    [|by apply (handleChangeAvailabilityRequest_accepted cp call Hrange)].
  subst cp' targeted. revert Hidle.
  unfold handleChangeAvailabilityRequest, targeted_connectors.
  fold msg c type. connector_in_range c.
  cbn [andb]. destruct (c =? 0).
  - intros Hidle. rewrite change_availability_scan_foldl. cbn [orb app].
    destruct (filter_existsb_false _ _ Hidle) as [Hf Hg].
    rewrite Hidle, Hf, Hg.
    cbn [send_call_result set_websocket callback_invocations].
    rewrite foldl_apply_availability_callbacks. by destruct type.
  - cbn [existsb]. rewrite orb_false_r. intros ->.
    cbn [send_call_result set_websocket callback_invocations].
    rewrite foldl_apply_availability_callbacks. by destruct type.
Qed.

Lemma change_availability_accepted_callbacks_witness :
  callback_invocations
    (handleChangeAvailabilityRequest booted_charge_point
       (change_availability_call 0))
  = [disable_evse_callback_call 1; disable_evse_callback_call 2].
Proof.
  refine (proj1 (change_availability_accepted_callbacks booted_charge_point
                   (change_availability_call 0) _ eq_refl)).
  by vm_compute.
Defined.

Lemma handleStopTransactionResponse_applies_queued cp call_result
    availability :
  change_availability_queue cp !! 1 = Some availability ->
  DatabaseHandler.connector_availability
    (database_handler (handleStopTransactionResponse cp call_result))
  = <[1 := availability]>
      (DatabaseHandler.connector_availability (database_handler cp)).
Proof.
  intros Hq. unfold handleStopTransactionResponse.
  destruct (StopTransactionResponse.idTagInfo (CallResult.msg call_result))
    as [id_tag_info|];
    [destruct (TransactionHandler.get_authorized_id_tag
                 (transaction_handler cp) (CallResult.uniqueId call_result))
       as [id_tag|]|];
    simpl; rewrite Hq; simpl; rewrite ?apply_availability_spec; done.
Qed.

(** An accepted change does not cancel a queued one.  If a change of
    connector 1 is still queued when a request for connector 1 is accepted,
    the next StopTransactionResponse applies the queued change on top of
    the accepted one: the persisted availability of connector 1 ends up as
    the queued type. *)
Theorem queued_change_overrides_accepted cp call queued call_result :
  let cp1 := handleChangeAvailabilityRequest cp call in
  let cp2 := handleStopTransactionResponse cp1 call_result in
  ChangeAvailabilityRequest.connectorId (Call.msg call) = 1 ->
  1 <= ChargePointConfiguration.getNumberOfConnectors (configuration cp) ->
  TransactionHandler.transaction_active (transaction_handler cp) 1 = false ->
  change_availability_queue cp !! 1 = Some queued ->
  last_response cp1
  = Some (change_availability_response AvailabilityStatus.Accepted)
  /\ DatabaseHandler.connector_availability (database_handler cp1) !! 1
     = Some (ChangeAvailabilityRequest.type (Call.msg call))
  /\ DatabaseHandler.connector_availability (database_handler cp2) !! 1
     = Some queued.
Proof.
  intros cp1 cp2 Hc Hn Hidle Hq.
  destruct (handleChangeAvailabilityRequest_accepted cp call)
    as (Hresp & Hdb & _ & Hqueue).
  { rewrite Hc. lia. }
  { unfold targeted_connectors. rewrite Hc. simpl. by rewrite Hidle. }
  unfold targeted_connectors in Hdb. rewrite Hc in Hdb. simpl in Hdb.
  split; [exact Hresp|]. split.
  - subst cp1. rewrite Hdb. apply lookup_insert_eq.
  - subst cp2.
    rewrite (handleStopTransactionResponse_applies_queued cp1 call_result
               queued) by (subst cp1; by rewrite Hqueue).
    apply lookup_insert_eq.
Qed.

Lemma queued_change_overrides_accepted_witness :
  let cp1 :=
    handleChangeAvailabilityRequest stopped_with_queued_change
      (make_operative_call 1) in
  let cp2 :=
    handleStopTransactionResponse cp1
      (CallResult.mk (StopTransactionResponse.mk None) "stop-1") in
  change_availability_queue stopped_with_queued_change !! 1
  = Some AvailabilityType.Inoperative
  /\ last_response cp1
     = Some (change_availability_response AvailabilityStatus.Accepted)
  /\ DatabaseHandler.connector_availability (database_handler cp1) !! 1
     = Some AvailabilityType.Operative
  /\ DatabaseHandler.connector_availability (database_handler cp2) !! 1
     = Some AvailabilityType.Inoperative.
Proof.
  split; [reflexivity|].
  apply (queued_change_overrides_accepted stopped_with_queued_change
           (make_operative_call 1) AvailabilityType.Inoperative
           (CallResult.mk (StopTransactionResponse.mk None) "stop-1"));
    by vm_compute.
Defined.

Lemma handleChangeAvailabilityRequest_rejected_witness :
  ~ (0 <= -1
       <= ChargePointConfiguration.getNumberOfConnectors
            (configuration booted_charge_point))
  /\ handleChangeAvailabilityRequest booted_charge_point
       (change_availability_call (-1))
     = send_call_result booted_charge_point
         (CallResult.mk
            (change_availability_response AvailabilityStatus.Rejected) "cs-3").
Proof.
  assert (H : ~ (0 <= -1
                   <= ChargePointConfiguration.getNumberOfConnectors
                        (configuration booted_charge_point))) by lia.
  split; [exact H|].
  exact (handleChangeAvailabilityRequest_rejected booted_charge_point
           (change_availability_call (-1)) H).
Defined.

(** ** StopTransactionResponse: cache and bookkeeping *)

(** The id tag info of a StopTransactionResponse is written to the
    authorization cache exactly if the response carries one and its message
    id is the stop message id of a stopped transaction, under the id tag of
    that transaction.  The stopped transactions with that message id are
    forgotten, all others and the active transactions are kept. *)
Theorem stop_transaction_response_bookkeeping cp call_result :
  let cp' := handleStopTransactionResponse cp call_result in
  let uniqueId := CallResult.uniqueId call_result in
  DatabaseHandler.authorization_cache (database_handler cp')
  = match StopTransactionResponse.idTagInfo (CallResult.msg call_result),
          TransactionHandler.get_authorized_id_tag (transaction_handler cp)
            uniqueId with
    | Some id_tag_info, Some id_tag =>
        <[id_tag := id_tag_info]>
          (DatabaseHandler.authorization_cache (database_handler cp))
    | _, _ => DatabaseHandler.authorization_cache (database_handler cp)
    end
  /\ TransactionHandler.active_transactions (transaction_handler cp')
     = TransactionHandler.active_transactions (transaction_handler cp)
  /\ (forall tx,
        tx ∈ TransactionHandler.stopped_transactions (transaction_handler cp')
        <-> tx ∈ TransactionHandler.stopped_transactions
                   (transaction_handler cp)
            /\ Transaction.stop_transaction_message_id tx <> uniqueId).
Proof.
  unfold handleStopTransactionResponse.
  destruct (StopTransactionResponse.idTagInfo (CallResult.msg call_result))
    as [id_tag_info|];
    [destruct (TransactionHandler.get_authorized_id_tag
                 (transaction_handler cp) (CallResult.uniqueId call_result))
       as [id_tag|]|];
    simpl; destruct (change_availability_queue cp !! 1) as [availability|];
    simpl; rewrite ?apply_availability_spec; simpl;
    (split; [done|]); (split; [done|]); intros tx;
    rewrite !list_elem_of_In, filter_In;
    unfold TransactionHandler.has_stop_message_id;
    rewrite negb_true_iff, bool_decide_eq_false; done.
Qed.

(** ** The connect event outside the Booted state *)

(** Outside the Booted state a connect event sends and enqueues nothing
    and does not touch the registration.  It clears the pending security
    profile switch, has the fallback CA removed, and turns Disconnected into
    Connected; in the states Connected, Pending and Rejected the connection
    state stays as it is.  The Booted state is never entered by a connect
    event. *)
Theorem connected_callback_not_booted cp now :
  connection_state cp <> ChargePointConnectionState.Booted ->
  let cp' := connected_callback cp now in
  cp' = set_connection_state (connection_state cp')
          (set_pki_handler
             (PkiHandler.removeCentralSystemFallbackCa (pki_handler cp))
             (set_switch_security_profile_callback None cp))
  /\ message_queue cp' = message_queue cp
  /\ websocket cp' = websocket cp
  /\ (connection_state cp = ChargePointConnectionState.Disconnected
      -> connection_state cp' = ChargePointConnectionState.Connected)
  /\ (connection_state cp <> ChargePointConnectionState.Disconnected
      -> connection_state cp' = connection_state cp)
  /\ connection_state cp' <> ChargePointConnectionState.Booted.
Proof.
  intros Hc. unfold connected_callback.
  cbn [connection_state set_pki_handler set_switch_security_profile_callback].
  destruct (connection_state cp) eqn:Hs; try done; simpl; rewrite ?Hs;
    repeat split; try done; by destruct cp; simpl in *; subst.
Qed.

Lemma connected_callback_not_booted_witness :
  connection_state pending_charge_point
  <> ChargePointConnectionState.Booted
  /\ message_queue (connected_callback pending_charge_point 2000)
     = message_queue pending_charge_point
  /\ connection_state (connected_callback pending_charge_point 2000)
     = ChargePointConnectionState.Pending.
Proof.
  assert (H : connection_state pending_charge_point
              <> ChargePointConnectionState.Booted) by discriminate.
  split; [exact H|].
  destruct (connected_callback_not_booted pending_charge_point 2000 H)
    as (_ & Hq & _ & _ & Hs & _).
  split; [exact Hq|]. by apply Hs.
Defined.

(** ** Composite charging schedules *)

Lemma foldl_insert_with_lookup {V} (f : Z -> V) (keys : list Z) :
  forall (m : gmap Z V) (c : Z),
  foldl (fun m k => <[k := f k]> m) m keys !! c
  = if decide (c ∈ keys) then Some (f c) else m !! c.
Proof.
  induction keys as [|k keys IH]; intros m c; cbn [foldl].
  - destruct (decide (c ∈ [])) as [H|H]; [by apply elem_of_nil in H | done].
  - rewrite IH.
    destruct (decide (c ∈ keys)) as [H|H],
      (decide (c ∈ k :: keys)) as [H'|H']; try done.
    + exfalso. apply H'. by right.
    + apply elem_of_cons in H' as [->|]; [|done]. by rewrite lookup_insert_eq.
    + rewrite lookup_insert_ne; [done|]. intros ->. apply H'. by left.
Qed.

(** [get_all_composite_charging_schedules] returns a schedule for exactly
    the connector ids 0 up to NumberOfConnectors - 1, each computed for the
    window that starts at the time read in its iteration and lasts
    [duration_s] seconds.  The connector with the highest id,
    NumberOfConnectors, gets none: the loop stops before it, while the
    loop of [connected_callback] includes it. *)
Theorem composite_schedules_lookup {ChargingSchedule : Type}
    (composite_schedule : Z -> Z -> Z -> ChargingSchedule)
    (cp : ChargePoint) (clock : Z -> Z) (duration_s c : Z) :
  let n := ChargePointConfiguration.getNumberOfConnectors (configuration cp) in
  let schedules :=
    get_all_composite_charging_schedules composite_schedule cp clock
      duration_s in
  schedules !! c
  = (if bool_decide (0 <= c < n)
     then Some (composite_schedule (clock c) (clock c + seconds duration_s) c)
     else None)
  /\ schedules !! n = None.
Proof.
  intros n schedules. subst schedules.
  unfold get_all_composite_charging_schedules. fold n.
  rewrite !(foldl_insert_with_lookup
              (fun k => composite_schedule (clock k)
                          (clock k + seconds duration_s) k)).
  split.
  - destruct (decide (c ∈ seqZ 0 n)) as [H|H]; case_bool_decide as Hc;
      try done; rewrite elem_of_seqZ in H; lia.
  - destruct (decide (n ∈ seqZ 0 n)) as [H|H]; [|done].
    rewrite elem_of_seqZ in H. lia.
Qed.

(** ** UnlockConnector *)

(** The unlock callback is reached exactly when one is registered and the
    connector id of the request is not 0 and not above NumberOfConnectors:
    it is then invoked with that id.  Negative connector ids pass the range
    check. *)
Theorem unlock_connector_callback_reached (cp : ChargePoint)
    (unlock_connector_callback : option (Z -> bool))
    (call : Call.t UnlockConnectorRequest.t) (c : Z) :
  let connector := UnlockConnectorRequest.connectorId (Call.msg call) in
  effect_unlock_connector_callback c
    ∈ handleUnlockConnectorRequest cp unlock_connector_callback call
  <-> is_Some unlock_connector_callback
      /\ c = connector
      /\ connector <> 0
      /\ connector
         <= ChargePointConfiguration.getNumberOfConnectors (configuration cp).
Proof.
  intros connector. unfold handleUnlockConnectorRequest. fold connector.
  destruct (Z.eqb_spec connector 0) as [H0|H0]; simpl.
  - rewrite list_elem_of_singleton. split; [done|]. intros (_ & _ & ? & _).
    done.
  - destruct (Z.ltb_spec
                (ChargePointConfiguration.getNumberOfConnectors
                   (configuration cp)) connector) as [Hn|Hn]; simpl.
    + rewrite list_elem_of_singleton. split; [done|].
      intros (_ & _ & _ & ?). lia.
    + destruct unlock_connector_callback as [callback|];
        destruct (TransactionHandler.transaction_active _ _); simpl;
        rewrite ?elem_of_cons, ?elem_of_nil; split;
        try (intros [?|[?|[?|?]]]; try done);
        try (intros [?|[?|?]]; try done);
        try (intros [?|?]; try done);
        try (intros ([? ?] & _); done).
      all: try (simplify_eq; by eauto).
      all: intros (_ & -> & _); eauto.
Qed.

(** A transaction running on the connector of an UnlockConnector request
    is stopped first (reason UnlockCommand), whatever the unlock callback
    does afterwards: also when no unlock callback is registered and the
    answer is NotSupported, and when the unlocking fails.  The response is
    the last effect. *)
Theorem unlock_connector_stops_transaction_first (cp : ChargePoint)
    (unlock_connector_callback : option (Z -> bool))
    (call : Call.t UnlockConnectorRequest.t) :
  let connector := UnlockConnectorRequest.connectorId (Call.msg call) in
  connector <> 0 ->
  connector
  <= ChargePointConfiguration.getNumberOfConnectors (configuration cp) ->
  TransactionHandler.transaction_active (transaction_handler cp) connector
  = true ->
  handleUnlockConnectorRequest cp unlock_connector_callback call
  = effect_stop_transaction_callback connector Reason.UnlockCommand
    :: match unlock_connector_callback with
       | Some callback =>
           [effect_unlock_connector_callback connector;
            effect_send
              (if callback connector then UnlockStatus.Unlocked
               else UnlockStatus.UnlockFailed)
              (Call.uniqueId call)]
       | None =>
           [effect_send UnlockStatus.NotSupported (Call.uniqueId call)]
       end.
Proof.
  intros connector H0 Hn Ha. unfold handleUnlockConnectorRequest.
  fold connector. rewrite Ha.
  destruct (Z.eqb_spec connector 0) as [|_]; [done|].
  destruct (Z.ltb_spec
              (ChargePointConfiguration.getNumberOfConnectors
                 (configuration cp)) connector) as [|_]; [lia|].
  simpl. by destruct unlock_connector_callback.
Qed.

Lemma unlock_connector_stops_transaction_first_witness :
  handleUnlockConnectorRequest charging_charge_point None
    (example_unlock_call 1)
  = [effect_stop_transaction_callback 1 Reason.UnlockCommand;
     effect_send UnlockStatus.NotSupported "cs-11"].
Proof.
  apply (unlock_connector_stops_transaction_first charging_charge_point None
           (example_unlock_call 1)).
  - simpl. lia.
  - simpl. lia.
  - reflexivity.
Defined.

(** ** RemoteStopTransaction *)

Lemma get_connector_from_transaction_id_spec h transaction_id :
  (get_connector_from_transaction_id h transaction_id = -1
   /\ forall c tx, TransactionHandler.active_transactions h !! c = Some tx ->
        Transaction.transaction_id tx <> transaction_id)
  \/ exists c tx,
       TransactionHandler.active_transactions h !! c = Some tx
       /\ Transaction.transaction_id tx = transaction_id
       /\ get_connector_from_transaction_id h transaction_id
          = Transaction.connector tx.
Proof.
  unfold get_connector_from_transaction_id.
  destruct (List.find _ _) as [tx|] eqn:Hf; simpl.
  - right. apply find_some in Hf as [Hin Hid].
    apply list_elem_of_In, list_elem_of_fmap in Hin as ([c tx'] & -> & Hin).
    apply elem_of_map_to_list in Hin. exists c, tx'.
    by apply bool_decide_eq_true in Hid.
  - left. split; [done|]. intros c tx Hl Hid.
    pose proof (find_none _ _ Hf tx) as Hn.
    rewrite bool_decide_eq_false in Hn. apply Hn; [|done].
    apply list_elem_of_In, list_elem_of_fmap. exists (c, tx).
    split; [done|]. by apply elem_of_map_to_list.
Qed.

(** A RemoteStopTransaction request is answered first and acted on
    afterwards.  When no active transaction carries the transaction id of
    the request, the answer is Rejected and no callback is invoked.  When
    [stop_transaction_callback] is invoked, it is invoked once, after the
    answer Accepted, with reason Remote and with the (positive) connector
    of an active transaction that carries the transaction id. *)
Theorem remote_stop_transaction_effects (cp : ChargePoint)
    (call : Call.t RemoteStopTransactionRequest.t) :
  let transaction_id :=
    RemoteStopTransactionRequest.transactionId (Call.msg call) in
  let active :=
    TransactionHandler.active_transactions (transaction_handler cp) in
  let effects := handleRemoteStopTransactionRequest cp call in
  ((forall c tx, active !! c = Some tx ->
      Transaction.transaction_id tx <> transaction_id) ->
   effects
   = [effect_send RemoteStartStopStatus.Rejected (Call.uniqueId call)])
  /\ (forall connector reason,
        effect_stop_transaction_callback connector reason ∈ effects ->
        effects
        = [effect_send RemoteStartStopStatus.Accepted (Call.uniqueId call);
           effect_stop_transaction_callback connector Reason.Remote]
        /\ reason = Reason.Remote
        /\ 0 < connector
        /\ exists c tx,
             active !! c = Some tx
             /\ Transaction.transaction_id tx = transaction_id
             /\ Transaction.connector tx = connector).
Proof.
  intros transaction_id active effects. subst effects.
  unfold handleRemoteStopTransactionRequest. fold transaction_id.
  destruct (get_connector_from_transaction_id_spec (transaction_handler cp)
              transaction_id)
    as [[Hc Hnone]|(c & tx & Hl & Hid & Hc)]; rewrite Hc; split.
  - done.
  - simpl. intros connector reason Hin.
    apply list_elem_of_singleton in Hin. done.
  - intros Hnone. exfalso. by apply (Hnone c tx).
  - destruct (Z.ltb_spec 0 (Transaction.connector tx)) as [Hpos|Hpos]; simpl;
      intros connector reason Hin.
    + apply elem_of_cons in Hin as [Hin|Hin]; [done|].
      apply list_elem_of_singleton in Hin. simplify_eq.
      repeat split; try done. by exists c, tx.
    + apply list_elem_of_singleton in Hin. done.
Qed.

Lemma remote_stop_transaction_effects_witness :
  handleRemoteStopTransactionRequest charging_charge_point
    (Call.mk (RemoteStopTransactionRequest.mk 42) "cs-13")
  = [effect_send RemoteStartStopStatus.Accepted "cs-13";
     effect_stop_transaction_callback 1 Reason.Remote].
Proof.
  destruct (remote_stop_transaction_effects charging_charge_point
              (Call.mk (RemoteStopTransactionRequest.mk 42) "cs-13"))
    as [_ H].
  destruct (H 1 Reason.Remote) as [He _]; [|exact He].
  apply list_elem_of_further, list_elem_of_here.
Defined.

(** ** ClearCache *)

(** With the authorization cache enabled, ClearCache is answered Accepted
    and afterwards no id tag is validated against the cache, at any time;
    the local authorization list and its version stay.  With the cache
    disabled the answer is Rejected and nothing changes. *)
Theorem clear_cache_forgets_every_tag (cp : ChargePoint)
    (uniqueId : MessageId) :
  let cp' := (handleClearCacheRequest cp uniqueId).1 in
  let effects := (handleClearCacheRequest cp uniqueId).2 in
  if ChargePointConfiguration.getAuthorizationCacheEnabled (configuration cp)
  then
    effects = [effect_send ClearCacheStatus.Accepted uniqueId]
    /\ (forall now id_tag,
          validate_against_cache_entries cp' now id_tag = (false, cp'))
    /\ DatabaseHandler.get_local_list_version (database_handler cp')
       = DatabaseHandler.get_local_list_version (database_handler cp)
    /\ DatabaseHandler.local_authorization_list (database_handler cp')
       = DatabaseHandler.local_authorization_list (database_handler cp)
    /\ cp' = set_database_handler (database_handler cp') cp
  else
    effects = [effect_send ClearCacheStatus.Rejected uniqueId] /\ cp' = cp.
Proof.
  unfold handleClearCacheRequest.
  destruct (ChargePointConfiguration.getAuthorizationCacheEnabled _); simpl;
    [|done].
  repeat split; done.
Qed.

(** ** DataTransfer *)

(** Registering a data-transfer callback and receiving a request: a
    request for the registered vendor and message id is answered Accepted
    and then the callback registered last is invoked with the data of the
    request (the empty string when there is none); a request without a
    message id addresses the callback registered under the empty message
    id.  Requests of other vendors are handled as before the registration.
    A request of the same vendor for another message id is handled as
    before if the vendor was known, and is answered UnknownMessageId
    (before: UnknownVendorId) if it was not. *)
Theorem data_transfer_registered_callback {C : Type}
    (data_transfer_callbacks : gmap string (gmap string C))
    (vendor message : string) (callback : C)
    (call : Call.t DataTransferRequest.t) :
  let callbacks' :=
    register_data_transfer_callback vendor message callback
      data_transfer_callbacks in
  let vendorId := DataTransferRequest.vendorId (Call.msg call) in
  let messageId :=
    default EmptyString (DataTransferRequest.messageId (Call.msg call)) in
  (vendorId = vendor -> messageId = message ->
   handleDataTransferRequest callbacks' call
   = [effect_send DataTransferStatus.Accepted (Call.uniqueId call);
      effect_data_transfer_callback callback
        (default EmptyString (DataTransferRequest.data (Call.msg call)))])
  /\ (vendorId <> vendor ->
      handleDataTransferRequest callbacks' call
      = handleDataTransferRequest data_transfer_callbacks call)
  /\ (vendorId = vendor -> messageId <> message ->
      handleDataTransferRequest callbacks' call
      = match data_transfer_callbacks !! vendor with
        | Some _ => handleDataTransferRequest data_transfer_callbacks call
        | None =>
            [effect_send DataTransferStatus.UnknownMessageId
               (Call.uniqueId call)]
        end).
Proof.
  intros callbacks' vendorId messageId. subst callbacks'.
  unfold handleDataTransferRequest, register_data_transfer_callback.
  fold vendorId messageId. repeat split.
  - intros -> ->. by rewrite !lookup_insert_eq.
  - intros Hv. by rewrite lookup_insert_ne.
  - intros -> Hm. rewrite lookup_insert_eq.
    rewrite lookup_insert_ne by done.
    destruct (data_transfer_callbacks !! vendor) as [callbacks|]; simpl;
      [done|].
    by rewrite lookup_empty.
Qed.

Lemma data_transfer_registered_callback_witness :
  handleDataTransferRequest
    (register_data_transfer_callback "vendor" EmptyString 7%nat ∅)
    (example_data_transfer_call None)
  = [effect_send DataTransferStatus.Accepted "cs-12";
     effect_data_transfer_callback 7%nat "payload"].
Proof.
  apply (data_transfer_registered_callback ∅ "vendor" EmptyString 7%nat
           (example_data_transfer_call None)); reflexivity.
Defined.
